(** * Student management UI (app.py): validators and form handlers

    A shallow embedding of [StudentManagementUI] from [src/app.py]: the three
    field validators, the validation blocks of the add and update forms, the
    record construction of the add path, the keyword arguments of the update
    path and the search-and-filter section.

    Python strings are sequences of Unicode code points; the builtins the
    source relies on ([str.upper], [str.lower], [str.strip], [int], [re.match])
    are modelled on code points, with the case and digit tables of Unicode
    14.0.0 (the database of CPython 3.11). *)

From Stdlib Require Import List NArith ZArith Bool String Ascii Lia SpecFloat.
From Stdlib Require Import Permutation.
Import ListNotations.

(** ** Exceptions and results *)

Inductive exn : Type :=
| ValueError
| TypeError
| OverflowError
| AttributeError
| KeyError
| ReError
| StreamlitAPIException.

Inductive result (A : Type) : Type :=
| Ok (a : A)
| Raise (e : exn).

Arguments Ok {A} a.
Arguments Raise {A} e.

Definition bind {A B : Type} (m : result A) (k : A -> result B) : result B :=
  match m with
  | Ok a => k a
  | Raise e => Raise e
  end.

Notation "x <- m ;; k" := (bind m (fun x => k))
  (at level 61, m at next level, right associativity).

(** [try: m except e => h]: the handler runs only for the named exception. *)
Definition try_except {A : Type} (m : result A) (caught : exn -> bool) (h : result A)
  : result A :=
  match m with
  | Ok a => Ok a
  | Raise e => if caught e then h else Raise e
  end.

Definition is_ValueError (e : exn) : bool :=
  match e with ValueError => true | _ => false end.

(** ** Code points and strings *)

Definition cp : Type := N.
Definition pystr : Type := list cp.

(** A literal of the source, all of whose characters are ASCII. *)
Definition lit (s : string) : pystr := map N_of_ascii (list_ascii_of_string s).

Definition ch (a : ascii) : cp := N_of_ascii a.

Fixpoint assoc {B : Type} (c : N) (t : list (N * B)) : option B :=
  match t with
  | [] => None
  | (k, v) :: t' => if N.eqb k c then Some v else assoc c t'
  end.

Definition in_ranges (rs : list (N * N)) (c : cp) : bool :=
  existsb (fun r => N.leb (fst r) c && N.leb c (snd r)) rs.

Fixpoint pystr_eqb (a b : pystr) : bool :=
  match a, b with
  | [], [] => true
  | x :: a', y :: b' => N.eqb x y && pystr_eqb a' b'
  | _, _ => false
  end.

(** ** The Unicode character database (14.0.0) *)

Module Unicode.

Local Open Scope N_scope.

(** Code points for which [str.isspace] holds, as inclusive ranges. *)
Definition whitespace_ranges : list (N * N) :=
 [(9,13);(28,32);(133,133);(160,160);(5760,5760);(8192,8202);(8232,8233);(8239,8239);
  (8287,8287);(12288,12288)].

(** The zero of every run of ten decimal digits (general category Nd). *)
Definition decimal_zeros : list N :=
 [48;1632;1776;1984;2406;2534;2662;2790;2918;3046;3174;3302;3430;3558;3664;3792;3872;4160;4240;
  6112;6160;6470;6608;6784;6800;6992;7088;7232;7248;42528;43216;43264;43472;43504;43600;44016;
  65296;66720;68912;69734;69872;69942;70096;70384;70736;70864;71248;71360;71472;71904;72016;
  72784;73040;73120;92768;92864;93008;120782;120792;120802;120812;120822;123200;123632;125264;
  130032].

(** Code points with the Cased property, as inclusive ranges. *)
Definition cased_ranges : list (N * N) :=
 [(65,90);(97,122);(170,170);(181,181);(186,186);(192,214);(216,246);(248,442);(444,447);
  (452,659);(661,696);(704,705);(736,740);(837,837);(880,883);(886,887);(890,893);(895,895);
  (902,902);(904,906);(908,908);(910,929);(931,1013);(1015,1153);(1162,1327);(1329,1366);
  (1376,1416);(4256,4293);(4295,4295);(4301,4301);(4304,4346);(4349,4351);(5024,5109);
  (5112,5117);(7296,7304);(7312,7354);(7357,7359);(7424,7615);(7680,7957);(7960,7965);
  (7968,8005);(8008,8013);(8016,8023);(8025,8025);(8027,8027);(8029,8029);(8031,8061);
  (8064,8116);(8118,8124);(8126,8126);(8130,8132);(8134,8140);(8144,8147);(8150,8155);
  (8160,8172);(8178,8180);(8182,8188);(8305,8305);(8319,8319);(8336,8348);(8450,8450);
  (8455,8455);(8458,8467);(8469,8469);(8473,8477);(8484,8484);(8486,8486);(8488,8488);
  (8490,8493);(8495,8500);(8505,8505);(8508,8511);(8517,8521);(8526,8526);(8544,8575);
  (8579,8580);(9398,9449);(11264,11492);(11499,11502);(11506,11507);(11520,11557);(11559,11559);
  (11565,11565);(42560,42605);(42624,42653);(42786,42887);(42891,42894);(42896,42954);
  (42960,42961);(42963,42963);(42965,42969);(42997,42998);(43000,43002);(43824,43866);
  (43868,43880);(43888,43967);(64256,64262);(64275,64279);(65313,65338);(65345,65370);
  (66560,66639);(66736,66771);(66776,66811);(66928,66938);(66940,66954);(66956,66962);
  (66964,66965);(66967,66977);(66979,66993);(66995,67001);(67003,67004);(67456,67456);
  (67459,67461);(67463,67504);(67506,67514);(68736,68786);(68800,68850);(71840,71903);
  (93760,93823);(119808,119892);(119894,119964);(119966,119967);(119970,119970);(119973,119974);
  (119977,119980);(119982,119993);(119995,119995);(119997,120003);(120005,120069);
  (120071,120074);(120077,120084);(120086,120092);(120094,120121);(120123,120126);
  (120128,120132);(120134,120134);(120138,120144);(120146,120485);(120488,120512);
  (120514,120538);(120540,120570);(120572,120596);(120598,120628);(120630,120654);
  (120656,120686);(120688,120712);(120714,120744);(120746,120770);(120772,120779);
  (122624,122633);(122635,122654);(125184,125251);(127280,127305);(127312,127337);
  (127344,127369)].

(** Code points with the Case_Ignorable property, as inclusive ranges. *)
Definition case_ignorable_ranges : list (N * N) :=
 [(39,39);(46,46);(58,58);(94,94);(96,96);(168,168);(173,173);(175,175);(180,180);(183,184);
  (688,879);(884,885);(890,890);(900,901);(903,903);(1155,1161);(1369,1369);(1375,1375);
  (1425,1469);(1471,1471);(1473,1474);(1476,1477);(1479,1479);(1524,1524);(1536,1541);
  (1552,1562);(1564,1564);(1600,1600);(1611,1631);(1648,1648);(1750,1757);(1759,1768);
  (1770,1773);(1807,1807);(1809,1809);(1840,1866);(1958,1968);(2027,2037);(2042,2042);
  (2045,2045);(2070,2093);(2137,2139);(2184,2184);(2192,2193);(2200,2207);(2249,2306);
  (2362,2362);(2364,2364);(2369,2376);(2381,2381);(2385,2391);(2402,2403);(2417,2417);
  (2433,2433);(2492,2492);(2497,2500);(2509,2509);(2530,2531);(2558,2558);(2561,2562);
  (2620,2620);(2625,2626);(2631,2632);(2635,2637);(2641,2641);(2672,2673);(2677,2677);
  (2689,2690);(2748,2748);(2753,2757);(2759,2760);(2765,2765);(2786,2787);(2810,2815);
  (2817,2817);(2876,2876);(2879,2879);(2881,2884);(2893,2893);(2901,2902);(2914,2915);
  (2946,2946);(3008,3008);(3021,3021);(3072,3072);(3076,3076);(3132,3132);(3134,3136);
  (3142,3144);(3146,3149);(3157,3158);(3170,3171);(3201,3201);(3260,3260);(3263,3263);
  (3270,3270);(3276,3277);(3298,3299);(3328,3329);(3387,3388);(3393,3396);(3405,3405);
  (3426,3427);(3457,3457);(3530,3530);(3538,3540);(3542,3542);(3633,3633);(3636,3642);
  (3654,3662);(3761,3761);(3764,3772);(3782,3782);(3784,3789);(3864,3865);(3893,3893);
  (3895,3895);(3897,3897);(3953,3966);(3968,3972);(3974,3975);(3981,3991);(3993,4028);
  (4038,4038);(4141,4144);(4146,4151);(4153,4154);(4157,4158);(4184,4185);(4190,4192);
  (4209,4212);(4226,4226);(4229,4230);(4237,4237);(4253,4253);(4348,4348);(4957,4959);
  (5906,5908);(5938,5939);(5970,5971);(6002,6003);(6068,6069);(6071,6077);(6086,6086);
  (6089,6099);(6103,6103);(6109,6109);(6155,6159);(6211,6211);(6277,6278);(6313,6313);
  (6432,6434);(6439,6440);(6450,6450);(6457,6459);(6679,6680);(6683,6683);(6742,6742);
  (6744,6750);(6752,6752);(6754,6754);(6757,6764);(6771,6780);(6783,6783);(6823,6823);
  (6832,6862);(6912,6915);(6964,6964);(6966,6970);(6972,6972);(6978,6978);(7019,7027);
  (7040,7041);(7074,7077);(7080,7081);(7083,7085);(7142,7142);(7144,7145);(7149,7149);
  (7151,7153);(7212,7219);(7222,7223);(7288,7293);(7376,7378);(7380,7392);(7394,7400);
  (7405,7405);(7412,7412);(7416,7417);(7468,7530);(7544,7544);(7579,7679);(8125,8125);
  (8127,8129);(8141,8143);(8157,8159);(8173,8175);(8189,8190);(8203,8207);(8216,8217);
  (8228,8228);(8231,8231);(8234,8238);(8288,8292);(8294,8303);(8305,8305);(8319,8319);
  (8336,8348);(8400,8432);(11388,11389);(11503,11505);(11631,11631);(11647,11647);(11744,11775);
  (11823,11823);(12293,12293);(12330,12333);(12337,12341);(12347,12347);(12441,12446);
  (12540,12542);(40981,40981);(42232,42237);(42508,42508);(42607,42610);(42612,42621);
  (42623,42623);(42652,42655);(42736,42737);(42752,42785);(42864,42864);(42888,42890);
  (42994,42996);(43000,43001);(43010,43010);(43014,43014);(43019,43019);(43045,43046);
  (43052,43052);(43204,43205);(43232,43249);(43263,43263);(43302,43309);(43335,43345);
  (43392,43394);(43443,43443);(43446,43449);(43452,43453);(43471,43471);(43493,43494);
  (43561,43566);(43569,43570);(43573,43574);(43587,43587);(43596,43596);(43632,43632);
  (43644,43644);(43696,43696);(43698,43700);(43703,43704);(43710,43711);(43713,43713);
  (43741,43741);(43756,43757);(43763,43764);(43766,43766);(43867,43871);(43881,43883);
  (44005,44005);(44008,44008);(44013,44013);(64286,64286);(64434,64450);(65024,65039);
  (65043,65043);(65056,65071);(65106,65106);(65109,65109);(65279,65279);(65287,65287);
  (65294,65294);(65306,65306);(65342,65342);(65344,65344);(65392,65392);(65438,65439);
  (65507,65507);(65529,65531);(66045,66045);(66272,66272);(66422,66426);(67456,67461);
  (67463,67504);(67506,67514);(68097,68099);(68101,68102);(68108,68111);(68152,68154);
  (68159,68159);(68325,68326);(68900,68903);(69291,69292);(69446,69456);(69506,69509);
  (69633,69633);(69688,69702);(69744,69744);(69747,69748);(69759,69761);(69811,69814);
  (69817,69818);(69821,69821);(69826,69826);(69837,69837);(69888,69890);(69927,69931);
  (69933,69940);(70003,70003);(70016,70017);(70070,70078);(70089,70092);(70095,70095);
  (70191,70193);(70196,70196);(70198,70199);(70206,70206);(70367,70367);(70371,70378);
  (70400,70401);(70459,70460);(70464,70464);(70502,70508);(70512,70516);(70712,70719);
  (70722,70724);(70726,70726);(70750,70750);(70835,70840);(70842,70842);(70847,70848);
  (70850,70851);(71090,71093);(71100,71101);(71103,71104);(71132,71133);(71219,71226);
  (71229,71229);(71231,71232);(71339,71339);(71341,71341);(71344,71349);(71351,71351);
  (71453,71455);(71458,71461);(71463,71467);(71727,71735);(71737,71738);(71995,71996);
  (71998,71998);(72003,72003);(72148,72151);(72154,72155);(72160,72160);(72193,72202);
  (72243,72248);(72251,72254);(72263,72263);(72273,72278);(72281,72283);(72330,72342);
  (72344,72345);(72752,72758);(72760,72765);(72767,72767);(72850,72871);(72874,72880);
  (72882,72883);(72885,72886);(73009,73014);(73018,73018);(73020,73021);(73023,73029);
  (73031,73031);(73104,73105);(73109,73109);(73111,73111);(73459,73460);(78896,78904);
  (92912,92916);(92976,92982);(92992,92995);(94031,94031);(94095,94111);(94176,94177);
  (94179,94180);(110576,110579);(110581,110587);(110589,110590);(113821,113822);(113824,113827);
  (118528,118573);(118576,118598);(119143,119145);(119155,119170);(119173,119179);
  (119210,119213);(119362,119364);(121344,121398);(121403,121452);(121461,121461);
  (121476,121476);(121499,121503);(121505,121519);(122880,122886);(122888,122904);
  (122907,122913);(122915,122916);(122918,122922);(123184,123197);(123566,123566);
  (123628,123631);(125136,125142);(125252,125259);(127995,127999);(917505,917505);
  (917536,917631);(917760,917999)].

(** Code points whose upper-case form has several code points (SpecialCasing). *)
Definition upper_special : list (N * list N) :=
 [(223,[83;83]);(329,[700;78]);(496,[74;780]);(912,[921;776;769]);(944,[933;776;769]);
  (1415,[1333;1362]);(7830,[72;817]);(7831,[84;776]);(7832,[87;778]);(7833,[89;778]);
  (7834,[65;702]);(8016,[933;787]);(8018,[933;787;768]);(8020,[933;787;769]);
  (8022,[933;787;834]);(8064,[7944;921]);(8065,[7945;921]);(8066,[7946;921]);(8067,[7947;921]);
  (8068,[7948;921]);(8069,[7949;921]);(8070,[7950;921]);(8071,[7951;921]);(8072,[7944;921]);
  (8073,[7945;921]);(8074,[7946;921]);(8075,[7947;921]);(8076,[7948;921]);(8077,[7949;921]);
  (8078,[7950;921]);(8079,[7951;921]);(8080,[7976;921]);(8081,[7977;921]);(8082,[7978;921]);
  (8083,[7979;921]);(8084,[7980;921]);(8085,[7981;921]);(8086,[7982;921]);(8087,[7983;921]);
  (8088,[7976;921]);(8089,[7977;921]);(8090,[7978;921]);(8091,[7979;921]);(8092,[7980;921]);
  (8093,[7981;921]);(8094,[7982;921]);(8095,[7983;921]);(8096,[8040;921]);(8097,[8041;921]);
  (8098,[8042;921]);(8099,[8043;921]);(8100,[8044;921]);(8101,[8045;921]);(8102,[8046;921]);
  (8103,[8047;921]);(8104,[8040;921]);(8105,[8041;921]);(8106,[8042;921]);(8107,[8043;921]);
  (8108,[8044;921]);(8109,[8045;921]);(8110,[8046;921]);(8111,[8047;921]);(8114,[8122;921]);
  (8115,[913;921]);(8116,[902;921]);(8118,[913;834]);(8119,[913;834;921]);(8124,[913;921]);
  (8130,[8138;921]);(8131,[919;921]);(8132,[905;921]);(8134,[919;834]);(8135,[919;834;921]);
  (8140,[919;921]);(8146,[921;776;768]);(8147,[921;776;769]);(8150,[921;834]);
  (8151,[921;776;834]);(8162,[933;776;768]);(8163,[933;776;769]);(8164,[929;787]);
  (8166,[933;834]);(8167,[933;776;834]);(8178,[8186;921]);(8179,[937;921]);(8180,[911;921]);
  (8182,[937;834]);(8183,[937;834;921]);(8188,[937;921]);(64256,[70;70]);(64257,[70;73]);
  (64258,[70;76]);(64259,[70;70;73]);(64260,[70;70;76]);(64261,[83;84]);(64262,[83;84]);
  (64275,[1348;1350]);(64276,[1348;1333]);(64277,[1348;1339]);(64278,[1358;1350]);
  (64279,[1348;1341])].

(** Code points with a one-code-point upper-case form different from themselves. *)
Definition upper_simple : list (N * N) :=
 [(97,65);(98,66);(99,67);(100,68);(101,69);(102,70);(103,71);(104,72);(105,73);(106,74);
  (107,75);(108,76);(109,77);(110,78);(111,79);(112,80);(113,81);(114,82);(115,83);(116,84);
  (117,85);(118,86);(119,87);(120,88);(121,89);(122,90);(181,924);(224,192);(225,193);(226,194);
  (227,195);(228,196);(229,197);(230,198);(231,199);(232,200);(233,201);(234,202);(235,203);
  (236,204);(237,205);(238,206);(239,207);(240,208);(241,209);(242,210);(243,211);(244,212);
  (245,213);(246,214);(248,216);(249,217);(250,218);(251,219);(252,220);(253,221);(254,222);
  (255,376);(257,256);(259,258);(261,260);(263,262);(265,264);(267,266);(269,268);(271,270);
  (273,272);(275,274);(277,276);(279,278);(281,280);(283,282);(285,284);(287,286);(289,288);
  (291,290);(293,292);(295,294);(297,296);(299,298);(301,300);(303,302);(305,73);(307,306);
  (309,308);(311,310);(314,313);(316,315);(318,317);(320,319);(322,321);(324,323);(326,325);
  (328,327);(331,330);(333,332);(335,334);(337,336);(339,338);(341,340);(343,342);(345,344);
  (347,346);(349,348);(351,350);(353,352);(355,354);(357,356);(359,358);(361,360);(363,362);
  (365,364);(367,366);(369,368);(371,370);(373,372);(375,374);(378,377);(380,379);(382,381);
  (383,83);(384,579);(387,386);(389,388);(392,391);(396,395);(402,401);(405,502);(409,408);
  (410,573);(414,544);(417,416);(419,418);(421,420);(424,423);(429,428);(432,431);(436,435);
  (438,437);(441,440);(445,444);(447,503);(453,452);(454,452);(456,455);(457,455);(459,458);
  (460,458);(462,461);(464,463);(466,465);(468,467);(470,469);(472,471);(474,473);(476,475);
  (477,398);(479,478);(481,480);(483,482);(485,484);(487,486);(489,488);(491,490);(493,492);
  (495,494);(498,497);(499,497);(501,500);(505,504);(507,506);(509,508);(511,510);(513,512);
  (515,514);(517,516);(519,518);(521,520);(523,522);(525,524);(527,526);(529,528);(531,530);
  (533,532);(535,534);(537,536);(539,538);(541,540);(543,542);(547,546);(549,548);(551,550);
  (553,552);(555,554);(557,556);(559,558);(561,560);(563,562);(572,571);(575,11390);(576,11391);
  (578,577);(583,582);(585,584);(587,586);(589,588);(591,590);(592,11375);(593,11373);
  (594,11376);(595,385);(596,390);(598,393);(599,394);(601,399);(603,400);(604,42923);(608,403);
  (609,42924);(611,404);(613,42893);(614,42922);(616,407);(617,406);(618,42926);(619,11362);
  (620,42925);(623,412);(625,11374);(626,413);(629,415);(637,11364);(640,422);(642,42949);
  (643,425);(647,42929);(648,430);(649,580);(650,433);(651,434);(652,581);(658,439);(669,42930);
  (670,42928);(837,921);(881,880);(883,882);(887,886);(891,1021);(892,1022);(893,1023);
  (940,902);(941,904);(942,905);(943,906);(945,913);(946,914);(947,915);(948,916);(949,917);
  (950,918);(951,919);(952,920);(953,921);(954,922);(955,923);(956,924);(957,925);(958,926);
  (959,927);(960,928);(961,929);(962,931);(963,931);(964,932);(965,933);(966,934);(967,935);
  (968,936);(969,937);(970,938);(971,939);(972,908);(973,910);(974,911);(976,914);(977,920);
  (981,934);(982,928);(983,975);(985,984);(987,986);(989,988);(991,990);(993,992);(995,994);
  (997,996);(999,998);(1001,1000);(1003,1002);(1005,1004);(1007,1006);(1008,922);(1009,929);
  (1010,1017);(1011,895);(1013,917);(1016,1015);(1019,1018);(1072,1040);(1073,1041);(1074,1042);
  (1075,1043);(1076,1044);(1077,1045);(1078,1046);(1079,1047);(1080,1048);(1081,1049);
  (1082,1050);(1083,1051);(1084,1052);(1085,1053);(1086,1054);(1087,1055);(1088,1056);
  (1089,1057);(1090,1058);(1091,1059);(1092,1060);(1093,1061);(1094,1062);(1095,1063);
  (1096,1064);(1097,1065);(1098,1066);(1099,1067);(1100,1068);(1101,1069);(1102,1070);
  (1103,1071);(1104,1024);(1105,1025);(1106,1026);(1107,1027);(1108,1028);(1109,1029);
  (1110,1030);(1111,1031);(1112,1032);(1113,1033);(1114,1034);(1115,1035);(1116,1036);
  (1117,1037);(1118,1038);(1119,1039);(1121,1120);(1123,1122);(1125,1124);(1127,1126);
  (1129,1128);(1131,1130);(1133,1132);(1135,1134);(1137,1136);(1139,1138);(1141,1140);
  (1143,1142);(1145,1144);(1147,1146);(1149,1148);(1151,1150);(1153,1152);(1163,1162);
  (1165,1164);(1167,1166);(1169,1168);(1171,1170);(1173,1172);(1175,1174);(1177,1176);
  (1179,1178);(1181,1180);(1183,1182);(1185,1184);(1187,1186);(1189,1188);(1191,1190);
  (1193,1192);(1195,1194);(1197,1196);(1199,1198);(1201,1200);(1203,1202);(1205,1204);
  (1207,1206);(1209,1208);(1211,1210);(1213,1212);(1215,1214);(1218,1217);(1220,1219);
  (1222,1221);(1224,1223);(1226,1225);(1228,1227);(1230,1229);(1231,1216);(1233,1232);
  (1235,1234);(1237,1236);(1239,1238);(1241,1240);(1243,1242);(1245,1244);(1247,1246);
  (1249,1248);(1251,1250);(1253,1252);(1255,1254);(1257,1256);(1259,1258);(1261,1260);
  (1263,1262);(1265,1264);(1267,1266);(1269,1268);(1271,1270);(1273,1272);(1275,1274);
  (1277,1276);(1279,1278);(1281,1280);(1283,1282);(1285,1284);(1287,1286);(1289,1288);
  (1291,1290);(1293,1292);(1295,1294);(1297,1296);(1299,1298);(1301,1300);(1303,1302);
  (1305,1304);(1307,1306);(1309,1308);(1311,1310);(1313,1312);(1315,1314);(1317,1316);
  (1319,1318);(1321,1320);(1323,1322);(1325,1324);(1327,1326);(1377,1329);(1378,1330);
  (1379,1331);(1380,1332);(1381,1333);(1382,1334);(1383,1335);(1384,1336);(1385,1337);
  (1386,1338);(1387,1339);(1388,1340);(1389,1341);(1390,1342);(1391,1343);(1392,1344);
  (1393,1345);(1394,1346);(1395,1347);(1396,1348);(1397,1349);(1398,1350);(1399,1351);
  (1400,1352);(1401,1353);(1402,1354);(1403,1355);(1404,1356);(1405,1357);(1406,1358);
  (1407,1359);(1408,1360);(1409,1361);(1410,1362);(1411,1363);(1412,1364);(1413,1365);
  (1414,1366);(4304,7312);(4305,7313);(4306,7314);(4307,7315);(4308,7316);(4309,7317);
  (4310,7318);(4311,7319);(4312,7320);(4313,7321);(4314,7322);(4315,7323);(4316,7324);
  (4317,7325);(4318,7326);(4319,7327);(4320,7328);(4321,7329);(4322,7330);(4323,7331);
  (4324,7332);(4325,7333);(4326,7334);(4327,7335);(4328,7336);(4329,7337);(4330,7338);
  (4331,7339);(4332,7340);(4333,7341);(4334,7342);(4335,7343);(4336,7344);(4337,7345);
  (4338,7346);(4339,7347);(4340,7348);(4341,7349);(4342,7350);(4343,7351);(4344,7352);
  (4345,7353);(4346,7354);(4349,7357);(4350,7358);(4351,7359);(5112,5104);(5113,5105);
  (5114,5106);(5115,5107);(5116,5108);(5117,5109);(7296,1042);(7297,1044);(7298,1054);
  (7299,1057);(7300,1058);(7301,1058);(7302,1066);(7303,1122);(7304,42570);(7545,42877);
  (7549,11363);(7566,42950);(7681,7680);(7683,7682);(7685,7684);(7687,7686);(7689,7688);
  (7691,7690);(7693,7692);(7695,7694);(7697,7696);(7699,7698);(7701,7700);(7703,7702);
  (7705,7704);(7707,7706);(7709,7708);(7711,7710);(7713,7712);(7715,7714);(7717,7716);
  (7719,7718);(7721,7720);(7723,7722);(7725,7724);(7727,7726);(7729,7728);(7731,7730);
  (7733,7732);(7735,7734);(7737,7736);(7739,7738);(7741,7740);(7743,7742);(7745,7744);
  (7747,7746);(7749,7748);(7751,7750);(7753,7752);(7755,7754);(7757,7756);(7759,7758);
  (7761,7760);(7763,7762);(7765,7764);(7767,7766);(7769,7768);(7771,7770);(7773,7772);
  (7775,7774);(7777,7776);(7779,7778);(7781,7780);(7783,7782);(7785,7784);(7787,7786);
  (7789,7788);(7791,7790);(7793,7792);(7795,7794);(7797,7796);(7799,7798);(7801,7800);
  (7803,7802);(7805,7804);(7807,7806);(7809,7808);(7811,7810);(7813,7812);(7815,7814);
  (7817,7816);(7819,7818);(7821,7820);(7823,7822);(7825,7824);(7827,7826);(7829,7828);
  (7835,7776);(7841,7840);(7843,7842);(7845,7844);(7847,7846);(7849,7848);(7851,7850);
  (7853,7852);(7855,7854);(7857,7856);(7859,7858);(7861,7860);(7863,7862);(7865,7864);
  (7867,7866);(7869,7868);(7871,7870);(7873,7872);(7875,7874);(7877,7876);(7879,7878);
  (7881,7880);(7883,7882);(7885,7884);(7887,7886);(7889,7888);(7891,7890);(7893,7892);
  (7895,7894);(7897,7896);(7899,7898);(7901,7900);(7903,7902);(7905,7904);(7907,7906);
  (7909,7908);(7911,7910);(7913,7912);(7915,7914);(7917,7916);(7919,7918);(7921,7920);
  (7923,7922);(7925,7924);(7927,7926);(7929,7928);(7931,7930);(7933,7932);(7935,7934);
  (7936,7944);(7937,7945);(7938,7946);(7939,7947);(7940,7948);(7941,7949);(7942,7950);
  (7943,7951);(7952,7960);(7953,7961);(7954,7962);(7955,7963);(7956,7964);(7957,7965);
  (7968,7976);(7969,7977);(7970,7978);(7971,7979);(7972,7980);(7973,7981);(7974,7982);
  (7975,7983);(7984,7992);(7985,7993);(7986,7994);(7987,7995);(7988,7996);(7989,7997);
  (7990,7998);(7991,7999);(8000,8008);(8001,8009);(8002,8010);(8003,8011);(8004,8012);
  (8005,8013);(8017,8025);(8019,8027);(8021,8029);(8023,8031);(8032,8040);(8033,8041);
  (8034,8042);(8035,8043);(8036,8044);(8037,8045);(8038,8046);(8039,8047);(8048,8122);
  (8049,8123);(8050,8136);(8051,8137);(8052,8138);(8053,8139);(8054,8154);(8055,8155);
  (8056,8184);(8057,8185);(8058,8170);(8059,8171);(8060,8186);(8061,8187);(8112,8120);
  (8113,8121);(8126,921);(8144,8152);(8145,8153);(8160,8168);(8161,8169);(8165,8172);
  (8526,8498);(8560,8544);(8561,8545);(8562,8546);(8563,8547);(8564,8548);(8565,8549);
  (8566,8550);(8567,8551);(8568,8552);(8569,8553);(8570,8554);(8571,8555);(8572,8556);
  (8573,8557);(8574,8558);(8575,8559);(8580,8579);(9424,9398);(9425,9399);(9426,9400);
  (9427,9401);(9428,9402);(9429,9403);(9430,9404);(9431,9405);(9432,9406);(9433,9407);
  (9434,9408);(9435,9409);(9436,9410);(9437,9411);(9438,9412);(9439,9413);(9440,9414);
  (9441,9415);(9442,9416);(9443,9417);(9444,9418);(9445,9419);(9446,9420);(9447,9421);
  (9448,9422);(9449,9423);(11312,11264);(11313,11265);(11314,11266);(11315,11267);(11316,11268);
  (11317,11269);(11318,11270);(11319,11271);(11320,11272);(11321,11273);(11322,11274);
  (11323,11275);(11324,11276);(11325,11277);(11326,11278);(11327,11279);(11328,11280);
  (11329,11281);(11330,11282);(11331,11283);(11332,11284);(11333,11285);(11334,11286);
  (11335,11287);(11336,11288);(11337,11289);(11338,11290);(11339,11291);(11340,11292);
  (11341,11293);(11342,11294);(11343,11295);(11344,11296);(11345,11297);(11346,11298);
  (11347,11299);(11348,11300);(11349,11301);(11350,11302);(11351,11303);(11352,11304);
  (11353,11305);(11354,11306);(11355,11307);(11356,11308);(11357,11309);(11358,11310);
  (11359,11311);(11361,11360);(11365,570);(11366,574);(11368,11367);(11370,11369);(11372,11371);
  (11379,11378);(11382,11381);(11393,11392);(11395,11394);(11397,11396);(11399,11398);
  (11401,11400);(11403,11402);(11405,11404);(11407,11406);(11409,11408);(11411,11410);
  (11413,11412);(11415,11414);(11417,11416);(11419,11418);(11421,11420);(11423,11422);
  (11425,11424);(11427,11426);(11429,11428);(11431,11430);(11433,11432);(11435,11434);
  (11437,11436);(11439,11438);(11441,11440);(11443,11442);(11445,11444);(11447,11446);
  (11449,11448);(11451,11450);(11453,11452);(11455,11454);(11457,11456);(11459,11458);
  (11461,11460);(11463,11462);(11465,11464);(11467,11466);(11469,11468);(11471,11470);
  (11473,11472);(11475,11474);(11477,11476);(11479,11478);(11481,11480);(11483,11482);
  (11485,11484);(11487,11486);(11489,11488);(11491,11490);(11500,11499);(11502,11501);
  (11507,11506);(11520,4256);(11521,4257);(11522,4258);(11523,4259);(11524,4260);(11525,4261);
  (11526,4262);(11527,4263);(11528,4264);(11529,4265);(11530,4266);(11531,4267);(11532,4268);
  (11533,4269);(11534,4270);(11535,4271);(11536,4272);(11537,4273);(11538,4274);(11539,4275);
  (11540,4276);(11541,4277);(11542,4278);(11543,4279);(11544,4280);(11545,4281);(11546,4282);
  (11547,4283);(11548,4284);(11549,4285);(11550,4286);(11551,4287);(11552,4288);(11553,4289);
  (11554,4290);(11555,4291);(11556,4292);(11557,4293);(11559,4295);(11565,4301);(42561,42560);
  (42563,42562);(42565,42564);(42567,42566);(42569,42568);(42571,42570);(42573,42572);
  (42575,42574);(42577,42576);(42579,42578);(42581,42580);(42583,42582);(42585,42584);
  (42587,42586);(42589,42588);(42591,42590);(42593,42592);(42595,42594);(42597,42596);
  (42599,42598);(42601,42600);(42603,42602);(42605,42604);(42625,42624);(42627,42626);
  (42629,42628);(42631,42630);(42633,42632);(42635,42634);(42637,42636);(42639,42638);
  (42641,42640);(42643,42642);(42645,42644);(42647,42646);(42649,42648);(42651,42650);
  (42787,42786);(42789,42788);(42791,42790);(42793,42792);(42795,42794);(42797,42796);
  (42799,42798);(42803,42802);(42805,42804);(42807,42806);(42809,42808);(42811,42810);
  (42813,42812);(42815,42814);(42817,42816);(42819,42818);(42821,42820);(42823,42822);
  (42825,42824);(42827,42826);(42829,42828);(42831,42830);(42833,42832);(42835,42834);
  (42837,42836);(42839,42838);(42841,42840);(42843,42842);(42845,42844);(42847,42846);
  (42849,42848);(42851,42850);(42853,42852);(42855,42854);(42857,42856);(42859,42858);
  (42861,42860);(42863,42862);(42874,42873);(42876,42875);(42879,42878);(42881,42880);
  (42883,42882);(42885,42884);(42887,42886);(42892,42891);(42897,42896);(42899,42898);
  (42900,42948);(42903,42902);(42905,42904);(42907,42906);(42909,42908);(42911,42910);
  (42913,42912);(42915,42914);(42917,42916);(42919,42918);(42921,42920);(42933,42932);
  (42935,42934);(42937,42936);(42939,42938);(42941,42940);(42943,42942);(42945,42944);
  (42947,42946);(42952,42951);(42954,42953);(42961,42960);(42967,42966);(42969,42968);
  (42998,42997);(43859,42931);(43888,5024);(43889,5025);(43890,5026);(43891,5027);(43892,5028);
  (43893,5029);(43894,5030);(43895,5031);(43896,5032);(43897,5033);(43898,5034);(43899,5035);
  (43900,5036);(43901,5037);(43902,5038);(43903,5039);(43904,5040);(43905,5041);(43906,5042);
  (43907,5043);(43908,5044);(43909,5045);(43910,5046);(43911,5047);(43912,5048);(43913,5049);
  (43914,5050);(43915,5051);(43916,5052);(43917,5053);(43918,5054);(43919,5055);(43920,5056);
  (43921,5057);(43922,5058);(43923,5059);(43924,5060);(43925,5061);(43926,5062);(43927,5063);
  (43928,5064);(43929,5065);(43930,5066);(43931,5067);(43932,5068);(43933,5069);(43934,5070);
  (43935,5071);(43936,5072);(43937,5073);(43938,5074);(43939,5075);(43940,5076);(43941,5077);
  (43942,5078);(43943,5079);(43944,5080);(43945,5081);(43946,5082);(43947,5083);(43948,5084);
  (43949,5085);(43950,5086);(43951,5087);(43952,5088);(43953,5089);(43954,5090);(43955,5091);
  (43956,5092);(43957,5093);(43958,5094);(43959,5095);(43960,5096);(43961,5097);(43962,5098);
  (43963,5099);(43964,5100);(43965,5101);(43966,5102);(43967,5103);(65345,65313);(65346,65314);
  (65347,65315);(65348,65316);(65349,65317);(65350,65318);(65351,65319);(65352,65320);
  (65353,65321);(65354,65322);(65355,65323);(65356,65324);(65357,65325);(65358,65326);
  (65359,65327);(65360,65328);(65361,65329);(65362,65330);(65363,65331);(65364,65332);
  (65365,65333);(65366,65334);(65367,65335);(65368,65336);(65369,65337);(65370,65338);
  (66600,66560);(66601,66561);(66602,66562);(66603,66563);(66604,66564);(66605,66565);
  (66606,66566);(66607,66567);(66608,66568);(66609,66569);(66610,66570);(66611,66571);
  (66612,66572);(66613,66573);(66614,66574);(66615,66575);(66616,66576);(66617,66577);
  (66618,66578);(66619,66579);(66620,66580);(66621,66581);(66622,66582);(66623,66583);
  (66624,66584);(66625,66585);(66626,66586);(66627,66587);(66628,66588);(66629,66589);
  (66630,66590);(66631,66591);(66632,66592);(66633,66593);(66634,66594);(66635,66595);
  (66636,66596);(66637,66597);(66638,66598);(66639,66599);(66776,66736);(66777,66737);
  (66778,66738);(66779,66739);(66780,66740);(66781,66741);(66782,66742);(66783,66743);
  (66784,66744);(66785,66745);(66786,66746);(66787,66747);(66788,66748);(66789,66749);
  (66790,66750);(66791,66751);(66792,66752);(66793,66753);(66794,66754);(66795,66755);
  (66796,66756);(66797,66757);(66798,66758);(66799,66759);(66800,66760);(66801,66761);
  (66802,66762);(66803,66763);(66804,66764);(66805,66765);(66806,66766);(66807,66767);
  (66808,66768);(66809,66769);(66810,66770);(66811,66771);(66967,66928);(66968,66929);
  (66969,66930);(66970,66931);(66971,66932);(66972,66933);(66973,66934);(66974,66935);
  (66975,66936);(66976,66937);(66977,66938);(66979,66940);(66980,66941);(66981,66942);
  (66982,66943);(66983,66944);(66984,66945);(66985,66946);(66986,66947);(66987,66948);
  (66988,66949);(66989,66950);(66990,66951);(66991,66952);(66992,66953);(66993,66954);
  (66995,66956);(66996,66957);(66997,66958);(66998,66959);(66999,66960);(67000,66961);
  (67001,66962);(67003,66964);(67004,66965);(68800,68736);(68801,68737);(68802,68738);
  (68803,68739);(68804,68740);(68805,68741);(68806,68742);(68807,68743);(68808,68744);
  (68809,68745);(68810,68746);(68811,68747);(68812,68748);(68813,68749);(68814,68750);
  (68815,68751);(68816,68752);(68817,68753);(68818,68754);(68819,68755);(68820,68756);
  (68821,68757);(68822,68758);(68823,68759);(68824,68760);(68825,68761);(68826,68762);
  (68827,68763);(68828,68764);(68829,68765);(68830,68766);(68831,68767);(68832,68768);
  (68833,68769);(68834,68770);(68835,68771);(68836,68772);(68837,68773);(68838,68774);
  (68839,68775);(68840,68776);(68841,68777);(68842,68778);(68843,68779);(68844,68780);
  (68845,68781);(68846,68782);(68847,68783);(68848,68784);(68849,68785);(68850,68786);
  (71872,71840);(71873,71841);(71874,71842);(71875,71843);(71876,71844);(71877,71845);
  (71878,71846);(71879,71847);(71880,71848);(71881,71849);(71882,71850);(71883,71851);
  (71884,71852);(71885,71853);(71886,71854);(71887,71855);(71888,71856);(71889,71857);
  (71890,71858);(71891,71859);(71892,71860);(71893,71861);(71894,71862);(71895,71863);
  (71896,71864);(71897,71865);(71898,71866);(71899,71867);(71900,71868);(71901,71869);
  (71902,71870);(71903,71871);(93792,93760);(93793,93761);(93794,93762);(93795,93763);
  (93796,93764);(93797,93765);(93798,93766);(93799,93767);(93800,93768);(93801,93769);
  (93802,93770);(93803,93771);(93804,93772);(93805,93773);(93806,93774);(93807,93775);
  (93808,93776);(93809,93777);(93810,93778);(93811,93779);(93812,93780);(93813,93781);
  (93814,93782);(93815,93783);(93816,93784);(93817,93785);(93818,93786);(93819,93787);
  (93820,93788);(93821,93789);(93822,93790);(93823,93791);(125218,125184);(125219,125185);
  (125220,125186);(125221,125187);(125222,125188);(125223,125189);(125224,125190);
  (125225,125191);(125226,125192);(125227,125193);(125228,125194);(125229,125195);
  (125230,125196);(125231,125197);(125232,125198);(125233,125199);(125234,125200);
  (125235,125201);(125236,125202);(125237,125203);(125238,125204);(125239,125205);
  (125240,125206);(125241,125207);(125242,125208);(125243,125209);(125244,125210);
  (125245,125211);(125246,125212);(125247,125213);(125248,125214);(125249,125215);
  (125250,125216);(125251,125217)].

(** Code points whose lower-case form has several code points (SpecialCasing). *)
Definition lower_special : list (N * list N) :=
 [(304,[105;775])].

(** Code points with a one-code-point lower-case form different from themselves. *)
Definition lower_simple : list (N * N) :=
 [(65,97);(66,98);(67,99);(68,100);(69,101);(70,102);(71,103);(72,104);(73,105);(74,106);
  (75,107);(76,108);(77,109);(78,110);(79,111);(80,112);(81,113);(82,114);(83,115);(84,116);
  (85,117);(86,118);(87,119);(88,120);(89,121);(90,122);(192,224);(193,225);(194,226);(195,227);
  (196,228);(197,229);(198,230);(199,231);(200,232);(201,233);(202,234);(203,235);(204,236);
  (205,237);(206,238);(207,239);(208,240);(209,241);(210,242);(211,243);(212,244);(213,245);
  (214,246);(216,248);(217,249);(218,250);(219,251);(220,252);(221,253);(222,254);(256,257);
  (258,259);(260,261);(262,263);(264,265);(266,267);(268,269);(270,271);(272,273);(274,275);
  (276,277);(278,279);(280,281);(282,283);(284,285);(286,287);(288,289);(290,291);(292,293);
  (294,295);(296,297);(298,299);(300,301);(302,303);(306,307);(308,309);(310,311);(313,314);
  (315,316);(317,318);(319,320);(321,322);(323,324);(325,326);(327,328);(330,331);(332,333);
  (334,335);(336,337);(338,339);(340,341);(342,343);(344,345);(346,347);(348,349);(350,351);
  (352,353);(354,355);(356,357);(358,359);(360,361);(362,363);(364,365);(366,367);(368,369);
  (370,371);(372,373);(374,375);(376,255);(377,378);(379,380);(381,382);(385,595);(386,387);
  (388,389);(390,596);(391,392);(393,598);(394,599);(395,396);(398,477);(399,601);(400,603);
  (401,402);(403,608);(404,611);(406,617);(407,616);(408,409);(412,623);(413,626);(415,629);
  (416,417);(418,419);(420,421);(422,640);(423,424);(425,643);(428,429);(430,648);(431,432);
  (433,650);(434,651);(435,436);(437,438);(439,658);(440,441);(444,445);(452,454);(453,454);
  (455,457);(456,457);(458,460);(459,460);(461,462);(463,464);(465,466);(467,468);(469,470);
  (471,472);(473,474);(475,476);(478,479);(480,481);(482,483);(484,485);(486,487);(488,489);
  (490,491);(492,493);(494,495);(497,499);(498,499);(500,501);(502,405);(503,447);(504,505);
  (506,507);(508,509);(510,511);(512,513);(514,515);(516,517);(518,519);(520,521);(522,523);
  (524,525);(526,527);(528,529);(530,531);(532,533);(534,535);(536,537);(538,539);(540,541);
  (542,543);(544,414);(546,547);(548,549);(550,551);(552,553);(554,555);(556,557);(558,559);
  (560,561);(562,563);(570,11365);(571,572);(573,410);(574,11366);(577,578);(579,384);(580,649);
  (581,652);(582,583);(584,585);(586,587);(588,589);(590,591);(880,881);(882,883);(886,887);
  (895,1011);(902,940);(904,941);(905,942);(906,943);(908,972);(910,973);(911,974);(913,945);
  (914,946);(915,947);(916,948);(917,949);(918,950);(919,951);(920,952);(921,953);(922,954);
  (923,955);(924,956);(925,957);(926,958);(927,959);(928,960);(929,961);(931,963);(932,964);
  (933,965);(934,966);(935,967);(936,968);(937,969);(938,970);(939,971);(975,983);(984,985);
  (986,987);(988,989);(990,991);(992,993);(994,995);(996,997);(998,999);(1000,1001);(1002,1003);
  (1004,1005);(1006,1007);(1012,952);(1015,1016);(1017,1010);(1018,1019);(1021,891);(1022,892);
  (1023,893);(1024,1104);(1025,1105);(1026,1106);(1027,1107);(1028,1108);(1029,1109);
  (1030,1110);(1031,1111);(1032,1112);(1033,1113);(1034,1114);(1035,1115);(1036,1116);
  (1037,1117);(1038,1118);(1039,1119);(1040,1072);(1041,1073);(1042,1074);(1043,1075);
  (1044,1076);(1045,1077);(1046,1078);(1047,1079);(1048,1080);(1049,1081);(1050,1082);
  (1051,1083);(1052,1084);(1053,1085);(1054,1086);(1055,1087);(1056,1088);(1057,1089);
  (1058,1090);(1059,1091);(1060,1092);(1061,1093);(1062,1094);(1063,1095);(1064,1096);
  (1065,1097);(1066,1098);(1067,1099);(1068,1100);(1069,1101);(1070,1102);(1071,1103);
  (1120,1121);(1122,1123);(1124,1125);(1126,1127);(1128,1129);(1130,1131);(1132,1133);
  (1134,1135);(1136,1137);(1138,1139);(1140,1141);(1142,1143);(1144,1145);(1146,1147);
  (1148,1149);(1150,1151);(1152,1153);(1162,1163);(1164,1165);(1166,1167);(1168,1169);
  (1170,1171);(1172,1173);(1174,1175);(1176,1177);(1178,1179);(1180,1181);(1182,1183);
  (1184,1185);(1186,1187);(1188,1189);(1190,1191);(1192,1193);(1194,1195);(1196,1197);
  (1198,1199);(1200,1201);(1202,1203);(1204,1205);(1206,1207);(1208,1209);(1210,1211);
  (1212,1213);(1214,1215);(1216,1231);(1217,1218);(1219,1220);(1221,1222);(1223,1224);
  (1225,1226);(1227,1228);(1229,1230);(1232,1233);(1234,1235);(1236,1237);(1238,1239);
  (1240,1241);(1242,1243);(1244,1245);(1246,1247);(1248,1249);(1250,1251);(1252,1253);
  (1254,1255);(1256,1257);(1258,1259);(1260,1261);(1262,1263);(1264,1265);(1266,1267);
  (1268,1269);(1270,1271);(1272,1273);(1274,1275);(1276,1277);(1278,1279);(1280,1281);
  (1282,1283);(1284,1285);(1286,1287);(1288,1289);(1290,1291);(1292,1293);(1294,1295);
  (1296,1297);(1298,1299);(1300,1301);(1302,1303);(1304,1305);(1306,1307);(1308,1309);
  (1310,1311);(1312,1313);(1314,1315);(1316,1317);(1318,1319);(1320,1321);(1322,1323);
  (1324,1325);(1326,1327);(1329,1377);(1330,1378);(1331,1379);(1332,1380);(1333,1381);
  (1334,1382);(1335,1383);(1336,1384);(1337,1385);(1338,1386);(1339,1387);(1340,1388);
  (1341,1389);(1342,1390);(1343,1391);(1344,1392);(1345,1393);(1346,1394);(1347,1395);
  (1348,1396);(1349,1397);(1350,1398);(1351,1399);(1352,1400);(1353,1401);(1354,1402);
  (1355,1403);(1356,1404);(1357,1405);(1358,1406);(1359,1407);(1360,1408);(1361,1409);
  (1362,1410);(1363,1411);(1364,1412);(1365,1413);(1366,1414);(4256,11520);(4257,11521);
  (4258,11522);(4259,11523);(4260,11524);(4261,11525);(4262,11526);(4263,11527);(4264,11528);
  (4265,11529);(4266,11530);(4267,11531);(4268,11532);(4269,11533);(4270,11534);(4271,11535);
  (4272,11536);(4273,11537);(4274,11538);(4275,11539);(4276,11540);(4277,11541);(4278,11542);
  (4279,11543);(4280,11544);(4281,11545);(4282,11546);(4283,11547);(4284,11548);(4285,11549);
  (4286,11550);(4287,11551);(4288,11552);(4289,11553);(4290,11554);(4291,11555);(4292,11556);
  (4293,11557);(4295,11559);(4301,11565);(5024,43888);(5025,43889);(5026,43890);(5027,43891);
  (5028,43892);(5029,43893);(5030,43894);(5031,43895);(5032,43896);(5033,43897);(5034,43898);
  (5035,43899);(5036,43900);(5037,43901);(5038,43902);(5039,43903);(5040,43904);(5041,43905);
  (5042,43906);(5043,43907);(5044,43908);(5045,43909);(5046,43910);(5047,43911);(5048,43912);
  (5049,43913);(5050,43914);(5051,43915);(5052,43916);(5053,43917);(5054,43918);(5055,43919);
  (5056,43920);(5057,43921);(5058,43922);(5059,43923);(5060,43924);(5061,43925);(5062,43926);
  (5063,43927);(5064,43928);(5065,43929);(5066,43930);(5067,43931);(5068,43932);(5069,43933);
  (5070,43934);(5071,43935);(5072,43936);(5073,43937);(5074,43938);(5075,43939);(5076,43940);
  (5077,43941);(5078,43942);(5079,43943);(5080,43944);(5081,43945);(5082,43946);(5083,43947);
  (5084,43948);(5085,43949);(5086,43950);(5087,43951);(5088,43952);(5089,43953);(5090,43954);
  (5091,43955);(5092,43956);(5093,43957);(5094,43958);(5095,43959);(5096,43960);(5097,43961);
  (5098,43962);(5099,43963);(5100,43964);(5101,43965);(5102,43966);(5103,43967);(5104,5112);
  (5105,5113);(5106,5114);(5107,5115);(5108,5116);(5109,5117);(7312,4304);(7313,4305);
  (7314,4306);(7315,4307);(7316,4308);(7317,4309);(7318,4310);(7319,4311);(7320,4312);
  (7321,4313);(7322,4314);(7323,4315);(7324,4316);(7325,4317);(7326,4318);(7327,4319);
  (7328,4320);(7329,4321);(7330,4322);(7331,4323);(7332,4324);(7333,4325);(7334,4326);
  (7335,4327);(7336,4328);(7337,4329);(7338,4330);(7339,4331);(7340,4332);(7341,4333);
  (7342,4334);(7343,4335);(7344,4336);(7345,4337);(7346,4338);(7347,4339);(7348,4340);
  (7349,4341);(7350,4342);(7351,4343);(7352,4344);(7353,4345);(7354,4346);(7357,4349);
  (7358,4350);(7359,4351);(7680,7681);(7682,7683);(7684,7685);(7686,7687);(7688,7689);
  (7690,7691);(7692,7693);(7694,7695);(7696,7697);(7698,7699);(7700,7701);(7702,7703);
  (7704,7705);(7706,7707);(7708,7709);(7710,7711);(7712,7713);(7714,7715);(7716,7717);
  (7718,7719);(7720,7721);(7722,7723);(7724,7725);(7726,7727);(7728,7729);(7730,7731);
  (7732,7733);(7734,7735);(7736,7737);(7738,7739);(7740,7741);(7742,7743);(7744,7745);
  (7746,7747);(7748,7749);(7750,7751);(7752,7753);(7754,7755);(7756,7757);(7758,7759);
  (7760,7761);(7762,7763);(7764,7765);(7766,7767);(7768,7769);(7770,7771);(7772,7773);
  (7774,7775);(7776,7777);(7778,7779);(7780,7781);(7782,7783);(7784,7785);(7786,7787);
  (7788,7789);(7790,7791);(7792,7793);(7794,7795);(7796,7797);(7798,7799);(7800,7801);
  (7802,7803);(7804,7805);(7806,7807);(7808,7809);(7810,7811);(7812,7813);(7814,7815);
  (7816,7817);(7818,7819);(7820,7821);(7822,7823);(7824,7825);(7826,7827);(7828,7829);
  (7838,223);(7840,7841);(7842,7843);(7844,7845);(7846,7847);(7848,7849);(7850,7851);
  (7852,7853);(7854,7855);(7856,7857);(7858,7859);(7860,7861);(7862,7863);(7864,7865);
  (7866,7867);(7868,7869);(7870,7871);(7872,7873);(7874,7875);(7876,7877);(7878,7879);
  (7880,7881);(7882,7883);(7884,7885);(7886,7887);(7888,7889);(7890,7891);(7892,7893);
  (7894,7895);(7896,7897);(7898,7899);(7900,7901);(7902,7903);(7904,7905);(7906,7907);
  (7908,7909);(7910,7911);(7912,7913);(7914,7915);(7916,7917);(7918,7919);(7920,7921);
  (7922,7923);(7924,7925);(7926,7927);(7928,7929);(7930,7931);(7932,7933);(7934,7935);
  (7944,7936);(7945,7937);(7946,7938);(7947,7939);(7948,7940);(7949,7941);(7950,7942);
  (7951,7943);(7960,7952);(7961,7953);(7962,7954);(7963,7955);(7964,7956);(7965,7957);
  (7976,7968);(7977,7969);(7978,7970);(7979,7971);(7980,7972);(7981,7973);(7982,7974);
  (7983,7975);(7992,7984);(7993,7985);(7994,7986);(7995,7987);(7996,7988);(7997,7989);
  (7998,7990);(7999,7991);(8008,8000);(8009,8001);(8010,8002);(8011,8003);(8012,8004);
  (8013,8005);(8025,8017);(8027,8019);(8029,8021);(8031,8023);(8040,8032);(8041,8033);
  (8042,8034);(8043,8035);(8044,8036);(8045,8037);(8046,8038);(8047,8039);(8072,8064);
  (8073,8065);(8074,8066);(8075,8067);(8076,8068);(8077,8069);(8078,8070);(8079,8071);
  (8088,8080);(8089,8081);(8090,8082);(8091,8083);(8092,8084);(8093,8085);(8094,8086);
  (8095,8087);(8104,8096);(8105,8097);(8106,8098);(8107,8099);(8108,8100);(8109,8101);
  (8110,8102);(8111,8103);(8120,8112);(8121,8113);(8122,8048);(8123,8049);(8124,8115);
  (8136,8050);(8137,8051);(8138,8052);(8139,8053);(8140,8131);(8152,8144);(8153,8145);
  (8154,8054);(8155,8055);(8168,8160);(8169,8161);(8170,8058);(8171,8059);(8172,8165);
  (8184,8056);(8185,8057);(8186,8060);(8187,8061);(8188,8179);(8486,969);(8490,107);(8491,229);
  (8498,8526);(8544,8560);(8545,8561);(8546,8562);(8547,8563);(8548,8564);(8549,8565);
  (8550,8566);(8551,8567);(8552,8568);(8553,8569);(8554,8570);(8555,8571);(8556,8572);
  (8557,8573);(8558,8574);(8559,8575);(8579,8580);(9398,9424);(9399,9425);(9400,9426);
  (9401,9427);(9402,9428);(9403,9429);(9404,9430);(9405,9431);(9406,9432);(9407,9433);
  (9408,9434);(9409,9435);(9410,9436);(9411,9437);(9412,9438);(9413,9439);(9414,9440);
  (9415,9441);(9416,9442);(9417,9443);(9418,9444);(9419,9445);(9420,9446);(9421,9447);
  (9422,9448);(9423,9449);(11264,11312);(11265,11313);(11266,11314);(11267,11315);(11268,11316);
  (11269,11317);(11270,11318);(11271,11319);(11272,11320);(11273,11321);(11274,11322);
  (11275,11323);(11276,11324);(11277,11325);(11278,11326);(11279,11327);(11280,11328);
  (11281,11329);(11282,11330);(11283,11331);(11284,11332);(11285,11333);(11286,11334);
  (11287,11335);(11288,11336);(11289,11337);(11290,11338);(11291,11339);(11292,11340);
  (11293,11341);(11294,11342);(11295,11343);(11296,11344);(11297,11345);(11298,11346);
  (11299,11347);(11300,11348);(11301,11349);(11302,11350);(11303,11351);(11304,11352);
  (11305,11353);(11306,11354);(11307,11355);(11308,11356);(11309,11357);(11310,11358);
  (11311,11359);(11360,11361);(11362,619);(11363,7549);(11364,637);(11367,11368);(11369,11370);
  (11371,11372);(11373,593);(11374,625);(11375,592);(11376,594);(11378,11379);(11381,11382);
  (11390,575);(11391,576);(11392,11393);(11394,11395);(11396,11397);(11398,11399);(11400,11401);
  (11402,11403);(11404,11405);(11406,11407);(11408,11409);(11410,11411);(11412,11413);
  (11414,11415);(11416,11417);(11418,11419);(11420,11421);(11422,11423);(11424,11425);
  (11426,11427);(11428,11429);(11430,11431);(11432,11433);(11434,11435);(11436,11437);
  (11438,11439);(11440,11441);(11442,11443);(11444,11445);(11446,11447);(11448,11449);
  (11450,11451);(11452,11453);(11454,11455);(11456,11457);(11458,11459);(11460,11461);
  (11462,11463);(11464,11465);(11466,11467);(11468,11469);(11470,11471);(11472,11473);
  (11474,11475);(11476,11477);(11478,11479);(11480,11481);(11482,11483);(11484,11485);
  (11486,11487);(11488,11489);(11490,11491);(11499,11500);(11501,11502);(11506,11507);
  (42560,42561);(42562,42563);(42564,42565);(42566,42567);(42568,42569);(42570,42571);
  (42572,42573);(42574,42575);(42576,42577);(42578,42579);(42580,42581);(42582,42583);
  (42584,42585);(42586,42587);(42588,42589);(42590,42591);(42592,42593);(42594,42595);
  (42596,42597);(42598,42599);(42600,42601);(42602,42603);(42604,42605);(42624,42625);
  (42626,42627);(42628,42629);(42630,42631);(42632,42633);(42634,42635);(42636,42637);
  (42638,42639);(42640,42641);(42642,42643);(42644,42645);(42646,42647);(42648,42649);
  (42650,42651);(42786,42787);(42788,42789);(42790,42791);(42792,42793);(42794,42795);
  (42796,42797);(42798,42799);(42802,42803);(42804,42805);(42806,42807);(42808,42809);
  (42810,42811);(42812,42813);(42814,42815);(42816,42817);(42818,42819);(42820,42821);
  (42822,42823);(42824,42825);(42826,42827);(42828,42829);(42830,42831);(42832,42833);
  (42834,42835);(42836,42837);(42838,42839);(42840,42841);(42842,42843);(42844,42845);
  (42846,42847);(42848,42849);(42850,42851);(42852,42853);(42854,42855);(42856,42857);
  (42858,42859);(42860,42861);(42862,42863);(42873,42874);(42875,42876);(42877,7545);
  (42878,42879);(42880,42881);(42882,42883);(42884,42885);(42886,42887);(42891,42892);
  (42893,613);(42896,42897);(42898,42899);(42902,42903);(42904,42905);(42906,42907);
  (42908,42909);(42910,42911);(42912,42913);(42914,42915);(42916,42917);(42918,42919);
  (42920,42921);(42922,614);(42923,604);(42924,609);(42925,620);(42926,618);(42928,670);
  (42929,647);(42930,669);(42931,43859);(42932,42933);(42934,42935);(42936,42937);(42938,42939);
  (42940,42941);(42942,42943);(42944,42945);(42946,42947);(42948,42900);(42949,642);
  (42950,7566);(42951,42952);(42953,42954);(42960,42961);(42966,42967);(42968,42969);
  (42997,42998);(65313,65345);(65314,65346);(65315,65347);(65316,65348);(65317,65349);
  (65318,65350);(65319,65351);(65320,65352);(65321,65353);(65322,65354);(65323,65355);
  (65324,65356);(65325,65357);(65326,65358);(65327,65359);(65328,65360);(65329,65361);
  (65330,65362);(65331,65363);(65332,65364);(65333,65365);(65334,65366);(65335,65367);
  (65336,65368);(65337,65369);(65338,65370);(66560,66600);(66561,66601);(66562,66602);
  (66563,66603);(66564,66604);(66565,66605);(66566,66606);(66567,66607);(66568,66608);
  (66569,66609);(66570,66610);(66571,66611);(66572,66612);(66573,66613);(66574,66614);
  (66575,66615);(66576,66616);(66577,66617);(66578,66618);(66579,66619);(66580,66620);
  (66581,66621);(66582,66622);(66583,66623);(66584,66624);(66585,66625);(66586,66626);
  (66587,66627);(66588,66628);(66589,66629);(66590,66630);(66591,66631);(66592,66632);
  (66593,66633);(66594,66634);(66595,66635);(66596,66636);(66597,66637);(66598,66638);
  (66599,66639);(66736,66776);(66737,66777);(66738,66778);(66739,66779);(66740,66780);
  (66741,66781);(66742,66782);(66743,66783);(66744,66784);(66745,66785);(66746,66786);
  (66747,66787);(66748,66788);(66749,66789);(66750,66790);(66751,66791);(66752,66792);
  (66753,66793);(66754,66794);(66755,66795);(66756,66796);(66757,66797);(66758,66798);
  (66759,66799);(66760,66800);(66761,66801);(66762,66802);(66763,66803);(66764,66804);
  (66765,66805);(66766,66806);(66767,66807);(66768,66808);(66769,66809);(66770,66810);
  (66771,66811);(66928,66967);(66929,66968);(66930,66969);(66931,66970);(66932,66971);
  (66933,66972);(66934,66973);(66935,66974);(66936,66975);(66937,66976);(66938,66977);
  (66940,66979);(66941,66980);(66942,66981);(66943,66982);(66944,66983);(66945,66984);
  (66946,66985);(66947,66986);(66948,66987);(66949,66988);(66950,66989);(66951,66990);
  (66952,66991);(66953,66992);(66954,66993);(66956,66995);(66957,66996);(66958,66997);
  (66959,66998);(66960,66999);(66961,67000);(66962,67001);(66964,67003);(66965,67004);
  (68736,68800);(68737,68801);(68738,68802);(68739,68803);(68740,68804);(68741,68805);
  (68742,68806);(68743,68807);(68744,68808);(68745,68809);(68746,68810);(68747,68811);
  (68748,68812);(68749,68813);(68750,68814);(68751,68815);(68752,68816);(68753,68817);
  (68754,68818);(68755,68819);(68756,68820);(68757,68821);(68758,68822);(68759,68823);
  (68760,68824);(68761,68825);(68762,68826);(68763,68827);(68764,68828);(68765,68829);
  (68766,68830);(68767,68831);(68768,68832);(68769,68833);(68770,68834);(68771,68835);
  (68772,68836);(68773,68837);(68774,68838);(68775,68839);(68776,68840);(68777,68841);
  (68778,68842);(68779,68843);(68780,68844);(68781,68845);(68782,68846);(68783,68847);
  (68784,68848);(68785,68849);(68786,68850);(71840,71872);(71841,71873);(71842,71874);
  (71843,71875);(71844,71876);(71845,71877);(71846,71878);(71847,71879);(71848,71880);
  (71849,71881);(71850,71882);(71851,71883);(71852,71884);(71853,71885);(71854,71886);
  (71855,71887);(71856,71888);(71857,71889);(71858,71890);(71859,71891);(71860,71892);
  (71861,71893);(71862,71894);(71863,71895);(71864,71896);(71865,71897);(71866,71898);
  (71867,71899);(71868,71900);(71869,71901);(71870,71902);(71871,71903);(93760,93792);
  (93761,93793);(93762,93794);(93763,93795);(93764,93796);(93765,93797);(93766,93798);
  (93767,93799);(93768,93800);(93769,93801);(93770,93802);(93771,93803);(93772,93804);
  (93773,93805);(93774,93806);(93775,93807);(93776,93808);(93777,93809);(93778,93810);
  (93779,93811);(93780,93812);(93781,93813);(93782,93814);(93783,93815);(93784,93816);
  (93785,93817);(93786,93818);(93787,93819);(93788,93820);(93789,93821);(93790,93822);
  (93791,93823);(125184,125218);(125185,125219);(125186,125220);(125187,125221);(125188,125222);
  (125189,125223);(125190,125224);(125191,125225);(125192,125226);(125193,125227);
  (125194,125228);(125195,125229);(125196,125230);(125197,125231);(125198,125232);
  (125199,125233);(125200,125234);(125201,125235);(125202,125236);(125203,125237);
  (125204,125238);(125205,125239);(125206,125240);(125207,125241);(125208,125242);
  (125209,125243);(125210,125244);(125211,125245);(125212,125246);(125213,125247);
  (125214,125248);(125215,125249);(125216,125250);(125217,125251)].

Definition isspace (c : cp) : bool := in_ranges whitespace_ranges c.

(** [Py_UNICODE_TODECIMAL]: the value of a decimal digit, if [c] is one. *)
Definition decimal (c : cp) : option N :=
  match find (fun z => N.leb z c && N.ltb c (z + 10)) decimal_zeros with
  | Some z => Some (c - z)
  | None => None
  end.

Definition is_cased (c : cp) : bool := in_ranges cased_ranges c.
Definition is_case_ignorable (c : cp) : bool := in_ranges case_ignorable_ranges c.

(** [_PyUnicode_ToUpperFull] and [_PyUnicode_ToLowerFull]. *)
Definition to_upper_full (c : cp) : list cp :=
  match assoc c upper_special with
  | Some l => l
  | None => match assoc c upper_simple with
            | Some u => [u]
            | None => [c]
            end
  end.

Definition to_lower_full (c : cp) : list cp :=
  match assoc c lower_special with
  | Some l => l
  | None => match assoc c lower_simple with
            | Some u => [u]
            | None => [c]
            end
  end.

Definition capital_sigma : cp := 931.
Definition small_sigma : cp := 963.
Definition small_final_sigma : cp := 962.

(** KELVIN SIGN: its lower-case form is the ASCII letter [k], its upper-case
    form is itself. *)
Definition kelvin_sign : cp := 8490.

(** Every code point that a case table lists. *)
Definition case_keys : list cp :=
  map fst upper_special ++ map fst upper_simple ++
  map fst lower_special ++ map fst lower_simple ++ [capital_sigma].

Definition is_ascii (c : cp) : bool := c <? 128.

End Unicode.

(** ** String methods *)

Module Str.

(** [s.upper()]: every code point is replaced by its full upper-case form. *)
Definition upper (s : pystr) : pystr := flat_map Unicode.to_upper_full s.

Fixpoint skip_ignorable (s : pystr) : pystr :=
  match s with
  | [] => []
  | c :: s' => if Unicode.is_case_ignorable c then skip_ignorable s' else s
  end.

(** [handle_capital_sigma]: a capital sigma is final when a cased letter
    precedes it and none follows, case-ignorable code points skipped.
    [before] holds the preceding code points, nearest first. *)
Definition final_sigma (before after : pystr) : bool :=
  match skip_ignorable before with
  | [] => false
  | c :: _ =>
      Unicode.is_cased c &&
      match skip_ignorable after with
      | [] => true
      | d :: _ => negb (Unicode.is_cased d)
      end
  end.

Definition lower_at (before : pystr) (c : cp) (after : pystr) : list cp :=
  if N.eqb c Unicode.capital_sigma
  then [if final_sigma before after
        then Unicode.small_final_sigma else Unicode.small_sigma]
  else Unicode.to_lower_full c.

(** The lower-case forms a code point can take, over all contexts. *)
Definition lower_choices (c : cp) : list (list cp) :=
  if N.eqb c Unicode.capital_sigma
  then [[Unicode.small_final_sigma]; [Unicode.small_sigma]]
  else [Unicode.to_lower_full c].

Fixpoint lower_from (before s : pystr) : pystr :=
  match s with
  | [] => []
  | c :: s' => lower_at before c s' ++ lower_from (c :: before) s'
  end.

(** [s.lower()]. *)
Definition lower (s : pystr) : pystr := lower_from [] s.

Fixpoint lstrip (s : pystr) : pystr :=
  match s with
  | [] => []
  | c :: s' => if Unicode.isspace c then lstrip s' else s
  end.

Definition rstrip (s : pystr) : pystr := rev (lstrip (rev s)).

(** [s.strip()]: white space removed at both ends. *)
Definition strip (s : pystr) : pystr := rstrip (lstrip s).

(** Truth value of a string: non-empty. *)
Definition truthy (s : pystr) : bool :=
  match s with [] => false | _ :: _ => true end.

Fixpoint startswith (p s : pystr) : bool :=
  match p, s with
  | [], _ => true
  | x :: p', y :: s' => N.eqb x y && startswith p' s'
  | _ :: _, [] => false
  end.

(** [sub in s]. *)
Fixpoint contains (sub s : pystr) : bool :=
  startswith sub s ||
  match s with
  | [] => false
  | _ :: s' => contains sub s'
  end.

End Str.

(** ** Values and integer coercion *)

Inductive value : Type :=
| VNone
| VBool (b : bool)
| VInt (n : Z)
| VFloat (f : spec_float)
| VStr (s : pystr).

Module Int.

Local Open Scope N_scope.

(** [_PyUnicode_TransformDecimalAndSpaceToASCII]: an ASCII string is kept;
    otherwise white space becomes a blank, a decimal digit its ASCII digit,
    and the first other non-ASCII code point ends the text with [?]. *)
Fixpoint transform (s : pystr) : pystr :=
  match s with
  | [] => []
  | c :: s' =>
      if c <? 127 then c :: transform s'
      else if Unicode.isspace c then 32 :: transform s'
      else match Unicode.decimal c with
           | Some d => (48 + d) :: transform s'
           | None => [63]
           end
  end.

Definition to_ascii (s : pystr) : pystr :=
  if forallb (fun c => c <? 128) s then s else transform s.

(** [Py_ISSPACE] *)
Definition c_isspace (c : cp) : bool := (9 <=? c) && (c <=? 13) || (c =? 32).

Fixpoint skip_spaces (s : pystr) : pystr :=
  match s with
  | [] => []
  | c :: s' => if c_isspace c then skip_spaces s' else s
  end.

Definition is_digit (c : cp) : bool := (48 <=? c) && (c <=? 57).

(** The scan of [PyLong_FromString] over digits and single underscores:
    the value read, the number of digits and the text left; [None] for a
    doubled or trailing underscore. *)
Fixpoint scan_digits (s : pystr) (prev_underscore : bool) (acc : Z) (digits : nat)
  : option (Z * nat * pystr) :=
  match s with
  | [] => if prev_underscore then None else Some (acc, digits, s)
  | c :: s' =>
      if is_digit c
      then scan_digits s' false (10 * acc + Z.of_N (c - 48))%Z (S digits)
      else if c =? 95
      then if prev_underscore then None else scan_digits s' true acc digits
      else if prev_underscore then None else Some (acc, digits, s)
  end.

(** [sys.get_int_max_str_digits()], the default of CPython 3.11. *)
Definition max_str_digits : nat := 4300.

Definition parse_signed (s : pystr) : option Z :=
  let s := skip_spaces s in
  let '(negative, s) :=
    match s with
    | 43 :: s' => (false, s')
    | 45 :: s' => (true, s')
    | _ => (false, s)
    end in
  match s with
  | 95 :: _ => None
  | _ =>
      match scan_digits s false 0%Z 0%nat with
      | None => None
      | Some (n, digits, rest) =>
          if Nat.ltb max_str_digits digits then None
          else if Nat.eqb digits 0 then None
          else match skip_spaces rest with
               | [] => Some (if negative then (- n)%Z else n)
               | _ :: _ => None
               end
      end
  end.

(** [int(s)] for a string. *)
Definition of_str (s : pystr) : result Z :=
  match parse_signed (to_ascii s) with
  | Some n => Ok n
  | None => Raise ValueError
  end.

(** [int(f)] for a float: truncation toward zero. *)
Definition of_float (f : spec_float) : result Z :=
  match f with
  | S754_zero _ => Ok 0%Z
  | S754_infinity _ => Raise OverflowError
  | S754_nan => Raise ValueError
  | S754_finite negative m e =>
      let magnitude :=
        if (0 <=? e)%Z then (Z.pos m * 2 ^ e)%Z else (Z.pos m / 2 ^ (- e))%Z in
      Ok (if negative then (- magnitude)%Z else magnitude)
  end.

End Int.

(** [int(v)] *)
Definition int_ (v : value) : result Z :=
  match v with
  | VNone => Raise TypeError
  | VBool b => Ok (if b then 1%Z else 0%Z)
  | VInt n => Ok n
  | VFloat f => Int.of_float f
  | VStr s => Int.of_str s
  end.

(** ** Regular expressions: the fragment of [re] the source uses

    Anchors, literals and character sets with a repetition count.  The
    matcher backtracks like [sre]: a repetition first takes as many code
    points as it can and gives them back one at a time. *)

Module Re.

Local Open Scope N_scope.

Definition charset : Type := list (N * N).

Inductive node : Type :=
| At_beginning
| At_end
| Repeat (cs : charset) (lo : nat) (hi : option nat).

Definition regex : Type := list node.

Definition mem (cs : charset) (c : cp) : bool := in_ranges cs c.

(** *** Parsing a pattern *)

Definition is_special (c : cp) : bool :=
  existsb (N.eqb c) (lit ".^$*+?{}[]\|()").

Definition is_alnum (c : cp) : bool :=
  (48 <=? c) && (c <=? 57) || (65 <=? c) && (c <=? 90) || (97 <=? c) && (c <=? 122).

(** The items of a set after its opening bracket, up to the closing one. *)
Fixpoint parse_set (s : pystr) (acc : charset) : option (charset * pystr) :=
  match s with
  | [] => None
  | c :: s1 =>
      if c =? ch "]" then Some (rev acc, s1)
      else if c =? ch "\" then
        match s1 with
        | x :: s2 => if is_alnum x then None else parse_set s2 ((x, x) :: acc)
        | [] => None
        end
      else
        match s1 with
        | d :: s2 =>
            if d =? ch "-" then
              match s2 with
              | e :: s3 =>
                  if e =? ch "]" then Some (rev ((d, d) :: (c, c) :: acc), s3)
                  else if e =? ch "\" then None
                  else if c <=? e then parse_set s3 ((c, e) :: acc)
                  else None
              | [] => None
              end
            else parse_set s1 ((c, c) :: acc)
        | [] => None
        end
  end.

Fixpoint parse_number (s : pystr) (acc : nat) : nat * pystr :=
  match s with
  | c :: s' =>
      if Int.is_digit c then parse_number s' (10 * acc + N.to_nat (c - 48))
      else (acc, s)
  | [] => (acc, s)
  end.

(** The bounds written in braces, the opening brace already read. *)
Definition parse_braces (s : pystr) : option (nat * option nat * pystr) :=
  match s with
  | c :: _ =>
      if Int.is_digit c then
        let '(lo, s1) := parse_number s 0 in
        match s1 with
        | d :: s2 =>
            if d =? ch "}" then Some (lo, Some lo, s2)
            else if d =? ch "," then
              match s2 with
              | e :: s3 =>
                  if e =? ch "}" then Some (lo, None, s3)
                  else if Int.is_digit e then
                    let '(hi, s4) := parse_number s2 0 in
                    match s4 with
                    | f :: s5 =>
                        if (f =? ch "}") && Nat.leb lo hi
                        then Some (lo, Some hi, s5) else None
                    | [] => None
                    end
                  else None
              | [] => None
              end
            else None
        | [] => None
        end
      else None
  | [] => None
  end.

Definition is_repeat_char (c : cp) : bool :=
  (c =? ch "*") || (c =? ch "+") || (c =? ch "?") || (c =? ch "{").

(** The repetition after an item: none means exactly once.  A second
    repetition sign (lazy, possessive or repeated) is outside the fragment. *)
Definition parse_repeat (s : pystr) : option (nat * option nat * pystr) :=
  let checked (r : option (nat * option nat * pystr)) :=
    match r with
    | Some (lo, hi, c :: s') =>
        if is_repeat_char c then None else Some (lo, hi, c :: s')
    | _ => r
    end in
  match s with
  | c :: s' =>
      if c =? ch "*" then checked (Some (0%nat, None, s'))
      else if c =? ch "+" then checked (Some (1%nat, None, s'))
      else if c =? ch "?" then checked (Some (0%nat, Some 1%nat, s'))
      else if c =? ch "{" then checked (parse_braces s')
      else Some (1%nat, Some 1%nat, s)
  | [] => Some (1%nat, Some 1%nat, s)
  end.

Definition parse_item (c : cp) (s : pystr) : option (charset * pystr) :=
  if c =? ch "[" then
    match s with
    | d :: _ => if (d =? ch "^") || (d =? ch "]") then None else parse_set s []
    | [] => None
    end
  else if c =? ch "\" then
    match s with
    | x :: s' => if is_alnum x then None else Some ([(x, x)], s')
    | [] => None
    end
  else if is_special c then None
  else Some ([(c, c)], s).

Fixpoint parse (fuel : nat) (p : pystr) : option regex :=
  match fuel with
  | O => None
  | S fuel' =>
      match p with
      | [] => Some []
      | c :: s =>
          if c =? ch "^" then option_map (cons At_beginning) (parse fuel' s)
          else if c =? ch "$" then option_map (cons At_end) (parse fuel' s)
          else
            match parse_item c s with
            | None => None
            | Some (cs, s1) =>
                match parse_repeat s1 with
                | None => None
                | Some (lo, hi, s2) =>
                    option_map (cons (Repeat cs lo hi)) (parse fuel' s2)
                end
            end
      end
  end.

(** [re.compile(pattern)] *)
Definition compile (pattern : string) : option regex :=
  parse (S (String.length pattern)) (lit pattern).

(** *** Matching *)

(** [$] without [re.MULTILINE]: at the end of the text, or just before a
    newline that ends it. *)
Definition at_end (s : pystr) : bool :=
  match s with
  | [] => true
  | [c] => c =? 10
  | _ => false
  end.

Definition may_take (hi : option nat) : bool :=
  match hi with Some O => false | _ => true end.

Definition pred_hi (hi : option nat) : option nat :=
  match hi with Some n => Some (Nat.pred n) | None => None end.

(** A repetition of a set, followed by the continuation [k]; [bos] tells
    whether the position is still the start of the text.  The result is
    the number of code points matched. *)
Fixpoint match_repeat (cs : charset) (k : bool -> pystr -> option nat)
    (lo : nat) (hi : option nat) (bos : bool) (s : pystr) : option nat :=
  let stop := if Nat.eqb lo 0 then k bos s else None in
  match s with
  | c :: s' =>
      if may_take hi && mem cs c then
        match match_repeat cs k (Nat.pred lo) (pred_hi hi) false s' with
        | Some n => Some (S n)
        | None => stop
        end
      else stop
  | [] => stop
  end.

Fixpoint match_here (r : regex) (bos : bool) (s : pystr) : option nat :=
  match r with
  | [] => Some 0%nat
  | At_beginning :: r' => if bos then match_here r' bos s else None
  | At_end :: r' => if at_end s then match_here r' bos s else None
  | Repeat cs lo hi :: r' => match_repeat cs (match_here r') lo hi bos s
  end.

(** [re.match(pattern, s)]: the length of the match at the start of [s]. *)
Definition match_ (pattern : string) (s : pystr) : result (option nat) :=
  match compile pattern with
  | Some r => Ok (match_here r true s)
  | None => Raise ReError
  end.

Definition is_not_None {A : Type} (o : option A) : bool :=
  match o with Some _ => true | None => false end.

(** *** What it means for a text to match *)

Definition within (hi : option nat) (n : nat) : Prop :=
  match hi with Some h => (n <= h)%nat | None => True end.

(** [Matches r bos w rest]: [r] matches [w], which is followed by [rest];
    [bos] tells whether [w] starts the text. *)
Inductive Matches : regex -> bool -> pystr -> pystr -> Prop :=
| M_end bos rest :
    Matches [] bos [] rest
| M_beginning r w rest :
    Matches r true w rest ->
    Matches (At_beginning :: r) true w rest
| M_at_end r bos w rest :
    at_end (w ++ rest) = true ->
    Matches r bos w rest ->
    Matches (At_end :: r) bos w rest
| M_repeat cs lo hi r bos u w rest :
    Forall (fun c => mem cs c = true) u ->
    (lo <= List.length u)%nat ->
    within hi (List.length u) ->
    Matches r (bos && negb (Str.truthy u)) w rest ->
    Matches (Repeat cs lo hi :: r) bos (u ++ w) rest.

Definition has_match (r : regex) (bos : bool) (s : pystr) : Prop :=
  exists w rest, s = w ++ rest /\ Matches r bos w rest.

(** A repetition of a set takes a prefix [u] of [s] and [K] holds of what is
    left. *)
Definition taken (cs : charset) (K : bool -> pystr -> Prop)
    (lo : nat) (hi : option nat) (bos : bool) (s : pystr) : Prop :=
  exists u s',
    s = u ++ s' /\ Forall (fun c => mem cs c = true) u /\
    (lo <= List.length u)%nat /\ within hi (List.length u) /\
    K (bos && negb (Str.truthy u)) s'.

(** The pattern matches at the start of [s]. *)
Definition matches (pattern : string) (s : pystr) : Prop :=
  exists r w rest,
    compile pattern = Some r /\ s = w ++ rest /\ Matches r true w rest.

End Re.

(** ** Student records and their manager *)

(** Modelled from the spec: the [Student] class (models/student.py) is not
    among the sources; its six attributes are those of the StudentRecord of
    the data model, which are also the keywords of the constructor call in
    [show_add_student_form]. *)
Record Student : Type := mkStudent {
  student_id : pystr;
  name : pystr;
  age : Z;
  grade : pystr;
  email : pystr;
  performance : pystr
}.

Module StudentManager.

(** Modelled from the spec: the [StudentManager] class (services/manager.py)
    is not among the sources; the collection and its operations follow the
    description of the StudentStore. The collection is kept in insertion
    order. *)
Definition t : Type := list Student.

Definition get_all_students (m : t) : list Student := m.

Definition has_id (m : t) (sid : pystr) : bool :=
  existsb (fun s => pystr_eqb (student_id s) sid) m.

(** Modelled from the spec: [add_student] fails if the id already exists;
    otherwise it inserts the record. No other field is checked. *)
Definition add_student (m : t) (record : Student) : bool * t :=
  if has_id m (student_id record) then (false, m) else (true, m ++ [record]).

(** Modelled from the spec: [search_students] is a case-insensitive substring
    match against the name or the email; an empty query returns the full
    collection; the result keeps the collection order. *)
Definition search_students (m : t) (query : pystr) : list Student :=
  if Str.truthy query then
    filter (fun s =>
              Str.contains (Str.lower query) (Str.lower (name s)) ||
              Str.contains (Str.lower query) (Str.lower (email s))) m
  else m.

Definition criterion {A : Type} (c : option A) (test : A -> bool) : bool :=
  match c with
  | Some a => test a
  | None => true
  end.

(** Modelled from the spec: the records of a sequence that satisfy all the
    supplied criteria; grades are compared upper-cased, the age bounds are
    inclusive, the performance is compared exactly. *)
Definition apply_filters (grade_c : option pystr) (min_age max_age : option Z)
    (performance_c : option pystr) (students : list Student) : list Student :=
  filter (fun s =>
            criterion grade_c
              (fun g => pystr_eqb (Str.upper (grade s)) (Str.upper g)) &&
            criterion min_age (fun a => Z.leb a (age s)) &&
            criterion max_age (fun a => Z.leb (age s) a) &&
            criterion performance_c (fun p => pystr_eqb (performance s) p))
         students.

(** Modelled from the spec: [filter_students] filters the full collection. *)
Definition filter_students (m : t) (grade_c : option pystr)
    (min_age max_age : option Z) (performance_c : option pystr) : list Student :=
  apply_filters grade_c min_age max_age performance_c m.

(** Modelled from the spec: [update_student] overwrites the supplied fields
    of the record with the given id, leaving [student_id] itself and any
    field that is not supplied untouched; it fails if the id does not exist. *)
Definition set_field (s : Student) (field : string * value) : Student :=
  let '(key, v) := field in
  if String.eqb key "name" then
    match v with
    | VStr x => mkStudent (student_id s) x (age s) (grade s) (email s) (performance s)
    | _ => s
    end
  else if String.eqb key "age" then
    match v with
    | VInt x => mkStudent (student_id s) (name s) x (grade s) (email s) (performance s)
    | _ => s
    end
  else if String.eqb key "grade" then
    match v with
    | VStr x => mkStudent (student_id s) (name s) (age s) x (email s) (performance s)
    | _ => s
    end
  else if String.eqb key "email" then
    match v with
    | VStr x => mkStudent (student_id s) (name s) (age s) (grade s) x (performance s)
    | _ => s
    end
  else if String.eqb key "performance" then
    match v with
    | VStr x => mkStudent (student_id s) (name s) (age s) (grade s) (email s) x
    | _ => s
    end
  else s.

Definition set_fields (s : Student) (fields : list (string * value)) : Student :=
  fold_left set_field fields s.

Fixpoint update_record (m : t) (sid : pystr) (fields : list (string * value)) : t :=
  match m with
  | [] => []
  | s :: m' =>
      if pystr_eqb (student_id s) sid
      then set_fields s fields :: m'
      else s :: update_record m' sid fields
  end.

Definition update_student (m : t) (sid : pystr) (fields : list (string * value))
  : bool * t :=
  if has_id m sid then (true, update_record m sid fields) else (false, m).

(** Modelled from the spec: [delete_student] removes the record with the
    given id; it fails if the id does not exist. *)
Fixpoint remove_record (m : t) (sid : pystr) : t :=
  match m with
  | [] => []
  | s :: m' =>
      if pystr_eqb (student_id s) sid then m' else s :: remove_record m' sid
  end.

Definition delete_student (m : t) (sid : pystr) : bool * t :=
  if has_id m sid then (true, remove_record m sid) else (false, m).

End StudentManager.

(** ** StudentManagementUI *)

Definition email_pattern : string :=
  "^[a-zA-Z0-9._%+-]+@[a-zA-Z0-9.-]+\.[a-zA-Z]{2,}$".

Definition grade_pattern : string := "^[1-9][0-9]?[A-Z]$".

(** [re.match] raises [TypeError] on a value that is not a string. *)
Definition validate_email (email : value) : result bool :=
  match email with
  | VStr s =>
      m <- Re.match_ email_pattern s ;;
      Ok (Re.is_not_None m)
  | _ => Raise TypeError
  end.

Definition validate_age (age : value) : result bool :=
  try_except
    (age_int <- int_ age ;;
     Ok (Z.leb 5 age_int && Z.leb age_int 100))
    is_ValueError
    (Ok false).

(** Only strings have [upper]: any other value raises [AttributeError]. *)
Definition validate_grade (grade : value) : result bool :=
  match grade with
  | VStr s =>
      m <- Re.match_ grade_pattern (Str.upper s) ;;
      Ok (Re.is_not_None m)
  | _ => Raise AttributeError
  end.

(** The choices of the performance select box. *)
Definition performance_options : list pystr :=
  map lit ["Excellent"; "Good"; "Average"; "Needs Improvement"]%string.

Definition name_message : string := "Name is required".
Definition age_message : string := "Age must be between 5 and 100".
Definition email_message : string := "Valid email is required".
Definition grade_message : string := "Grade must be in format like '10A', '11B'".

(** The values of the widgets of a form: two text inputs, a number input
    (an [int], as its bounds and default are), a text input and a select box. *)
Record Form : Type := mkForm {
  f_name : pystr;
  f_age : Z;
  f_email : pystr;
  f_grade : pystr;
  f_performance : pystr;
  submitted : bool
}.

Definition append_if (cond : bool) (errors : list string) (message : string)
  : list string :=
  if cond then errors ++ [message] else errors.

(** The error list of a validation block, from the outcome of its four
    checks. *)
Definition messages (name_ok age_ok email_ok grade_ok : bool) : list string :=
  append_if (negb grade_ok)
    (append_if (negb email_ok)
       (append_if (negb age_ok)
          (append_if (negb name_ok) [] name_message) age_message)
       email_message)
    grade_message.

Inductive add_outcome : Type :=
| Add_idle
| Add_errors (errors : list string)
| Add_success (new_student : Student) (m' : StudentManager.t)
| Add_failed (new_student : Student).

Inductive update_outcome : Type :=
| Update_no_students
| Update_no_selection
| Update_idle
| Update_errors (errors : list string)
| Update_success (sid : pystr) (update_data : list (string * value))
    (m' : StudentManager.t)
| Update_failed (sid : pystr) (update_data : list (string * value)).

(** The record a submission of the add form has constructed, if any. *)
Definition constructed (outcome : add_outcome) : option Student :=
  match outcome with
  | Add_success new_student _ => Some new_student
  | Add_failed new_student => Some new_student
  | Add_idle => None
  | Add_errors _ => None
  end.

(** The arguments of the call of [update_student] a submission has made. *)
Definition update_call (outcome : update_outcome)
  : option (pystr * list (string * value)) :=
  match outcome with
  | Update_success sid update_data _ => Some (sid, update_data)
  | Update_failed sid update_data => Some (sid, update_data)
  | _ => None
  end.

(** [student_options]: a dict keeps the position of the first insertion of a
    key and the value of the last one. *)
Fixpoint dict_set {V : Type} (k : pystr) (v : V) (d : list (pystr * V))
  : list (pystr * V) :=
  match d with
  | [] => [(k, v)]
  | (k', v') :: d' =>
      if pystr_eqb k' k then (k', v) :: d' else (k', v') :: dict_set k v d'
  end.

Fixpoint dict_get {V : Type} (k : pystr) (d : list (pystr * V)) : result V :=
  match d with
  | [] => Raise KeyError
  | (k', v) :: d' => if pystr_eqb k' k then Ok v else dict_get k d'
  end.

Definition option_label (s : Student) : pystr :=
  student_id s ++ lit ": " ++ name s.

Definition student_options (students : list Student) : list (pystr * Student) :=
  fold_left (fun d s => dict_set (option_label s) s d) students [].

(** [options.index(x)]: the first position of [x]; [ValueError] if absent. *)
Fixpoint list_index (options : list pystr) (x : pystr) : result nat :=
  match options with
  | [] => Raise ValueError
  | o :: options' =>
      if pystr_eqb o x then Ok 0
      else (i <- list_index options' x ;; Ok (S i))
  end.

(** [st.number_input(min_value=..., max_value=..., value=...)] raises when
    its initial value lies outside its bounds; the number it returns is the
    entry of the user. *)
Definition number_input (min_value max_value value : Z) : result unit :=
  if Z.ltb value min_value then Raise StreamlitAPIException
  else if Z.ltb max_value value then Raise StreamlitAPIException
  else Ok tt.

(** A select box returns the option the user picked. *)
Definition selectbox (options : list pystr) (choice : nat) : option pystr :=
  nth_error options choice.

Record SearchForm : Type := mkSearchForm {
  search_query : pystr;
  performance_filter : pystr;
  grade_filter : pystr;
  min_age : Z;
  max_age : Z
}.

Section UI.

(** Modelled from the spec: [generate_student_id] of the manager; its
    strategy is left free. *)
Variable generate_student_id : StudentManager.t -> pystr.

(** The validation block of the add form (lines 62-71). *)
Definition add_validation (f : Form) : result (list string) :=
  let errors := [] in
  let errors :=
    append_if (negb (Str.truthy (Str.strip (f_name f)))) errors name_message in
  age_ok <- validate_age (VInt (f_age f)) ;;
  let errors := append_if (negb age_ok) errors age_message in
  email_ok <- validate_email (VStr (f_email f)) ;;
  let errors := append_if (negb email_ok) errors email_message in
  grade_ok <- validate_grade (VStr (f_grade f)) ;;
  let errors :=
    append_if (negb grade_ok) errors grade_message in
  Ok errors.

Definition show_add_student_form (m : StudentManager.t) (f : Form)
  : result add_outcome :=
  if submitted f then
    errors <- add_validation f ;;
    match errors with
    | _ :: _ => Ok (Add_errors errors)
    | [] =>
        let sid := generate_student_id m in
        age_int <- int_ (VInt (f_age f)) ;;
        let new_student :=
          mkStudent sid (Str.strip (f_name f)) age_int (Str.upper (f_grade f))
                    (Str.strip (f_email f)) (f_performance f) in
        let '(added, m') := StudentManager.add_student m new_student in
        if added then Ok (Add_success new_student m')
        else Ok (Add_failed new_student)
    end
  else Ok Add_idle.

(** The validation block of the update form (lines 133-142). *)
Definition update_validation (f : Form) : result (list string) :=
  let errors := [] in
  let errors :=
    append_if (negb (Str.truthy (Str.strip (f_name f)))) errors name_message in
  age_ok <- validate_age (VInt (f_age f)) ;;
  let errors := append_if (negb age_ok) errors age_message in
  email_ok <- validate_email (VStr (f_email f)) ;;
  let errors := append_if (negb email_ok) errors email_message in
  grade_ok <- validate_grade (VStr (f_grade f)) ;;
  let errors :=
    append_if (negb grade_ok) errors grade_message in
  Ok errors.

Definition show_update_student_form (m : StudentManager.t) (choice : nat) (f : Form)
  : result update_outcome :=
  let students := StudentManager.get_all_students m in
  match students with
  | [] => Ok Update_no_students
  | _ :: _ =>
      let options := student_options students in
      match selectbox (map fst options) choice with
      | None => Ok Update_no_selection
      | Some selected_option =>
          if Str.truthy selected_option then
            selected_student <- dict_get selected_option options ;;
            _ <- number_input 5 100 (age selected_student) ;;
            _ <- list_index performance_options (performance selected_student) ;;
            if submitted f then
              errors <- update_validation f ;;
              match errors with
              | _ :: _ => Ok (Update_errors errors)
              | [] =>
                  age_int <- int_ (VInt (f_age f)) ;;
                  let update_data :=
                    [("name"%string, VStr (Str.strip (f_name f)));
                     ("age"%string, VInt age_int);
                     ("grade"%string, VStr (Str.upper (f_grade f)));
                     ("email"%string, VStr (Str.strip (f_email f)));
                     ("performance"%string, VStr (f_performance f))] in
                  let sid := student_id selected_student in
                  let '(updated, m') :=
                    StudentManager.update_student m sid update_data in
                  if updated then Ok (Update_success sid update_data m')
                  else Ok (Update_failed sid update_data)
              end
            else Ok Update_idle
          else Ok Update_no_selection
      end
  end.

Definition show_search_filter_section (m : StudentManager.t) (f : SearchForm)
  : list Student :=
  let filtered_students := StudentManager.get_all_students m in
  let filtered_students :=
    if Str.truthy (search_query f)
    then StudentManager.search_students m (search_query f)
    else filtered_students in
  let performance_val :=
    if negb (pystr_eqb (performance_filter f) (lit "All"))
    then Some (performance_filter f) else None in
  let grade_val :=
    if Str.truthy (Str.strip (grade_filter f))
    then Some (Str.upper (grade_filter f)) else None in
  let filtered_students :=
    StudentManager.filter_students m grade_val (Some (min_age f)) (Some (max_age f))
                                   performance_val in
  filtered_students.

End UI.

(** The combined query the search section is meant to answer: the filters
    applied to the output of the search. *)
Definition search_then_filter (m : StudentManager.t) (f : SearchForm)
  : list Student :=
  let found :=
    if Str.truthy (search_query f)
    then StudentManager.search_students m (search_query f)
    else StudentManager.get_all_students m in
  StudentManager.apply_filters
    (if Str.truthy (Str.strip (grade_filter f))
     then Some (Str.upper (grade_filter f)) else None)
    (Some (min_age f)) (Some (max_age f))
    (if negb (pystr_eqb (performance_filter f) (lit "All"))
     then Some (performance_filter f) else None)
    found.

(** Two records and a search for the first of them. *)
Definition alice : Student :=
  mkStudent (lit "S001") (lit "Alice Smith") 20 (lit "10A")
            (lit "alice@example.com") (lit "Good").

Definition bob : Student :=
  mkStudent (lit "S002") (lit "Bob Jones") 21 (lit "11B")
            (lit "bob@example.com") (lit "Average").

Definition search_alice : SearchForm :=
  mkSearchForm (lit "alice") (lit "All") [] 5 100.

(** A submission with blanks around the name, a newline after the address
    and a lower-case grade, and the record the add path makes of it. *)
Definition carol_form : Form :=
  mkForm (lit "  Carol White ") 18 (lit "carol@example.com" ++ [10%N])
         (lit "12c") (lit "Excellent") true.

Definition carol : Student :=
  mkStudent (lit "S003") (lit "Carol White") 18 (lit "12C")
            (lit "carol@example.com") (lit "Excellent").

Definition next_id (m : StudentManager.t) : pystr := lit "S003".

Definition carol_update_data : list (string * value) :=
  [("name"%string, VStr (lit "Carol White"));
   ("age"%string, VInt 18);
   ("grade"%string, VStr (lit "12C"));
   ("email"%string, VStr (lit "carol@example.com"));
   ("performance"%string, VStr (lit "Excellent"))].

(** A submission whose grade ends with a newline, and the record the add
    path makes of it. *)
Definition newline_form : Form :=
  mkForm (lit "Dan Brown") 17 (lit "dan@example.com") (lit "9z" ++ [10%N])
         (lit "Good") true.

Definition dan : Student :=
  mkStudent (lit "S003") (lit "Dan Brown") 17 (lit "9Z" ++ [10%N])
            (lit "dan@example.com") (lit "Good").

Definition alice_updated : Student :=
  mkStudent (lit "S001") (lit "Carol White") 18 (lit "12C")
            (lit "carol@example.com") (lit "Excellent").

(** ** The shape of a valid e-mail address and of a valid grade

    Written from the description of the fields: [local@domain.tld] with a
    final segment of at least two letters; one or two digits without a
    leading zero, then one upper-case letter. *)

Module Shape.

Local Open Scope N_scope.

Definition is_lower (c : cp) : bool := (97 <=? c) && (c <=? 122).
Definition is_upper (c : cp) : bool := (65 <=? c) && (c <=? 90).
Definition is_letter (c : cp) : bool := is_lower c || is_upper c.
Definition is_digit (c : cp) : bool := (48 <=? c) && (c <=? 57).
Definition is_nonzero_digit (c : cp) : bool := (49 <=? c) && (c <=? 57).

Definition local_char (c : cp) : bool :=
  is_letter c || is_digit c || existsb (N.eqb c) (lit "._%+-").

Definition domain_char (c : cp) : bool :=
  is_letter c || is_digit c || existsb (N.eqb c) (lit ".-").

Definition all (p : cp -> bool) (s : pystr) : Prop :=
  Forall (fun c => p c = true) s.

Definition newline : cp := 10.

(** Nothing, or one newline. *)
Definition line_end (tail : pystr) : Prop := tail = [] \/ tail = [newline].

Definition email (s : pystr) : Prop :=
  exists local domain tld,
    s = local ++ lit "@" ++ domain ++ lit "." ++ tld /\
    local <> [] /\ all local_char local /\
    domain <> [] /\ all domain_char domain /\
    (2 <= List.length tld)%nat /\ all is_letter tld.

Definition grade (s : pystr) : Prop :=
  exists d ds l,
    s = d :: ds ++ [l] /\
    is_nonzero_digit d = true /\
    (ds = [] \/ exists e, ds = [e] /\ is_digit e = true) /\
    is_upper l = true.

(** What [$] lets through: the shape, then the end of the line. *)
Definition email_line (s : pystr) : Prop :=
  exists e tail, s = e ++ tail /\ email e /\ line_end tail.

Definition grade_line (s : pystr) : Prop :=
  exists g tail, s = g ++ tail /\ grade g /\ line_end tail.

End Shape.

(** ** The two patterns, compiled *)

Definition email_regex : Re.regex :=
  [Re.At_beginning;
   Re.Repeat [(97, 122); (65, 90); (48, 57); (46, 46); (95, 95); (37, 37); (43, 43);
              (45, 45)]%N 1 None;
   Re.Repeat [(64, 64)]%N 1 (Some 1);
   Re.Repeat [(97, 122); (65, 90); (48, 57); (46, 46); (45, 45)]%N 1 None;
   Re.Repeat [(46, 46)]%N 1 (Some 1);
   Re.Repeat [(97, 122); (65, 90)]%N 2 None;
   Re.At_end].

Definition grade_regex : Re.regex :=
  [Re.At_beginning;
   Re.Repeat [(49, 57)]%N 1 (Some 1);
   Re.Repeat [(48, 57)]%N 0 (Some 1);
   Re.Repeat [(65, 90)]%N 1 (Some 1);
   Re.At_end].

(** ** Checks over the case tables *)

Module CaseCheck.

Local Open Scope N_scope.

(** The number of ASCII upper-case letters of a text. *)
Definition letters (s : pystr) : nat := List.length (filter Shape.is_upper s).

(** Upper-casing an upper-case form changes nothing. *)
Definition upper_stable (c : cp) : bool :=
  pystr_eqb (Str.upper (Unicode.to_upper_full c)) (Unicode.to_upper_full c).

(** Lower-casing does not change an upper-case form that is ASCII; and,
    the Kelvin sign apart, it cannot produce an ASCII upper-case form with
    at most one letter that was not there before. *)
Definition lower_stable (c : cp) : bool :=
  forallb
    (fun l =>
       let block := Str.upper l in
       (negb (forallb Unicode.is_ascii (Unicode.to_upper_full c)) ||
        pystr_eqb block (Unicode.to_upper_full c)) &&
       ((c =? Unicode.kelvin_sign) ||
        negb (forallb Unicode.is_ascii block && Nat.leb (letters block) 1) ||
        pystr_eqb block (Unicode.to_upper_full c)))
    (Str.lower_choices c).

End CaseCheck.

(** ** The delete form, the prefilled update form and the table *)

(** The dict of an options comprehension, [{label(s): val(s) for s in
    students}]; [student_options] is the one with the student as value. *)
Definition options_step {V : Type} (val : Student -> V) (d : list (pystr * V))
    (s : Student) : list (pystr * V) :=
  dict_set (option_label s) (val s) d.

Definition options_of {V : Type} (val : Student -> V) (students : list Student)
  : list (pystr * V) :=
  fold_left (options_step val) students [].

(** The last student of a list that carries a label. *)
Fixpoint last_labelled (k : pystr) (students : list Student) : option Student :=
  match students with
  | [] => None
  | s :: students' =>
      match last_labelled k students' with
      | Some s' => Some s'
      | None => if pystr_eqb (option_label s) k then Some s else None
      end
  end.

Inductive delete_outcome : Type :=
| Delete_no_students
| Delete_no_selection
| Delete_warned (selected_option : pystr)
| Delete_success (sid : pystr) (m' : StudentManager.t)
| Delete_failed (sid : pystr).

(** The argument of the call of [delete_student] the form has made. *)
Definition delete_call (outcome : delete_outcome) : option pystr :=
  match outcome with
  | Delete_success sid _ => Some sid
  | Delete_failed sid => Some sid
  | _ => None
  end.

(** [show_delete_student_form] (lines 161-186); [confirm] is the value of
    the button. *)
Definition show_delete_student_form (m : StudentManager.t) (choice : nat)
    (confirm : bool) : result delete_outcome :=
  let students := StudentManager.get_all_students m in
  match students with
  | [] => Ok Delete_no_students
  | _ :: _ =>
      let student_options := options_of student_id students in
      match selectbox (map fst student_options) choice with
      | None => Ok Delete_no_selection
      | Some selected_option =>
          if Str.truthy selected_option then
            if confirm then
              sid <- dict_get selected_option student_options ;;
              let '(deleted, m') := StudentManager.delete_student m sid in
              if deleted then Ok (Delete_success sid m')
              else Ok (Delete_failed sid)
            else Ok (Delete_warned selected_option)
          else Ok Delete_no_selection
      end
  end.

(** The update form as it is shown for a student, before any edit: every
    widget holds the stored value (lines 118-128). *)
Definition prefill (selected_student : Student) : Form :=
  mkForm (name selected_student) (age selected_student) (email selected_student)
         (grade selected_student) (performance selected_student) true.

(** One row of the table (lines 239-246). *)
Definition table_row (student : Student) : list (string * value) :=
  [("Student ID"%string, VStr (student_id student));
   ("Name"%string, VStr (name student));
   ("Age"%string, VInt (age student));
   ("Grade"%string, VStr (grade student));
   ("Email"%string, VStr (email student));
   ("Performance"%string, VStr (performance student))].

Definition pystr_eq_dec : forall a b : pystr, {a = b} + {a <> b} :=
  list_eq_dec N.eq_dec.

(** [len(set(xs))] *)
Definition distinct_count (xs : list pystr) : nat :=
  List.length (nodup pystr_eq_dec xs).

(** [sum(s.age for s in students)] *)
Definition age_sum (students : list Student) : Z :=
  fold_right (fun s acc => (age s + acc)%Z) 0%Z students.

(** What [display_students_table] shows (lines 230-263) when it shows a
    table: the rows and the metrics.  The average age is the float quotient
    of [ages_total] by [total_students], printed with one decimal; the two
    integers are kept here. *)
Record table : Type := mkTable {
  rows : list (list (string * value));
  total_students : nat;
  excellent_count : nat;
  ages_total : Z;
  different_grades : nat
}.

(** [a / b] on two integers, [b] positive, raises [OverflowError] when the
    quotient rounds beyond the largest float. *)
Definition true_divide_overflows (a : Z) (b : nat) : bool :=
  Z.leb ((2 ^ 1024 - 2 ^ 970) * Z.of_nat b) (Z.abs a).

Section Table.

(** [st.dataframe] is Streamlit's: the exception it raises for the rows it
    cannot show, if any (the conversion to Arrow rejects an integer that
    does not fit 64 bits). *)
Variable dataframe : list (list (string * value)) -> option exn.

(** The empty list gets a notice and no table; otherwise the table is
    drawn first, then the metrics in order: a failure of [st.dataframe] or
    of the division ends the function. *)
Definition display_students_table (students : list Student)
  : result (option table) :=
  match students with
  | [] => Ok None
  | _ :: _ =>
      let student_data := map table_row students in
      match dataframe student_data with
      | Some e => Raise e
      | None =>
          let total := List.length students in
          let excellent :=
            List.length
              (filter (fun s => pystr_eqb (performance s) (lit "Excellent"))
                      students) in
          if true_divide_overflows (age_sum students) total
          then Raise OverflowError
          else Ok (Some (mkTable student_data total excellent (age_sum students)
                                 (distinct_count (map grade students))))
      end
  end.

End Table.

(** A [st.dataframe] that shows the integers of 64 bits and no other. *)
Definition fits_64_bits (cell : string * value) : bool :=
  match snd cell with
  | VInt n => Z.leb (- 2 ^ 63) n && Z.ltb n (2 ^ 63)
  | _ => true
  end.

Definition dataframe_64_bits (student_data : list (list (string * value)))
  : option exn :=
  if forallb (forallb fits_64_bits) student_data then None
  else Some OverflowError.

(** ** The raw inputs a grade may have *)

Module Accepted.

Local Open Scope N_scope.

Definition dotless_i : cp := 305.
Definition long_s : cp := 383.

(** A letter whose upper-case form is an ASCII letter: an ASCII letter of
    either case, the dotless i or the long s. *)
Definition grade_letter (c : cp) : bool :=
  Shape.is_upper c || Shape.is_lower c || (c =? dotless_i) || (c =? long_s).

Definition grade_input (g : pystr) : Prop :=
  exists d ds l tail,
    g = d :: ds ++ [l] ++ tail /\
    Shape.is_nonzero_digit d = true /\
    (ds = [] \/ exists e, ds = [e] /\ Shape.is_digit e = true) /\
    grade_letter l = true /\
    Shape.line_end tail.

(** The code points the grade pattern can read are their own upper-case
    form, or the upper-case form of a grade letter. *)
Definition upper_image (c : cp) : bool :=
  (negb (Shape.is_digit c || (c =? Shape.newline) || Shape.is_upper c) ||
   pystr_eqb (Unicode.to_upper_full c) [c]) &&
  (negb (grade_letter c) ||
   match Unicode.to_upper_full c with
   | [x] => Shape.is_upper x
   | _ => false
   end).

(** An upper-case form that is ASCII with at most one letter is a single
    code point, and tells where it comes from. *)
Definition upper_source (c : cp) : bool :=
  let block := Unicode.to_upper_full c in
  negb (forallb Unicode.is_ascii block &&
        Nat.leb (CaseCheck.letters block) 1) ||
  match block with
  | [x] =>
      (negb (Shape.is_digit x || (x =? Shape.newline)) || (c =? x)) &&
      (negb (Shape.is_upper x) || grade_letter c)
  | _ => false
  end.

End Accepted.

(** ** Texts without white space at an end *)

Definition starts_clean (s : pystr) : Prop :=
  match s with
  | [] => True
  | c :: _ => Unicode.isspace c = false
  end.

Definition ends_clean (s : pystr) : Prop := starts_clean (rev s).

(** A code point of a stored address: ASCII and not white space. *)
Definition plain (c : cp) : Prop :=
  Unicode.is_ascii c = true /\ Unicode.isspace c = false.

(** The four fields of a form are valid. *)
Definition all_valid (f : Form) : Prop :=
  Str.strip (f_name f) <> [] /\
  (5 <= f_age f <= 100)%Z /\
  Re.matches email_pattern (f_email f) /\
  Re.matches grade_pattern (Str.upper (f_grade f)).

(** The record the add path makes of a form (lines 80-87). *)
Definition student_of_form (sid : pystr) (f : Form) : Student :=
  mkStudent sid (Str.strip (f_name f)) (f_age f) (Str.upper (f_grade f))
            (Str.strip (f_email f)) (f_performance f).

(** The keyword arguments the update path makes of a form (lines 148-154). *)
Definition update_data_of_form (f : Form) : list (string * value) :=
  [("name"%string, VStr (Str.strip (f_name f)));
   ("age"%string, VInt (f_age f));
   ("grade"%string, VStr (Str.upper (f_grade f)));
   ("email"%string, VStr (Str.strip (f_email f)));
   ("performance"%string, VStr (f_performance f))].

(** The separator between the id and the name in a label. *)
Definition separator : pystr := lit ": ".

(** Two records with different ids and the same label. *)
Definition shadowed : Student :=
  mkStudent (lit "a") (lit ": b") 20 (lit "10A") (lit "x@example.com") (lit "Good").

Definition shadowing : Student :=
  mkStudent (lit "a: ") (lit "b") 21 (lit "11B") (lit "y@example.com") (lit "Good").

(** The same two records in the other order. *)
Definition bob_first : list Student := [bob; alice].

(** * Properties *)

(** ** Booleans over code points *)

Ltac bool_to_prop :=
  repeat rewrite ?Bool.orb_true_iff, ?Bool.andb_true_iff, ?Bool.orb_false_iff,
    ?Bool.andb_false_iff, ?Bool.negb_true_iff, ?Bool.negb_false_iff,
    ?N.leb_le, ?N.leb_gt, ?N.ltb_lt, ?N.ltb_ge, ?N.eqb_eq, ?N.eqb_neq in *.

Lemma pystr_eqb_eq (a b : pystr) : pystr_eqb a b = true <-> a = b.
Proof.
  revert b; induction a as [|x a IH]; intros [|y b]; simpl; split; intros H;
    try reflexivity; try discriminate.
  - apply Bool.andb_true_iff in H as [Hx Hab].
    apply N.eqb_eq in Hx. apply IH in Hab. now subst.
  - injection H as -> ->. rewrite N.eqb_refl. simpl. now apply IH.
Qed.

Lemma pystr_eqb_refl (a : pystr) : pystr_eqb a a = true.
Proof. now apply pystr_eqb_eq. Qed.

Lemma truthy_false_iff (s : pystr) : Str.truthy s = false <-> s = [].
Proof. destruct s; simpl; split; intros H; congruence. Qed.

(** ** The matcher finds a match exactly when there is one *)

Module ReFacts.
Import Re.

Lemma is_not_None_iff {A : Type} (o : option A) :
  is_not_None o = true <-> o <> None.
Proof. destruct o; simpl; split; intros H; congruence. Qed.

Lemma within_pred hi n :
  may_take hi = true -> within (pred_hi hi) n -> within hi (S n).
Proof. destruct hi as [[|h]|]; simpl; intros; try discriminate; lia. Qed.

Lemma within_succ hi n :
  within hi (S n) -> may_take hi = true /\ within (pred_hi hi) n.
Proof. destruct hi as [[|h]|]; simpl; intros; split; auto; lia. Qed.

Section Repeat.

Variable cs : charset.
Variable k : bool -> pystr -> option nat.
Variable K : bool -> pystr -> Prop.
Hypothesis k_spec : forall bos s, k bos s <> None <-> K bos s.


Lemma taken_nil lo hi bos s :
  lo = 0 -> K bos s -> taken cs K lo hi bos s.
Proof.
  intros -> HK. exists [], s. simpl. rewrite Bool.andb_true_r.
  repeat split; auto. destruct hi; simpl; lia.
Qed.

Lemma taken_cons lo hi bos c s :
  may_take hi = true -> mem cs c = true ->
  taken cs K (Nat.pred lo) (pred_hi hi) false s -> taken cs K lo hi bos (c :: s).
Proof.
  intros Hhi Hc (u & s' & -> & Hu & Hlo & Hwithin & HK).
  exists (c :: u), s'. simpl. rewrite Bool.andb_false_r.
  repeat split; auto.
  - lia.
  - now apply within_pred.
Qed.

Lemma taken_inv lo hi bos s :
  taken cs K lo hi bos s ->
  (lo = 0 /\ K bos s) \/
  (exists c s', s = c :: s' /\ may_take hi = true /\ mem cs c = true /\
                taken cs K (Nat.pred lo) (pred_hi hi) false s').
Proof.
  intros ([|c u] & s' & -> & Hu & Hlo & Hwithin & HK); simpl in *.
  - left. rewrite Bool.andb_true_r in HK. split; [lia | assumption].
  - right. rewrite Bool.andb_false_r in HK.
    apply within_succ in Hwithin as [Hhi Hwithin].
    inversion Hu; subst.
    exists c, (u ++ s'). repeat split; auto.
    exists u, s'. repeat split; auto. lia.
Qed.

Lemma match_repeat_spec s :
  forall lo hi bos,
    match_repeat cs k lo hi bos s <> None <-> taken cs K lo hi bos s.
Proof.
  induction s as [|c s IH]; intros lo hi bos; simpl.
  - split.
    + destruct (Nat.eqb_spec lo 0) as [->|Hlo]; [|congruence].
      intros Hk. apply taken_nil; [reflexivity | now apply k_spec].
    + intros H. apply taken_inv in H as [[-> HK] | (c & s' & Hs & _)].
      * simpl. now apply k_spec.
      * discriminate.
  - destruct (may_take hi && mem cs c) eqn:Htake.
    + apply Bool.andb_true_iff in Htake as [Hhi Hc].
      destruct (match_repeat cs k (Nat.pred lo) (pred_hi hi) false s) eqn:Hrec.
      * split; [intros _ | congruence].
        apply taken_cons; auto. apply IH. congruence.
      * split.
        -- destruct (Nat.eqb_spec lo 0) as [->|Hlo]; [|congruence].
           intros Hk. apply taken_nil; [reflexivity | now apply k_spec].
        -- intros H. apply taken_inv in H as [[-> HK] | (c' & s' & Hs & _ & _ & H)].
           ++ simpl. now apply k_spec.
           ++ injection Hs as <- <-. apply IH in H. congruence.
    + split.
      * destruct (Nat.eqb_spec lo 0) as [->|Hlo]; [|congruence].
        intros Hk. apply taken_nil; [reflexivity | now apply k_spec].
      * intros H. apply taken_inv in H as [[-> HK] | (c' & s' & Hs & Hhi & Hc & _)].
        -- simpl. now apply k_spec.
        -- injection Hs as <- <-. rewrite Hhi, Hc in Htake. discriminate.
Qed.

End Repeat.

Lemma match_here_spec (r : regex) :
  forall bos s, match_here r bos s <> None <-> has_match r bos s.
Proof.
  induction r as [|n r IH]; intros bos s.
  - simpl. split; [intros _ | congruence].
    exists [], s. split; [reflexivity | constructor].
  - destruct n as [| | cs lo hi]; simpl.
    + destruct bos.
      * rewrite IH. split.
        -- intros (w & rest & -> & H). exists w, rest. split; auto. now constructor.
        -- intros (w & rest & -> & H). inversion H; subst. now exists w, rest.
      * split; [congruence|]. intros (w & rest & _ & H). inversion H.
    + destruct (at_end s) eqn:Hend.
      * rewrite IH. split.
        -- intros (w & rest & -> & H). exists w, rest. split; auto. now constructor.
        -- intros (w & rest & -> & H). inversion H; subst. now exists w, rest.
      * split; [congruence|]. intros (w & rest & -> & H).
        inversion H; subst. congruence.
    + rewrite (match_repeat_spec cs (match_here r) (has_match r) IH). unfold taken.
      split.
      * intros (u & s' & -> & Hu & Hlo & Hhi & (w & rest & -> & H)).
        exists (u ++ w), rest. rewrite app_assoc. split; auto. now constructor.
      * intros (w & rest & -> & H). inversion H; subst.
        exists u, (w0 ++ rest). rewrite app_assoc. repeat split; auto.
        now exists w0, rest.
Qed.

(** [re.match(pattern, s) is not None] for a pattern of the fragment. *)
Lemma match_is_not_None (pattern : string) (r : regex) (s : pystr) :
  compile pattern = Some r ->
  exists m, match_ pattern s = Ok m /\
            (is_not_None m = true <-> matches pattern s).
Proof.
  intros Hc. unfold match_, matches. rewrite Hc.
  exists (match_here r true s). split; [reflexivity|].
  rewrite is_not_None_iff, match_here_spec. split.
  - intros (w & rest & Hs & H). now exists r, w, rest.
  - intros (r' & w & rest & Hr & Hs & H). injection Hr as <-. now exists w, rest.
Qed.

End ReFacts.

(** ** The two patterns of the source *)

Module Patterns.
Import Re.

Local Open Scope N_scope.

Lemma Matches_end_inv bos w rest : Matches [] bos w rest -> w = [].
Proof. intros H. now inversion H. Qed.

Lemma Matches_beginning_inv r bos w rest :
  Matches (At_beginning :: r) bos w rest -> bos = true /\ Matches r true w rest.
Proof. intros H. inversion H; subst. now split. Qed.

Lemma Matches_at_end_inv r bos w rest :
  Matches (At_end :: r) bos w rest ->
  at_end (w ++ rest) = true /\ Matches r bos w rest.
Proof. intros H. inversion H; subst. now split. Qed.

Lemma Matches_repeat_inv cs lo hi r bos w rest :
  Matches (Repeat cs lo hi :: r) bos w rest ->
  exists u w',
    w = u ++ w' /\ Forall (fun c => mem cs c = true) u /\
    (lo <= List.length u)%nat /\ within hi (List.length u) /\
    Matches r (bos && negb (Str.truthy u)) w' rest.
Proof. intros H. inversion H; subst. now exists u, w0. Qed.

Lemma at_end_iff (s : pystr) : at_end s = true <-> Shape.line_end s.
Proof.
  unfold Shape.line_end, Shape.newline.
  destruct s as [|c [|d s]]; simpl; split; intros H; auto.
  - right. apply N.eqb_eq in H. now subst.
  - destruct H as [H|H]; [discriminate|]. injection H as ->. reflexivity.
  - discriminate.
  - destruct H as [H|H]; discriminate.
Qed.

(** One code point of a one-element set. *)
Lemma one_of cs (u : pystr) :
  Forall (fun c => mem cs c = true) u ->
  (1 <= List.length u)%nat -> within (Some 1%nat) (List.length u) ->
  exists c, u = [c] /\ mem cs c = true.
Proof.
  intros Hu Hlo Hhi. destruct u as [|c [|d u]]; simpl in *; try lia.
  exists c. split; auto. now inversion Hu.
Qed.

Lemma at_most_one_of cs (u : pystr) :
  Forall (fun c => mem cs c = true) u -> within (Some 1%nat) (List.length u) ->
  u = [] \/ exists c, u = [c] /\ mem cs c = true.
Proof.
  intros Hu Hhi. destruct u as [|c [|d u]]; simpl in *; try lia; auto.
  right. exists c. split; auto. now inversion Hu.
Qed.

Lemma compile_email_pattern : compile email_pattern = Some email_regex.
Proof. vm_compute. reflexivity. Qed.

Lemma compile_grade_pattern : compile grade_pattern = Some grade_regex.
Proof. vm_compute. reflexivity. Qed.

Ltac set_member :=
  intros c; unfold mem, in_ranges, Shape.local_char, Shape.domain_char,
    Shape.is_letter, Shape.is_lower, Shape.is_upper, Shape.is_digit,
    Shape.is_nonzero_digit; cbn;
  apply Bool.eq_true_iff_eq; bool_to_prop; lia.

Lemma mem_local :
  forall c, mem [(97, 122); (65, 90); (48, 57); (46, 46); (95, 95); (37, 37);
                 (43, 43); (45, 45)] c = Shape.local_char c.
Proof. set_member. Qed.

Lemma mem_domain :
  forall c, mem [(97, 122); (65, 90); (48, 57); (46, 46); (45, 45)] c
            = Shape.domain_char c.
Proof. set_member. Qed.

Lemma mem_letter : forall c, mem [(97, 122); (65, 90)] c = Shape.is_letter c.
Proof. set_member. Qed.

Lemma mem_nonzero_digit : forall c, mem [(49, 57)] c = Shape.is_nonzero_digit c.
Proof. set_member. Qed.

Lemma mem_digit : forall c, mem [(48, 57)] c = Shape.is_digit c.
Proof. set_member. Qed.

Lemma mem_upper : forall c, mem [(65, 90)] c = Shape.is_upper c.
Proof. set_member. Qed.

Lemma mem_single (x c : cp) : mem [(x, x)] c = true <-> c = x.
Proof. unfold mem, in_ranges. cbn. bool_to_prop. lia. Qed.

Lemma Forall_mem (cs : charset) (p : cp -> bool) (u : pystr) :
  (forall c, mem cs c = p c) ->
  Forall (fun c => mem cs c = true) u <-> Shape.all p u.
Proof.
  intros H. unfold Shape.all. rewrite !Forall_forall.
  split; intros Hu c Hc; specialize (Hu c Hc); now rewrite H in *.
Qed.

Lemma nonempty_length (u : pystr) : (1 <= List.length u)%nat <-> u <> [].
Proof. destruct u; simpl; split; intros; try congruence; lia. Qed.

Lemma matches_email_iff (s : pystr) :
  matches email_pattern s <-> Shape.email_line s.
Proof.
  unfold matches. rewrite compile_email_pattern. split.
  - intros (r & w & rest & Hr & -> & H). injection Hr as <-.
    unfold email_regex in H.
    apply Matches_beginning_inv in H as [_ H].
    apply Matches_repeat_inv in H as (local & w1 & -> & Hlocal & Hlo1 & _ & H).
    apply Matches_repeat_inv in H as (u2 & w2 & -> & Hu2 & Hlo2 & Hhi2 & H).
    apply Matches_repeat_inv in H as (domain & w3 & -> & Hdomain & Hlo3 & _ & H).
    apply Matches_repeat_inv in H as (u4 & w4 & -> & Hu4 & Hlo4 & Hhi4 & H).
    apply Matches_repeat_inv in H as (tld & w5 & -> & Htld & Hlo5 & _ & H).
    apply Matches_at_end_inv in H as [Hend H].
    apply Matches_end_inv in H. subst w5. simpl in Hend.
    destruct (one_of _ _ Hu2 Hlo2 Hhi2) as (c2 & -> & Hc2).
    destruct (one_of _ _ Hu4 Hlo4 Hhi4) as (c4 & -> & Hc4).
    apply mem_single in Hc2, Hc4. subst c2 c4.
    exists (local ++ lit "@" ++ domain ++ lit "." ++ tld), rest.
    split; [|split].
    + rewrite app_nil_r. now rewrite <- !app_assoc.
    + exists local, domain, tld. repeat split; auto.
      * now apply nonempty_length.
      * now apply (Forall_mem _ _ _ mem_local).
      * now apply nonempty_length.
      * now apply (Forall_mem _ _ _ mem_domain).
      * now apply (Forall_mem _ _ _ mem_letter).
    + now apply at_end_iff.
  - intros (e & tail & -> & (local & domain & tld & -> & Hl & Hlocal & Hd & Hdomain
                             & Htld2 & Htld) & Htail).
    exists email_regex, (local ++ lit "@" ++ domain ++ lit "." ++ tld), tail.
    repeat split.
    unfold email_regex. constructor.
    apply M_repeat.
    { now apply (Forall_mem _ _ _ mem_local). }
    { now apply nonempty_length. }
    { exact I. }
    apply M_repeat.
    { repeat constructor. }
    { simpl; lia. }
    { simpl; lia. }
    apply M_repeat.
    { now apply (Forall_mem _ _ _ mem_domain). }
    { now apply nonempty_length. }
    { exact I. }
    apply M_repeat.
    { repeat constructor. }
    { simpl; lia. }
    { simpl; lia. }
    rewrite <- (app_nil_r tld).
    apply M_repeat.
    { now apply (Forall_mem _ _ _ mem_letter). }
    { assumption. }
    { exact I. }
    constructor.
    + simpl. now apply at_end_iff.
    + constructor.
Qed.

Lemma matches_grade_iff (s : pystr) :
  matches grade_pattern s <-> Shape.grade_line s.
Proof.
  unfold matches. rewrite compile_grade_pattern. split.
  - intros (r & w & rest & Hr & -> & H). injection Hr as <-.
    unfold grade_regex in H.
    apply Matches_beginning_inv in H as [_ H].
    apply Matches_repeat_inv in H as (u1 & w1 & -> & Hu1 & Hlo1 & Hhi1 & H).
    apply Matches_repeat_inv in H as (u2 & w2 & -> & Hu2 & _ & Hhi2 & H).
    apply Matches_repeat_inv in H as (u3 & w3 & -> & Hu3 & Hlo3 & Hhi3 & H).
    apply Matches_at_end_inv in H as [Hend H].
    apply Matches_end_inv in H. subst w3. simpl in Hend.
    destruct (one_of _ _ Hu1 Hlo1 Hhi1) as (d & -> & Hd).
    destruct (one_of _ _ Hu3 Hlo3 Hhi3) as (l & -> & Hl).
    rewrite mem_nonzero_digit in Hd. rewrite mem_upper in Hl.
    exists (d :: u2 ++ [l]), rest. split; [|split].
    + reflexivity.
    + exists d, u2, l. repeat split; auto.
      destruct (at_most_one_of _ _ Hu2 Hhi2) as [->|(e & -> & He)]; [now left|].
      right. exists e. split; auto. now rewrite <- mem_digit.
    + now apply at_end_iff.
  - intros (g & tail & -> & (d & ds & l & -> & Hd & Hds & Hl) & Htail).
    exists grade_regex, (d :: ds ++ [l]), tail. repeat split.
    unfold grade_regex. constructor.
    change (d :: ds ++ [l]) with ([d] ++ ds ++ [l] ++ []).
    apply M_repeat.
    { constructor; [now rewrite mem_nonzero_digit | constructor]. }
    { simpl; lia. }
    { simpl; lia. }
    apply M_repeat.
    { destruct Hds as [->|(e & -> & He)]; [constructor|].
      constructor; [now rewrite mem_digit | constructor]. }
    { lia. }
    { destruct Hds as [->|(e & -> & He)]; simpl; lia. }
    apply M_repeat.
    { constructor; [now rewrite mem_upper | constructor]. }
    { simpl; lia. }
    { simpl; lia. }
    constructor.
    + simpl. now apply at_end_iff.
    + constructor.
Qed.

End Patterns.

(** ** The validators *)

Lemma validate_email_result (s : pystr) :
  exists b, validate_email (VStr s) = Ok b /\
            (b = true <-> Re.matches email_pattern s).
Proof.
  destruct (ReFacts.match_is_not_None email_pattern _ s
              Patterns.compile_email_pattern) as (m & Hm & Hiff).
  exists (Re.is_not_None m). unfold validate_email. rewrite Hm. simpl.
  split; [reflexivity | exact Hiff].
Qed.

Lemma validate_grade_result (s : pystr) :
  exists b, validate_grade (VStr s) = Ok b /\
            (b = true <-> Re.matches grade_pattern (Str.upper s)).
Proof.
  destruct (ReFacts.match_is_not_None grade_pattern _ (Str.upper s)
              Patterns.compile_grade_pattern) as (m & Hm & Hiff).
  exists (Re.is_not_None m). unfold validate_grade. rewrite Hm. simpl.
  split; [reflexivity | exact Hiff].
Qed.

Lemma validate_age_unfold (a : value) :
  validate_age a =
  match int_ a with
  | Ok n => Ok (Z.leb 5 n && Z.leb n 100)
  | Raise ValueError => Ok false
  | Raise e => Raise e
  end.
Proof.
  unfold validate_age, try_except, bind.
  destruct (int_ a) as [n|[]]; reflexivity.
Qed.

Lemma validate_age_cases (a : value) :
  match int_ a with
  | Ok n => validate_age a = Ok (Z.leb 5 n && Z.leb n 100)
  | Raise e =>
      (e = ValueError /\ validate_age a = Ok false) \/
      (e <> ValueError /\ validate_age a = Raise e)
  end.
Proof.
  rewrite validate_age_unfold.
  destruct (int_ a) as [n|[]]; try reflexivity;
    try (right; split; [discriminate | reflexivity]).
  left. now split.
Qed.

Lemma in_range_iff (n : Z) :
  Z.leb 5 n && Z.leb n 100 = true <-> (5 <= n <= 100)%Z.
Proof. rewrite Bool.andb_true_iff, !Z.leb_le. tauto. Qed.

Lemma int_str_result (s : pystr) :
  (exists n, int_ (VStr s) = Ok n) \/ int_ (VStr s) = Raise ValueError.
Proof.
  simpl. unfold Int.of_str. destruct (Int.parse_signed (Int.to_ascii s)).
  - left. now exists z.
  - now right.
Qed.

Lemma result_bool_cases (r : result bool) (P : Prop) :
  (exists b, r = Ok b /\ (b = true <-> P)) ->
  (r = Ok true <-> P) /\ (r = Ok false <-> ~ P).
Proof.
  intros (b & -> & Hb). destruct b.
  - split; split; intros H.
    + now apply Hb.
    + reflexivity.
    + discriminate.
    + exfalso. apply H. now apply Hb.
  - split; split; intros H.
    + discriminate.
    + apply Hb in H. discriminate.
    + intros HP. apply Hb in HP. discriminate.
    + reflexivity.
Qed.

(** ** Stripping a well-formed address *)

Module StripFacts.

Lemma local_char_not_space (c : cp) :
  Shape.local_char c = true -> Unicode.isspace c = false.
Proof.
  unfold Shape.local_char, Shape.is_letter, Shape.is_lower, Shape.is_upper,
    Shape.is_digit, Unicode.isspace, in_ranges, Unicode.whitespace_ranges.
  cbn. intros H. apply Bool.not_true_is_false. intros H'.
  bool_to_prop. lia.
Qed.

Lemma letter_not_space (c : cp) :
  Shape.is_letter c = true -> Unicode.isspace c = false.
Proof.
  unfold Shape.is_letter, Shape.is_lower, Shape.is_upper,
    Unicode.isspace, in_ranges, Unicode.whitespace_ranges.
  cbn. intros H. apply Bool.not_true_is_false. intros H'.
  bool_to_prop. lia.
Qed.

Lemma newline_is_space : Unicode.isspace Shape.newline = true.
Proof. reflexivity. Qed.

Lemma lstrip_head (c : cp) (s : pystr) :
  Unicode.isspace c = false -> Str.lstrip (c :: s) = c :: s.
Proof. intros H. simpl. now rewrite H. Qed.

Lemma rstrip_last (s : pystr) (c : cp) :
  Unicode.isspace c = false -> Str.rstrip (s ++ [c]) = s ++ [c].
Proof.
  intros H. unfold Str.rstrip. rewrite rev_app_distr. simpl. rewrite H.
  simpl. now rewrite rev_involutive.
Qed.

Lemma rstrip_space (s : pystr) (c : cp) :
  Unicode.isspace c = true -> Str.rstrip (s ++ [c]) = Str.rstrip s.
Proof.
  intros H. unfold Str.rstrip. rewrite rev_app_distr. simpl. now rewrite H.
Qed.

Lemma strip_between (c0 cl : cp) (front back tail : pystr) :
  c0 :: back = front ++ [cl] ->
  Unicode.isspace c0 = false -> Unicode.isspace cl = false ->
  Shape.line_end tail ->
  Str.strip ((c0 :: back) ++ tail) = c0 :: back.
Proof.
  intros He H0 Hl Ht. unfold Str.strip.
  change ((c0 :: back) ++ tail) with (c0 :: (back ++ tail)).
  rewrite (lstrip_head _ _ H0).
  change (c0 :: (back ++ tail)) with ((c0 :: back) ++ tail). rewrite He.
  destruct Ht as [-> | ->].
  - rewrite app_nil_r. now apply rstrip_last.
  - rewrite (rstrip_space _ _ newline_is_space). now apply rstrip_last.
Qed.

Lemma email_ends (e : pystr) :
  Shape.email e ->
  exists c0 cl front back,
    e = c0 :: back /\ e = front ++ [cl] /\
    Unicode.isspace c0 = false /\ Unicode.isspace cl = false.
Proof.
  intros (local & domain & tld & -> & Hl & Hlocal & _ & _ & Htld2 & Htld).
  destruct local as [|c0 local']; [congruence|].
  assert (tld <> []) as Hne by (destruct tld; simpl in *; [lia | congruence]).
  destruct (exists_last Hne) as (tld' & cl & ->).
  exists c0, cl, (c0 :: local' ++ lit "@" ++ domain ++ lit "." ++ tld'),
    (local' ++ lit "@" ++ domain ++ lit "." ++ tld' ++ [cl]).
  split; [reflexivity|]. split.
  - simpl. f_equal. repeat (rewrite <- app_assoc; simpl). reflexivity.
  - split.
    + apply local_char_not_space. now inversion Hlocal.
    + apply letter_not_space.
      apply Forall_app in Htld as [_ Hcl]. now inversion Hcl.
Qed.

(** Stripping an accepted address leaves the address without the newline. *)
Lemma strip_email_line (s : pystr) :
  Shape.email_line s -> Shape.email (Str.strip s).
Proof.
  intros (e & tail & -> & He & Ht).
  destruct (email_ends e He) as (c0 & cl & front & back & E0 & El & H0 & Hl).
  assert (Str.strip (e ++ tail) = e) as ->; [|assumption].
  rewrite E0. apply (strip_between c0 cl front back tail); auto.
  now rewrite <- E0.
Qed.

End StripFacts.

(** ** The validation block *)

Module FormFacts.

Ltac messages_cases :=
  intros [] [] [] []; cbv; split; intros H; try reflexivity; try discriminate;
  repeat match goal with
         | H : _ \/ _ |- _ => destruct H as [H | H]
         | H : False |- _ => destruct H
         | H : _ = _ |- _ => discriminate H
         end; auto 6.

Lemma name_message_in : forall n a e g,
  In name_message (messages n a e g) <-> n = false.
Proof. messages_cases. Qed.

Lemma age_message_in : forall n a e g,
  In age_message (messages n a e g) <-> a = false.
Proof. messages_cases. Qed.

Lemma email_message_in : forall n a e g,
  In email_message (messages n a e g) <-> e = false.
Proof. messages_cases. Qed.

Lemma grade_message_in : forall n a e g,
  In grade_message (messages n a e g) <-> g = false.
Proof. messages_cases. Qed.

Lemma messages_NoDup : forall n a e g, NoDup (messages n a e g).
Proof.
  intros [] [] [] []; cbv;
    repeat (constructor; [simpl; intuition discriminate|]); constructor.
Qed.

Lemma messages_incl : forall n a e g,
  incl (messages n a e g) [name_message; age_message; email_message; grade_message].
Proof.
  intros [] [] [] [] x; cbv; intros H;
    repeat (destruct H as [H | H]; [subst x; auto 6 |]); destruct H.
Qed.

Lemma messages_nil : forall n a e g,
  messages n a e g = [] <-> n = true /\ a = true /\ e = true /\ g = true.
Proof.
  intros [] [] [] []; cbv; split; intros H; try discriminate; auto;
    destruct H as (? & ? & ? & ?); discriminate.
Qed.

Lemma messages_length : forall n a e g,
  List.length (messages n a e g) = List.length (filter negb [n; a; e; g]).
Proof. intros [] [] [] []; reflexivity. Qed.

Lemma truthy_true_iff (s : pystr) : Str.truthy s = true <-> s <> [].
Proof. destruct s; simpl; split; intros H; congruence. Qed.

Lemma validate_age_int (n : Z) :
  validate_age (VInt n) = Ok (Z.leb 5 n && Z.leb n 100).
Proof. reflexivity. Qed.

Lemma validations (f : Form) :
  exists email_ok grade_ok,
    validate_email (VStr (f_email f)) = Ok email_ok /\
    (email_ok = true <-> Re.matches email_pattern (f_email f)) /\
    validate_grade (VStr (f_grade f)) = Ok grade_ok /\
    (grade_ok = true <-> Re.matches grade_pattern (Str.upper (f_grade f))) /\
    let errors :=
      messages (Str.truthy (Str.strip (f_name f)))
               (Z.leb 5 (f_age f) && Z.leb (f_age f) 100) email_ok grade_ok in
    add_validation f = Ok errors /\ update_validation f = Ok errors.
Proof.
  destruct (validate_email_result (f_email f)) as (be & He & Hbe).
  destruct (validate_grade_result (f_grade f)) as (bg & Hg & Hbg).
  exists be, bg. repeat split; try tauto.
  - unfold add_validation. rewrite validate_age_int, He, Hg. reflexivity.
  - unfold update_validation. rewrite validate_age_int, He, Hg. reflexivity.
Qed.

End FormFacts.

(** ** Case mapping and the grade pattern *)

Module CaseFacts.

Local Open Scope N_scope.

Lemma assoc_None {B : Type} (c : N) (t : list (N * B)) :
  ~ In c (map fst t) -> assoc c t = None.
Proof.
  induction t as [|[k v] t IH]; simpl; intros H; [reflexivity|].
  destruct (N.eqb_spec k c) as [->|Hne].
  - exfalso. apply H. now left.
  - apply IH. intros Hin. apply H. now right.
Qed.

Lemma off_keys (c : cp) :
  ~ In c Unicode.case_keys ->
  Unicode.to_upper_full c = [c] /\ Unicode.to_lower_full c = [c] /\
  c <> Unicode.capital_sigma.
Proof.
  unfold Unicode.case_keys. rewrite !in_app_iff. intros H.
  unfold Unicode.to_upper_full, Unicode.to_lower_full.
  rewrite !assoc_None by tauto.
  repeat split. intros ->. apply H. do 4 right. now left.
Qed.

Lemma by_keys (P : cp -> bool) :
  forallb P Unicode.case_keys = true ->
  (forall c, ~ In c Unicode.case_keys -> P c = true) ->
  forall c, P c = true.
Proof.
  intros Hkeys Hoff c.
  destruct (in_dec N.eq_dec c Unicode.case_keys) as [Hin|Hout].
  - rewrite forallb_forall in Hkeys. now apply Hkeys.
  - now apply Hoff.
Qed.

Lemma upper_single (c : cp) : Str.upper [c] = Unicode.to_upper_full c.
Proof. unfold Str.upper. cbn [flat_map]. apply app_nil_r. Qed.

Lemma upper_app (a b : pystr) : Str.upper (a ++ b) = Str.upper a ++ Str.upper b.
Proof. apply flat_map_app. Qed.

Lemma upper_cons (c : cp) (s : pystr) :
  Str.upper (c :: s) = Unicode.to_upper_full c ++ Str.upper s.
Proof. reflexivity. Qed.

Lemma upper_stable_all : forall c, CaseCheck.upper_stable c = true.
Proof.
  apply by_keys.
  - vm_compute. reflexivity.
  - intros c Hc. destruct (off_keys c Hc) as (Hup & _ & _).
    unfold CaseCheck.upper_stable. rewrite Hup, upper_single, Hup.
    apply pystr_eqb_refl.
Qed.

Lemma lower_stable_all : forall c, CaseCheck.lower_stable c = true.
Proof.
  apply by_keys.
  - vm_compute. reflexivity.
  - intros c Hc. destruct (off_keys c Hc) as (Hup & Hlo & Hsigma).
    unfold CaseCheck.lower_stable, Str.lower_choices.
    apply N.eqb_neq in Hsigma. rewrite Hsigma, Hlo, Hup.
    cbn [forallb]. rewrite upper_single, Hup, pystr_eqb_refl.
    now rewrite !Bool.orb_true_r.
Qed.

(** [s.upper().upper() = s.upper()] *)
Lemma upper_upper (s : pystr) : Str.upper (Str.upper s) = Str.upper s.
Proof.
  induction s as [|c s IH]; [reflexivity|].
  rewrite upper_cons, upper_app, IH. f_equal.
  apply pystr_eqb_eq. apply upper_stable_all.
Qed.

Lemma lower_at_choice (before : pystr) (c : cp) (after : pystr) :
  In (Str.lower_at before c after) (Str.lower_choices c).
Proof.
  unfold Str.lower_at, Str.lower_choices.
  destruct (N.eqb c Unicode.capital_sigma).
  - destruct (Str.final_sigma before after); simpl; auto.
  - now left.
Qed.

Lemma block_of_ascii_upper (before : pystr) (c : cp) (after : pystr) :
  forallb Unicode.is_ascii (Unicode.to_upper_full c) = true ->
  Str.upper (Str.lower_at before c after) = Unicode.to_upper_full c.
Proof.
  intros Hascii. pose proof (lower_stable_all c) as H.
  unfold CaseCheck.lower_stable in H. rewrite forallb_forall in H.
  specialize (H _ (lower_at_choice before c after)). cbv zeta in H.
  apply Bool.andb_true_iff in H as [H _].
  rewrite Hascii in H. simpl in H. now apply pystr_eqb_eq.
Qed.

Lemma block_of_ascii_lower (before : pystr) (c : cp) (after : pystr) :
  c <> Unicode.kelvin_sign ->
  forallb Unicode.is_ascii (Str.upper (Str.lower_at before c after)) = true ->
  (CaseCheck.letters (Str.upper (Str.lower_at before c after)) <= 1)%nat ->
  Str.upper (Str.lower_at before c after) = Unicode.to_upper_full c.
Proof.
  intros Hk Hascii Hletters. pose proof (lower_stable_all c) as H.
  unfold CaseCheck.lower_stable in H. rewrite forallb_forall in H.
  specialize (H _ (lower_at_choice before c after)). cbv zeta in H.
  apply Bool.andb_true_iff in H as [_ H].
  apply N.eqb_neq in Hk. apply Nat.leb_le in Hletters.
  rewrite Hk, Hascii, Hletters in H. simpl in H. now apply pystr_eqb_eq.
Qed.

Lemma letters_app (a b : pystr) : CaseCheck.letters (a ++ b) = (CaseCheck.letters a + CaseCheck.letters b)%nat.
Proof. unfold CaseCheck.letters. now rewrite filter_app, length_app. Qed.

Lemma upper_lower_from_up (g : pystr) :
  forall before,
    forallb Unicode.is_ascii (Str.upper g) = true ->
    Str.upper (Str.lower_from before g) = Str.upper g.
Proof.
  induction g as [|c g IH]; intros before H; [reflexivity|].
  rewrite upper_cons in *. rewrite forallb_app in H.
  apply Bool.andb_true_iff in H as [Hc Hg].
  cbn [Str.lower_from]. rewrite upper_app, (IH _ Hg).
  f_equal. now apply block_of_ascii_upper.
Qed.

Lemma upper_lower_from_low (g : pystr) :
  forall before,
    ~ In Unicode.kelvin_sign g ->
    forallb Unicode.is_ascii (Str.upper (Str.lower_from before g)) = true ->
    (CaseCheck.letters (Str.upper (Str.lower_from before g)) <= 1)%nat ->
    Str.upper (Str.lower_from before g) = Str.upper g.
Proof.
  induction g as [|c g IH]; intros before Hk H Hl; [reflexivity|].
  cbn [Str.lower_from] in *. rewrite upper_app in *.
  rewrite forallb_app in H. apply Bool.andb_true_iff in H as [Hc Hg].
  rewrite letters_app in Hl.
  rewrite upper_cons. f_equal.
  - apply block_of_ascii_lower; auto; [|lia].
    intros ->. apply Hk. now left.
  - apply IH; auto; [|lia]. intros Hin. apply Hk. now right.
Qed.

Lemma nonzero_digit_facts (d : cp) :
  Shape.is_nonzero_digit d = true ->
  Unicode.is_ascii d = true /\ Shape.is_upper d = false.
Proof.
  unfold Shape.is_nonzero_digit, Unicode.is_ascii, Shape.is_upper. intros H.
  split; [|apply Bool.not_true_is_false; intros H']; bool_to_prop; lia.
Qed.

Lemma digit_facts (d : cp) :
  Shape.is_digit d = true ->
  Unicode.is_ascii d = true /\ Shape.is_upper d = false.
Proof.
  unfold Shape.is_digit, Unicode.is_ascii, Shape.is_upper. intros H.
  split; [|apply Bool.not_true_is_false; intros H']; bool_to_prop; lia.
Qed.

Lemma upper_letter_ascii (l : cp) :
  Shape.is_upper l = true -> Unicode.is_ascii l = true.
Proof. unfold Unicode.is_ascii, Shape.is_upper. intros H. bool_to_prop. lia. Qed.

Lemma grade_line_ascii (u : pystr) :
  Shape.grade_line u ->
  forallb Unicode.is_ascii u = true /\ (CaseCheck.letters u <= 1)%nat.
Proof.
  intros (g & tail & -> & (d & ds & l & -> & Hd & Hds & Hl) & Htail).
  destruct (nonzero_digit_facts d Hd) as [Hd1 Hd2].
  pose proof (upper_letter_ascii l Hl) as Hl1.
  unfold CaseCheck.letters.
  destruct Hds as [->|(e & -> & He)];
    [|destruct (digit_facts e He) as [He1 He2]];
    destruct Htail as [->| ->]; cbn [app forallb filter];
    rewrite ?Hd1, ?Hd2, ?He1, ?He2, ?Hl1, ?Hl; simpl; split; auto; lia.
Qed.

(** Lower-casing a text without Kelvin sign does not change whether its
    upper-case form is a grade. *)
Lemma grade_line_lower (g : pystr) :
  ~ In Unicode.kelvin_sign g ->
  Shape.grade_line (Str.upper (Str.lower g)) <-> Shape.grade_line (Str.upper g).
Proof.
  intros Hk. unfold Str.lower. split; intros H.
  - destruct (grade_line_ascii _ H) as [Hascii Hletters].
    now rewrite <- (upper_lower_from_low g [] Hk Hascii Hletters).
  - destruct (grade_line_ascii _ H) as [Hascii _].
    now rewrite (upper_lower_from_up g [] Hascii).
Qed.

Lemma result_bool_eq (r1 r2 : result bool) (P1 P2 : Prop) :
  (exists b, r1 = Ok b /\ (b = true <-> P1)) ->
  (exists b, r2 = Ok b /\ (b = true <-> P2)) ->
  (P1 <-> P2) -> r1 = r2.
Proof.
  intros (b1 & -> & H1) (b2 & -> & H2) H. f_equal.
  destruct b1, b2; try reflexivity.
  - symmetry. apply H2, H, H1. reflexivity.
  - apply H1, H, H2. reflexivity.
Qed.

End CaseFacts.


(** ** Facts used by several properties *)

Lemma email_line_of_email (e tail : pystr) :
  Shape.email e -> Shape.line_end tail -> Shape.email_line (e ++ tail).
Proof. intros He Ht. now exists e, tail. Qed.

Lemma validate_email_accepts (s : pystr) :
  Shape.email_line s -> validate_email (VStr s) = Ok true.
Proof.
  intros H. apply Patterns.matches_email_iff in H.
  now apply (result_bool_cases _ _ (validate_email_result s)).
Qed.

Lemma example_email_shape : Shape.email (lit "student@example.com").
Proof.
  exists (lit "student"), (lit "example"), (lit "com").
  split; [reflexivity|]. unfold Shape.all.
  repeat split; try discriminate; try (simpl; lia); repeat constructor.
Qed.

Lemma example_grade_shape : Shape.grade (lit "10A").
Proof.
  exists (ch "1"), [ch "0"], (ch "A"). repeat split.
  right. exists (ch "0"). now split.
Qed.

Module ManagerFacts.
Import StudentManager.

Lemma set_field_id (s : Student) (field : string * value) :
  student_id (set_field s field) = student_id s.
Proof.
  destruct field as [key v]. unfold set_field.
  repeat match goal with
         | |- context [String.eqb ?a ?b] => destruct (String.eqb a b)
         end; destruct v; reflexivity.
Qed.

Lemma set_fields_id (fields : list (string * value)) :
  forall s, student_id (set_fields s fields) = student_id s.
Proof.
  unfold set_fields. induction fields as [|field fields IH]; intros s; simpl.
  - reflexivity.
  - rewrite IH. apply set_field_id.
Qed.

Lemma update_record_ids (sid : pystr) (fields : list (string * value)) (m : t) :
  map student_id (update_record m sid fields) = map student_id m.
Proof.
  induction m as [|s m IH]; simpl; [reflexivity|].
  destruct (pystr_eqb (student_id s) sid); simpl.
  - now rewrite set_fields_id.
  - now rewrite IH.
Qed.

Lemma has_id_In (m : t) (sid : pystr) :
  has_id m sid = true <-> In sid (map student_id m).
Proof.
  unfold has_id. rewrite existsb_exists, in_map_iff. split.
  - intros (s & Hs & He). apply pystr_eqb_eq in He. now exists s.
  - intros (s & He & Hs). exists s. split; auto. now apply pystr_eqb_eq.
Qed.

End ManagerFacts.

(** * Further facts about the forms *)

(** ** Stripping *)

Module StripMore.

Lemma lstrip_starts_clean (s : pystr) : starts_clean (Str.lstrip s).
Proof.
  induction s as [|c s IH]; simpl; [exact I|].
  destruct (Unicode.isspace c) eqn:Hc; [exact IH | exact Hc].
Qed.

Lemma lstrip_of_clean (s : pystr) : starts_clean s -> Str.lstrip s = s.
Proof. destruct s as [|c s]; simpl; intros H; [reflexivity | now rewrite H]. Qed.

Lemma lstrip_suffix (s : pystr) : exists w, s = w ++ Str.lstrip s.
Proof.
  induction s as [|c s (w & IH)]; simpl.
  - now exists [].
  - destruct (Unicode.isspace c).
    + exists (c :: w). simpl. now f_equal.
    + now exists [].
Qed.

Lemma rstrip_ends_clean (s : pystr) : ends_clean (Str.rstrip s).
Proof.
  unfold ends_clean, Str.rstrip. rewrite rev_involutive.
  apply lstrip_starts_clean.
Qed.

Lemma rstrip_of_clean (s : pystr) : ends_clean s -> Str.rstrip s = s.
Proof.
  unfold ends_clean, Str.rstrip. intros H.
  rewrite (lstrip_of_clean _ H). apply rev_involutive.
Qed.

Lemma rstrip_prefix (s : pystr) : exists w, s = Str.rstrip s ++ w.
Proof.
  destruct (lstrip_suffix (rev s)) as (w & Hw). exists (rev w).
  unfold Str.rstrip. rewrite <- rev_app_distr, <- Hw. now rewrite rev_involutive.
Qed.

Lemma rstrip_starts_clean (s : pystr) :
  starts_clean s -> starts_clean (Str.rstrip s).
Proof.
  intros H. destruct (rstrip_prefix s) as (w & Hw).
  destruct (Str.rstrip s) as [|c r]; [exact I|].
  rewrite Hw in H. exact H.
Qed.

Lemma strip_clean (s : pystr) :
  starts_clean (Str.strip s) /\ ends_clean (Str.strip s).
Proof.
  unfold Str.strip. split.
  - apply rstrip_starts_clean, lstrip_starts_clean.
  - apply rstrip_ends_clean.
Qed.

Lemma strip_of_clean (s : pystr) :
  starts_clean s -> ends_clean s -> Str.strip s = s.
Proof.
  intros Hs He. unfold Str.strip. rewrite (lstrip_of_clean _ Hs).
  now apply rstrip_of_clean.
Qed.

Lemma strip_strip (s : pystr) : Str.strip (Str.strip s) = Str.strip s.
Proof. destruct (strip_clean s). now apply strip_of_clean. Qed.

Lemma starts_clean_cons (s : pystr) :
  s <> [] -> starts_clean s ->
  exists c rest, s = c :: rest /\ Unicode.isspace c = false.
Proof. destruct s as [|c rest]; [congruence|]. intros _ H. now exists c, rest. Qed.

Lemma ends_clean_last (s : pystr) :
  s <> [] -> ends_clean s ->
  exists front c, s = front ++ [c] /\ Unicode.isspace c = false.
Proof.
  intros Hne H. unfold ends_clean in H.
  destruct (rev s) as [|c r] eqn:Hr.
  - apply (f_equal (@rev cp)) in Hr. rewrite rev_involutive in Hr. contradiction.
  - exists (rev r), c. split; [|exact H].
    apply (f_equal (@rev cp)) in Hr. now rewrite rev_involutive in Hr.
Qed.

End StripMore.

(** ** Accepted addresses *)

Module EmailMore.

Local Open Scope N_scope.

Lemma local_char_plain (c : cp) :
  Shape.local_char c = true -> plain c /\ c <> ch "@".
Proof.
  intros H. split; [split|].
  - revert H. unfold Shape.local_char, Shape.is_letter, Shape.is_lower,
      Shape.is_upper, Shape.is_digit, Unicode.is_ascii. cbn.
    intros H. bool_to_prop. lia.
  - now apply StripFacts.local_char_not_space.
  - revert H. unfold Shape.local_char, Shape.is_letter, Shape.is_lower,
      Shape.is_upper, Shape.is_digit. cbn. intros H Hc. subst c.
    vm_compute in H. discriminate.
Qed.

Lemma domain_char_local (c : cp) :
  Shape.domain_char c = true -> Shape.local_char c = true.
Proof.
  unfold Shape.domain_char, Shape.local_char. cbn. intros H.
  bool_to_prop. tauto.
Qed.

Lemma letter_local (c : cp) :
  Shape.is_letter c = true -> Shape.local_char c = true.
Proof. unfold Shape.local_char. intros ->. reflexivity. Qed.

Lemma all_local_plain (u : pystr) :
  Shape.all Shape.local_char u ->
  Forall plain u /\ count_occ N.eq_dec u (ch "@") = 0%nat.
Proof.
  unfold Shape.all. intros H.
  induction H as [|c u Hc Hu [IH1 IH2]]; cbn [count_occ].
  - split; [constructor | reflexivity].
  - destruct (local_char_plain c Hc) as [Hp Hne]. split.
    + now constructor.
    + destruct (N.eq_dec c (ch "@")) as [E|E]; [now elim Hne | exact IH2].
Qed.

Lemma all_weaken (p q : cp -> bool) (u : pystr) :
  (forall c, p c = true -> q c = true) -> Shape.all p u -> Shape.all q u.
Proof.
  unfold Shape.all. intros H Hu. eapply Forall_impl; [|exact Hu]. exact H.
Qed.

(** A well-formed address is plain, has one [@] and six code points or more. *)
Lemma email_facts (e : pystr) :
  Shape.email e ->
  Forall plain e /\ count_occ N.eq_dec e (ch "@") = 1%nat /\
  (6 <= List.length e)%nat.
Proof.
  intros (local & domain & tld & -> & Hl & Hlocal & Hd & Hdomain & Htld2 & Htld).
  destruct (all_local_plain local Hlocal) as [Pl Cl].
  destruct (all_local_plain domain (all_weaken _ _ _ domain_char_local Hdomain))
    as [Pd Cd].
  destruct (all_local_plain tld (all_weaken _ _ _ letter_local Htld)) as [Pt Ct].
  assert (plain (ch "@")) as Pat by (split; reflexivity).
  assert (plain (ch ".")) as Pdot by (split; reflexivity).
  split; [|split].
  - repeat (apply Forall_app; split); auto; repeat constructor; auto.
  - unfold pystr, cp in *. rewrite !count_occ_app, Cl, Cd, Ct. reflexivity.
  - rewrite !length_app. simpl.
    destruct local; [congruence|]. destruct domain; [congruence|]. simpl. lia.
Qed.

(** Stripping an accepted address removes the final newline and nothing
    else. *)
Lemma strip_email_line_eq (e tail : pystr) :
  Shape.email e -> Shape.line_end tail -> Str.strip (e ++ tail) = e.
Proof.
  intros He Ht.
  destruct (StripFacts.email_ends e He)
    as (c0 & cl & front & back & E0 & El & H0 & Hl).
  rewrite E0. apply (StripFacts.strip_between c0 cl front back tail); auto.
  now rewrite <- E0.
Qed.

End EmailMore.

(** ** The outcome of a submission *)

Module SubmitFacts.

Lemma valid_iff (f : Form) (email_ok grade_ok : bool) :
  (email_ok = true <-> Re.matches email_pattern (f_email f)) ->
  (grade_ok = true <-> Re.matches grade_pattern (Str.upper (f_grade f))) ->
  messages (Str.truthy (Str.strip (f_name f)))
           (Z.leb 5 (f_age f) && Z.leb (f_age f) 100) email_ok grade_ok = []
  <-> all_valid f.
Proof.
  intros He Hg. rewrite FormFacts.messages_nil. unfold all_valid.
  rewrite FormFacts.truthy_true_iff, in_range_iff, He, Hg. tauto.
Qed.

(** A submitted add form either reports its errors or constructs the
    record of the form. *)
Lemma add_form_cases (generate_student_id : StudentManager.t -> pystr)
    (m : StudentManager.t) (f : Form) :
  submitted f = true ->
  (all_valid f /\ add_validation f = Ok [] /\
   exists outcome,
     show_add_student_form generate_student_id m f = Ok outcome /\
     constructed outcome = Some (student_of_form (generate_student_id m) f)) \/
  (~ all_valid f /\
   exists errors,
     errors <> [] /\ add_validation f = Ok errors /\
     show_add_student_form generate_student_id m f = Ok (Add_errors errors)).
Proof.
  intros Hs.
  destruct (FormFacts.validations f)
    as (be & bg & He & Hbe & Hg & Hbg & Hadd & Hupd).
  pose proof (valid_iff f be bg Hbe Hbg) as Hv.
  unfold show_add_student_form. rewrite Hs, Hadd. cbn [bind int_].
  destruct (messages _ _ _ _) as [|e errors].
  - left. split; [now apply Hv|]. split; [reflexivity|].
    unfold StudentManager.add_student.
    destruct (StudentManager.has_id _ _); eexists; split; reflexivity.
  - right. split.
    + intros H. apply Hv in H. discriminate.
    + exists (e :: errors). split; [discriminate|]. now split.
Qed.

Lemma constructed_student (generate_student_id : StudentManager.t -> pystr)
    (m : StudentManager.t) (f : Form) (outcome : add_outcome) (s : Student) :
  show_add_student_form generate_student_id m f = Ok outcome ->
  constructed outcome = Some s ->
  all_valid f /\ s = student_of_form (generate_student_id m) f.
Proof.
  intros Hform Hs.
  destruct (submitted f) eqn:Hsub.
  - destruct (add_form_cases generate_student_id m f Hsub)
      as [(Hv & _ & outcome' & Hout & Hc) | (_ & errors & _ & _ & Hout)];
      rewrite Hout in Hform; injection Hform as <-.
    + split; [assumption | congruence].
    + discriminate.
  - unfold show_add_student_form in Hform. rewrite Hsub in Hform.
    injection Hform as <-. discriminate.
Qed.

(** The keyword arguments of every call of [update_student]. *)
Lemma update_call_data (m : StudentManager.t) (choice : nat) (f : Form)
    (outcome : update_outcome) (sid : pystr)
    (update_data : list (string * value)) :
  show_update_student_form m choice f = Ok outcome ->
  update_call outcome = Some (sid, update_data) ->
  update_validation f = Ok [] /\ update_data = update_data_of_form f.
Proof.
  unfold show_update_student_form.
  destruct (StudentManager.get_all_students m) as [|s0 students].
  { intros H. injection H as <-. discriminate. }
  destruct (selectbox _ choice) as [selected|].
  2:{ intros H. injection H as <-. discriminate. }
  destruct (Str.truthy selected).
  2:{ intros H. injection H as <-. discriminate. }
  destruct (dict_get _ _) as [selected_student|e]; [|discriminate].
  cbn [bind]. destruct (number_input _ _ _); [|discriminate].
  cbn [bind]. destruct (list_index _ _); [|discriminate].
  cbn [bind]. destruct (submitted f).
  2:{ intros H. injection H as <-. discriminate. }
  destruct (update_validation f) as [errors|e]; [|discriminate].
  cbn [bind int_]. destruct errors as [|e errors].
  2:{ intros H. injection H as <-. discriminate. }
  destruct (StudentManager.update_student _ _ _) as [[] m'];
    intros H; injection H as <-; intros H; injection H as <- <-;
    split; reflexivity.
Qed.

End SubmitFacts.

Module RoundTrip.

Lemma valid_validations (f : Form) :
  all_valid f -> add_validation f = Ok [] /\ update_validation f = Ok [].
Proof.
  intros Hv.
  destruct (FormFacts.validations f)
    as (be & bg & He & Hbe & Hg & Hbg & Hadd & Hupd).
  apply (SubmitFacts.valid_iff f be bg Hbe Hbg) in Hv.
  rewrite Hv in Hadd, Hupd. now split.
Qed.

Lemma stripped_email (e : pystr) :
  Re.matches email_pattern e ->
  Shape.email (Str.strip e) /\ Re.matches email_pattern (Str.strip e).
Proof.
  intros H. apply Patterns.matches_email_iff in H.
  assert (Shape.email (Str.strip e)) as He
    by now apply StripFacts.strip_email_line.
  split; [assumption|].
  apply Patterns.matches_email_iff.
  rewrite <- (app_nil_r (Str.strip e)).
  apply email_line_of_email; [assumption | now left].
Qed.

(** The fields of a record of a valid form are fixed points of the
    conversions of the forms. *)
Lemma student_of_form_fixed (sid : pystr) (f : Form) :
  all_valid f ->
  let s := student_of_form sid f in
  Str.strip (name s) = name s /\ Str.upper (grade s) = grade s /\
  Str.strip (email s) = email s /\ all_valid (prefill s).
Proof.
  intros (Hn & Ha & He & Hg). cbn zeta. unfold all_valid. simpl.
  rewrite !StripMore.strip_strip, CaseFacts.upper_upper.
  repeat split; auto; try apply Ha.
  now apply stripped_email.
Qed.

End RoundTrip.

(** ** The options of the select boxes *)

Module OptionFacts.

Section Dict.

Variable V : Type.

Lemma dict_get_set_same (k : pystr) (v : V) (d : list (pystr * V)) :
  dict_get k (dict_set k v d) = Ok v.
Proof.
  induction d as [|[k' v'] d IH]; simpl.
  - now rewrite pystr_eqb_refl.
  - destruct (pystr_eqb k' k) eqn:E; simpl; rewrite E; [reflexivity | exact IH].
Qed.

Lemma dict_get_set_other (k k0 : pystr) (v : V) (d : list (pystr * V)) :
  pystr_eqb k0 k = false -> dict_get k (dict_set k0 v d) = dict_get k d.
Proof.
  intros Hne. induction d as [|[k' v'] d IH]; simpl.
  - now rewrite Hne.
  - destruct (pystr_eqb k' k0) eqn:E; simpl.
    + apply pystr_eqb_eq in E. subst k'. simpl. now rewrite Hne.
    + now rewrite IH.
Qed.

Lemma keys_set (k : pystr) (v : V) (d : list (pystr * V)) :
  map fst (dict_set k v d) =
  if existsb (fun k' => pystr_eqb k' k) (map fst d)
  then map fst d else map fst d ++ [k].
Proof.
  induction d as [|[k' v'] d IH]; simpl; [reflexivity|].
  destruct (pystr_eqb k' k) eqn:E; simpl; [reflexivity|].
  rewrite IH. now destruct (existsb _ (map fst d)).
Qed.

Lemma existsb_eqb_In (k : pystr) (ks : list pystr) :
  existsb (fun k' => pystr_eqb k' k) ks = true <-> In k ks.
Proof.
  rewrite existsb_exists. split.
  - intros (k' & Hin & E). apply pystr_eqb_eq in E. now subst.
  - intros Hin. exists k. split; [assumption | apply pystr_eqb_refl].
Qed.

Lemma dict_get_keys (k : pystr) (d : list (pystr * V)) :
  (exists v, dict_get k d = Ok v) <-> In k (map fst d).
Proof.
  induction d as [|[k' v'] d IH]; simpl.
  - split; [intros (v & H); discriminate | intros []].
  - destruct (pystr_eqb k' k) eqn:E.
    + apply pystr_eqb_eq in E. split; [now left | now exists v'].
    + rewrite IH. split; [now right|].
      intros [H | H]; [|assumption]. subst k'.
      rewrite pystr_eqb_refl in E. discriminate.
Qed.

Lemma dict_get_error (k : pystr) (d : list (pystr * V)) (e : exn) :
  dict_get k d = Raise e -> e = KeyError /\ ~ In k (map fst d).
Proof.
  intros H. split.
  - induction d as [|[k' v'] d IH]; simpl in H.
    + now injection H.
    + destruct (pystr_eqb k' k); [discriminate | auto].
  - intros Hin. apply dict_get_keys in Hin as (v & Hv). congruence.
Qed.

Variable val : Student -> V.

Lemma fold_keys (students : list Student) :
  forall d k,
    In k (map fst (fold_left (options_step val) students d)) <->
    In k (map fst d) \/ exists s, In s students /\ option_label s = k.
Proof.
  induction students as [|s students IH]; intros d k; simpl.
  - split; [now left | intros [H | (s & [] & _)]; assumption].
  - rewrite IH. unfold options_step. rewrite keys_set.
    destruct (existsb _ (map fst d)) eqn:E.
    + apply existsb_eqb_In in E. split.
      * intros [H | (s' & Hs' & Hk)]; [now left | right; exists s'; auto].
      * intros [H | (s' & [-> | Hs'] & Hk)];
          [now left | left; now subst k | right; now exists s'].
    + rewrite in_app_iff. simpl. split.
      * intros [[H | [H | []]] | (s' & Hs' & Hk)];
          [now left | right; exists s; auto | right; exists s'; auto].
      * intros [H | (s' & [-> | Hs'] & Hk)];
          [left; now left | left; right; now left | right; now exists s'].
Qed.

Lemma fold_NoDup (students : list Student) :
  forall d, NoDup (map fst d) -> NoDup (map fst (fold_left (options_step val) students d)).
Proof.
  induction students as [|s students IH]; intros d Hd; simpl; [assumption|].
  apply IH. unfold options_step. rewrite keys_set.
  destruct (existsb _ (map fst d)) eqn:E; [assumption|].
  apply NoDup_app. repeat split; auto.
  - constructor; [intros [] | constructor].
  - intros k Hin [<- | []].
    apply existsb_eqb_In in Hin. congruence.
Qed.

Lemma fold_get (students : list Student) :
  forall d k,
    dict_get k (fold_left (options_step val) students d) =
    match last_labelled k students with
    | Some s => Ok (val s)
    | None => dict_get k d
    end.
Proof.
  induction students as [|s students IH]; intros d k; simpl; [reflexivity|].
  rewrite IH. destruct (last_labelled k students); [reflexivity|].
  unfold options_step. destruct (pystr_eqb (option_label s) k) eqn:E.
  - apply pystr_eqb_eq in E. subst k. apply dict_get_set_same.
  - now apply dict_get_set_other.
Qed.

Lemma fold_keys_distinct (students : list Student) :
  forall d,
    NoDup (map fst d ++ map option_label students) ->
    map fst (fold_left (options_step val) students d) = map fst d ++ map option_label students.
Proof.
  induction students as [|s students IH]; intros d Hd; simpl.
  - now rewrite app_nil_r.
  - assert (map fst (options_step val d s) = map fst d ++ [option_label s]) as Hstep.
    { unfold options_step. rewrite keys_set.
      destruct (existsb _ (map fst d)) eqn:E; [|reflexivity].
      apply existsb_eqb_In in E. exfalso.
      apply NoDup_remove_2 in Hd. apply Hd, in_or_app. now left. }
    rewrite IH; rewrite Hstep, <- app_assoc; [reflexivity | exact Hd].
Qed.

End Dict.

Lemma last_labelled_spec (k : pystr) (students : list Student) (s : Student) :
  last_labelled k students = Some s <->
  exists before after,
    students = before ++ s :: after /\ option_label s = k /\
    Forall (fun s' => option_label s' <> k) after.
Proof.
  induction students as [|s0 students IH]; simpl.
  - split; [discriminate|]. intros ([|? ?] & ? & H & _); discriminate.
  - destruct (last_labelled k students) as [s'|] eqn:Hlast.
    + split.
      * intros H. injection H as ->.
        destruct (proj1 IH eq_refl) as (before & after & -> & Hk & Hafter).
        now exists (s0 :: before), after.
      * intros (before & after & Hst & Hk & Hafter).
        destruct before as [|b before]; simpl in Hst; injection Hst as -> ->.
        -- assert (last_labelled k after = None) as Hnone.
           { clear -Hafter. induction Hafter as [|x l Hx Hl IHl]; simpl; auto.
             rewrite IHl. destruct (pystr_eqb (option_label x) k) eqn:E; auto.
             apply pystr_eqb_eq in E. contradiction. }
           congruence.
        -- apply IH. now exists before, after.
    + destruct (pystr_eqb (option_label s0) k) eqn:E.
      * apply pystr_eqb_eq in E. split.
        -- intros H. injection H as ->. exists [], students. repeat split; auto.
           clear -Hlast. induction students as [|x l IHl]; [constructor|].
           simpl in Hlast. destruct (last_labelled k l); [discriminate|].
           destruct (pystr_eqb (option_label x) k) eqn:Ex; [discriminate|].
           constructor; [|now apply IHl].
           intros H. apply pystr_eqb_eq in H. congruence.
        -- intros (before & after & Hst & Hk & Hafter).
           destruct before as [|b before]; simpl in Hst; injection Hst as -> ->.
           ++ reflexivity.
           ++ assert (@None Student = Some s) as H
                by (apply IH; now exists before, after).
              discriminate.
      * split; [discriminate|].
        intros (before & after & Hst & Hk & Hafter).
        destruct before as [|b before]; simpl in Hst; injection Hst as -> ->.
        -- apply pystr_eqb_eq in Hk. congruence.
        -- assert (@None Student = Some s) as H
             by (apply IH; now exists before, after).
           discriminate.
Qed.

Lemma last_labelled_none (k : pystr) (students : list Student) :
  last_labelled k students = None <->
  Forall (fun s => option_label s <> k) students.
Proof.
  induction students as [|s students IH]; simpl.
  - split; [constructor | reflexivity].
  - destruct (last_labelled k students) as [s'|].
    + split; [discriminate|]. intros H. inversion H; subst.
      destruct IH as [_ IH]. now apply IH.
    + destruct (pystr_eqb (option_label s) k) eqn:E.
      * apply pystr_eqb_eq in E. split; [discriminate|].
        intros H. inversion H; subst. contradiction.
      * split; [|reflexivity]. intros _. constructor; [|now apply IH].
        intros H. apply pystr_eqb_eq in H. congruence.
Qed.

Lemma label_truthy (s : Student) : Str.truthy (option_label s) = true.
Proof.
  unfold option_label. destruct (student_id s); reflexivity.
Qed.

End OptionFacts.

Module SelectFacts.
Import OptionFacts.

Lemma student_options_eq (students : list Student) :
  student_options students = options_of (fun s => s) students.
Proof. reflexivity. Qed.

Section Options.

Variable V : Type.
Variable val : Student -> V.

Lemma options_keys (students : list Student) (k : pystr) :
  In k (map fst (options_of val students)) <->
  exists s, In s students /\ option_label s = k.
Proof.
  unfold options_of. rewrite fold_keys. simpl. tauto.
Qed.

Lemma options_NoDup (students : list Student) :
  NoDup (map fst (options_of val students)).
Proof. apply fold_NoDup. constructor. Qed.

Lemma options_get (students : list Student) (k : pystr) :
  dict_get k (options_of val students) =
  match last_labelled k students with
  | Some s => Ok (val s)
  | None => Raise KeyError
  end.
Proof. unfold options_of. now rewrite fold_get. Qed.

Lemma options_keys_distinct (students : list Student) :
  NoDup (map option_label students) ->
  map fst (options_of val students) = map option_label students.
Proof. intros H. unfold options_of. now rewrite fold_keys_distinct. Qed.

End Options.

(** The keys of an options dict do not depend on its values. *)
Lemma fold_keys_same (V W : Type) (val : Student -> V) (wal : Student -> W)
    (students : list Student) :
  forall d e,
    map fst d = map fst e ->
    map fst (fold_left (options_step val) students d) =
    map fst (fold_left (options_step wal) students e).
Proof.
  induction students as [|s students IH]; intros d e H; simpl; [assumption|].
  apply IH. unfold options_step. rewrite !keys_set. now rewrite H.
Qed.

Lemma options_keys_same (V W : Type) (val : Student -> V) (wal : Student -> W)
    (students : list Student) :
  map fst (options_of val students) = map fst (options_of wal students).
Proof. now apply fold_keys_same. Qed.

Lemma split_unique (s : Student) (before : list Student) :
  forall after before' after',
    NoDup (map student_id (before ++ s :: after)) ->
    before ++ s :: after = before' ++ s :: after' ->
    before = before' /\ after = after'.
Proof.
  induction before as [|b before IH]; intros after before' after' Hnd H.
  - destruct before' as [|b' before']; simpl in *.
    + injection H as <-. now split.
    + exfalso. injection H as <- ->.
      rewrite map_app in Hnd. simpl in Hnd.
      inversion Hnd as [|x l Hnot _]; subst. apply Hnot.
      apply in_or_app. right. now left.
  - destruct before' as [|b' before']; simpl in *.
    + exfalso. injection H as -> <-.
      rewrite map_app in Hnd. simpl in Hnd.
      inversion Hnd as [|x l Hnot _]; subst. apply Hnot.
      apply in_or_app. right. now left.
    + injection H as <- H.
      inversion Hnd as [|x l _ Hnd']; subst.
      destruct (IH after before' after' Hnd' H) as [-> ->].
      now split.
Qed.

Lemma list_index_In (options : list pystr) (x : pystr) :
  (exists i, list_index options x = Ok i) <-> In x options.
Proof.
  induction options as [|o options IH]; simpl.
  - split; [intros (i & H); discriminate | intros []].
  - destruct (pystr_eqb o x) eqn:E.
    + apply pystr_eqb_eq in E. split; [now left | now exists 0].
    + split.
      * intros (i & H). right. apply IH.
        destruct (list_index options x) as [j|e];
          [now exists j | discriminate].
      * intros [H | H].
        -- subst o. rewrite pystr_eqb_refl in E. discriminate.
        -- apply IH in H as (j & Hj). rewrite Hj. now exists (S j).
Qed.

Lemma list_index_error (options : list pystr) (x : pystr) (e : exn) :
  list_index options x = Raise e -> e = ValueError /\ ~ In x options.
Proof.
  intros H. split.
  - induction options as [|o options IH]; simpl in H.
    + now injection H.
    + destruct (pystr_eqb o x); [discriminate|].
      destruct (list_index options x) as [j|e']; [discriminate|].
      simpl in H. injection H as <-. now apply IH.
  - intros Hin. apply list_index_In in Hin as (i & Hi). congruence.
Qed.

Lemma list_index_first (options : list pystr) (x : pystr) :
  forall i,
    list_index options x = Ok i ->
    nth_error options i = Some x /\
    forall j, j < i -> nth_error options j <> Some x.
Proof.
  induction options as [|o options IH]; intros i H; simpl in H; [discriminate|].
  destruct (pystr_eqb o x) eqn:E.
  - injection H as <-. apply pystr_eqb_eq in E. subst o.
    split; [reflexivity | intros j Hj; lia].
  - destruct (list_index options x) as [i'|e] eqn:Hrec; [|discriminate].
    simpl in H. injection H as <-.
    destruct (IH i' eq_refl) as [Hnth Hfirst]. split; [exact Hnth|].
    intros [|j] Hj; simpl.
    + intros H. injection H as ->. rewrite pystr_eqb_refl in E. discriminate.
    + apply Hfirst. lia.
Qed.

Lemma number_input_ok (lo hi v : Z) :
  (lo <= v <= hi)%Z <-> number_input lo hi v = Ok tt.
Proof.
  unfold number_input.
  destruct (Z.ltb_spec v lo); [split; [lia | discriminate]|].
  destruct (Z.ltb_spec hi v); [split; [lia | discriminate]|].
  split; [reflexivity | lia].
Qed.

Lemma number_input_error (lo hi v : Z) (e : exn) :
  number_input lo hi v = Raise e ->
  e = StreamlitAPIException /\ ~ (lo <= v <= hi)%Z.
Proof.
  unfold number_input.
  destruct (Z.ltb_spec v lo).
  { intros H0. injection H0 as <-. split; [reflexivity | lia]. }
  destruct (Z.ltb_spec hi v).
  { intros H1. injection H1 as <-. split; [reflexivity | lia]. }
  discriminate.
Qed.

(** What the update form does once a student is selected. *)
Lemma update_form_selected (m : StudentManager.t) (choice : nat) (f : Form) :
  match selectbox (map fst (student_options m)) choice with
  | None =>
      exists outcome, show_update_student_form m choice f = Ok outcome /\
                      update_call outcome = None
  | Some k =>
      exists s,
        dict_get k (student_options m) = Ok s /\
        last_labelled k m = Some s /\
        match number_input 5 100 (age s) with
        | Raise e => show_update_student_form m choice f = Raise e
        | Ok _ =>
            match list_index performance_options (performance s) with
            | Raise e => show_update_student_form m choice f = Raise e
            | Ok _ =>
                exists outcome,
                  show_update_student_form m choice f = Ok outcome /\
                  forall sid update_data,
                    update_call outcome = Some (sid, update_data) ->
                    sid = student_id s
            end
        end
  end.
Proof.
  unfold show_update_student_form, StudentManager.get_all_students.
  destruct m as [|s0 m0].
  { simpl. destruct choice; simpl; now exists Update_no_students. }
  set (m := s0 :: m0).
  destruct (selectbox (map fst (student_options m)) choice) as [k|] eqn:Hsel.
  2:{ now exists Update_no_selection. }
  assert (In k (map fst (student_options m))) as Hin
    by (eapply nth_error_In; exact Hsel).
  rewrite student_options_eq in Hin.
  apply options_keys in Hin as (s' & Hs' & Hk).
  assert (Str.truthy k = true) as Ht by (rewrite <- Hk; apply label_truthy).
  rewrite Ht.
  pose proof (options_get _ (fun s : Student => s) m k) as Hget.
  rewrite <- student_options_eq in Hget.
  destruct (last_labelled k m) as [s|] eqn:Hlast.
  2:{ apply last_labelled_none in Hlast. rewrite Forall_forall in Hlast.
      now elim (Hlast s' Hs'). }
  exists s. rewrite Hget. split; [reflexivity|]. split; [reflexivity|].
  cbn [bind].
  destruct (number_input 5 100 (age s)) as [[]|e]; [|reflexivity].
  cbn [bind].
  destruct (list_index performance_options (performance s)) as [i|e];
    [|reflexivity].
  cbn [bind]. destruct (submitted f).
  2:{ now exists Update_idle. }
  destruct (FormFacts.validations f)
    as (be & bg & He & Hbe & Hg & Hbg & Hadd & Hupd).
  rewrite Hupd. cbn [bind int_].
  destruct (messages _ _ _ _) as [|e errors].
  - destruct (StudentManager.update_student _ _ _) as [[] m'];
      eexists; (split; [reflexivity|]);
      intros sid data H; now injection H as <- _.
  - eexists. split; [reflexivity|]. intros sid data H. discriminate.
Qed.

End SelectFacts.

Module LabelFacts.
Import OptionFacts SelectFacts.

Lemma contains_cons (sub s : pystr) (c : cp) :
  Str.contains sub (c :: s) = false ->
  Str.startswith sub (c :: s) = false /\ Str.contains sub s = false.
Proof. simpl. intros H. now apply Bool.orb_false_iff in H. Qed.

Lemma contains_nil (sub : pystr) :
  Str.contains sub [] = false -> Str.startswith sub [] = false.
Proof. simpl. intros H. now apply Bool.orb_false_iff in H as [H _]. Qed.

(** A text without the separator is found again before the first
    separator of a label. *)
Lemma label_prefix (a : pystr) :
  forall b x y,
    Str.contains separator a = false -> Str.contains separator b = false ->
    a ++ separator ++ x = b ++ separator ++ y -> a = b.
Proof.
  induction a as [|c a IH]; intros b x y Ha Hb H.
  - destruct b as [|c' [|c'' b]]; [reflexivity | |]; simpl in H.
    + injection H as <- H. discriminate.
    + injection H as <- <- H. apply contains_cons in Hb as [Hb _].
      vm_compute in Hb. discriminate.
  - destruct b as [|c' b].
    + destruct a as [|c'' a]; simpl in H.
      * injection H as -> H. discriminate.
      * injection H as -> -> H. apply contains_cons in Ha as [Ha _].
        vm_compute in Ha. discriminate.
    + simpl in H. injection H as <- H.
      apply contains_cons in Ha as [_ Ha]. apply contains_cons in Hb as [_ Hb].
      f_equal. now apply (IH b x y).
Qed.

Lemma labels_distinct (students : list Student) :
  NoDup (map student_id students) ->
  Forall (fun s => Str.contains separator (student_id s) = false) students ->
  NoDup (map option_label students).
Proof.
  induction students as [|s students IH]; simpl; intros Hnd Hsep;
    [constructor|].
  inversion Hnd as [|x l Hnot Hnd']; subst.
  inversion Hsep as [|x l Hs Hsep']; subst.
  constructor; [|now apply IH].
  intros Hin. apply in_map_iff in Hin as (s' & Hlabel & Hs').
  apply Hnot. apply in_map_iff. exists s'. split; [|assumption].
  rewrite Forall_forall in Hsep'.
  unfold option_label in Hlabel. fold separator in Hlabel.
  now apply (label_prefix _ _ _ _ (Hsep' s' Hs') Hs Hlabel).
Qed.

Lemma nth_error_split_label (students : list Student) :
  NoDup (map option_label students) ->
  forall i s,
    nth_error students i = Some s ->
    last_labelled (option_label s) students = Some s.
Proof.
  intros Hnd i s Hnth.
  apply nth_error_split in Hnth as (before & after & -> & _).
  apply last_labelled_spec. exists before, after.
  split; [reflexivity|]. split; [reflexivity|].
  rewrite map_app in Hnd. apply NoDup_app_remove_l in Hnd. simpl in Hnd.
  inversion Hnd as [|x l Hnot _]; subst.
  apply Forall_forall. intros s' Hs' E. apply Hnot.
  rewrite <- E. now apply in_map.
Qed.

Lemma NoDup_map_inj (students : list Student) (s s' : Student) :
  NoDup (map student_id students) ->
  In s students -> In s' students -> student_id s = student_id s' -> s = s'.
Proof.
  induction students as [|x students IH]; simpl; intros Hnd Hs Hs' E; [easy|].
  inversion Hnd as [|y l Hnot Hnd']; subst.
  destruct Hs as [-> | Hs], Hs' as [-> | Hs']; auto.
  - exfalso. apply Hnot. rewrite E. now apply in_map.
  - exfalso. apply Hnot. rewrite <- E. now apply in_map.
Qed.

End LabelFacts.

(** ** The table *)

Module TableFacts.

Lemma distinct_count_le (xs : list pystr) : distinct_count xs <= List.length xs.
Proof.
  unfold distinct_count. apply NoDup_incl_length; [apply NoDup_nodup|].
  intros x Hx. now apply nodup_In in Hx.
Qed.

Lemma distinct_count_pos (xs : list pystr) : xs <> [] -> 1 <= distinct_count xs.
Proof.
  destruct xs as [|x xs]; [congruence|]. intros _. unfold distinct_count.
  assert (In x (nodup pystr_eq_dec (x :: xs))) as H
    by (apply nodup_In; now left).
  destruct (nodup pystr_eq_dec (x :: xs)); [destruct H | simpl; lia].
Qed.

Lemma distinct_count_NoDup (xs : list pystr) :
  NoDup xs -> distinct_count xs = List.length xs.
Proof. intros H. unfold distinct_count. now rewrite nodup_fixed_point. Qed.

Lemma distinct_count_perm (xs ys : list pystr) :
  Permutation xs ys -> distinct_count xs = distinct_count ys.
Proof.
  intros H. unfold distinct_count. apply Permutation_length.
  apply NoDup_Permutation; try apply NoDup_nodup.
  intros x. rewrite !nodup_In. split; apply Permutation_in;
    [assumption | now apply Permutation_sym].
Qed.

Lemma age_sum_perm (students students' : list Student) :
  Permutation students students' -> age_sum students = age_sum students'.
Proof.
  induction 1 as [| s l l' _ IH | s s' l | l l' l'' _ IH1 _ IH2]; simpl; lia.
Qed.

Lemma filter_length_perm (p : Student -> bool) (students students' : list Student) :
  Permutation students students' ->
  List.length (filter p students) = List.length (filter p students').
Proof.
  induction 1 as [| s l l' _ IH | s s' l | l l' l'' _ IH1 _ IH2]; simpl.
  - reflexivity.
  - destruct (p s); simpl; now rewrite IH.
  - destruct (p s), (p s'); reflexivity.
  - now rewrite IH1.
Qed.

Lemma age_sum_bounds (students : list Student) :
  Forall (fun s => (5 <= age s <= 100)%Z) students ->
  (5 * Z.of_nat (List.length students) <= age_sum students
   <= 100 * Z.of_nat (List.length students))%Z.
Proof.
  induction 1 as [|s students Hs _ IH]; simpl List.length; simpl age_sum.
  - lia.
  - rewrite Nat2Z.inj_succ. lia.
Qed.

Lemma age_sum_magnitude (bound : Z) (students : list Student) :
  Forall (fun s => (- bound <= age s < bound)%Z) students ->
  (Z.abs (age_sum students) <= bound * Z.of_nat (List.length students))%Z.
Proof.
  induction 1 as [|s students Hs _ IH]; simpl List.length; simpl age_sum.
  - lia.
  - rewrite Nat2Z.inj_succ. lia.
Qed.

Lemma true_divide_overflows_iff (a : Z) (b : nat) :
  true_divide_overflows a b = true <->
  ((2 ^ 1024 - 2 ^ 970) * Z.of_nat b <= Z.abs a)%Z.
Proof. unfold true_divide_overflows. apply Z.leb_le. Qed.

Lemma true_divide_fits (students : list Student) :
  students <> [] ->
  Forall (fun s => (- 2 ^ 63 <= age s < 2 ^ 63)%Z) students ->
  true_divide_overflows (age_sum students) (List.length students) = false.
Proof.
  intros Hne Hages. apply Bool.not_true_iff_false. intros H.
  apply true_divide_overflows_iff in H.
  apply age_sum_magnitude in Hages.
  assert (2 ^ 63 < 2 ^ 1024 - 2 ^ 970)%Z as Hlt by (vm_compute; reflexivity).
  assert (0 < Z.of_nat (List.length students))%Z as Hpos.
  { destruct students; [congruence | simpl List.length; lia]. }
  revert H Hages Hlt Hpos.
  generalize (2 ^ 63)%Z (2 ^ 1024 - 2 ^ 970)%Z (Z.abs (age_sum students))
             (Z.of_nat (List.length students)).
  intros small large a n H Hages Hlt Hpos. nia.
Qed.

Lemma true_divide_perm (students students' : list Student) :
  Permutation students students' ->
  true_divide_overflows (age_sum students) (List.length students)
  = true_divide_overflows (age_sum students') (List.length students').
Proof.
  intros H. now rewrite (age_sum_perm _ _ H), (Permutation_length H).
Qed.

End TableFacts.

(** ** The raw inputs [validate_grade] accepts *)

Module GradeMore.

Local Open Scope N_scope.

Lemma by_range (P : cp -> bool) (n : nat) :
  forallb P (map N.of_nat (seq 0 n)) = true ->
  forall c, c < N.of_nat n -> P c = true.
Proof.
  intros H c Hc. rewrite forallb_forall in H. apply H.
  apply in_map_iff. exists (N.to_nat c). split; [apply N2Nat.id|].
  apply in_seq. split; [apply Nat.le_0_l|]. simpl.
  rewrite <- (Nat2N.id n). apply Nat.compare_lt_iff.
  rewrite <- N2Nat.inj_compare. now apply N.compare_lt_iff.
Qed.

Lemma high_code_point (c : cp) :
  384 <= c ->
  Shape.is_digit c = false /\ (c =? Shape.newline) = false /\
  Shape.is_upper c = false /\ Accepted.grade_letter c = false.
Proof.
  unfold Accepted.grade_letter, Shape.is_digit, Shape.newline, Shape.is_upper,
    Shape.is_lower, Accepted.dotless_i, Accepted.long_s.
  intros H. repeat split; apply Bool.not_true_is_false; intros H';
    bool_to_prop; lia.
Qed.

Lemma upper_image_all : forall c, Accepted.upper_image c = true.
Proof.
  intros c. destruct (N.ltb_spec c 384) as [Hlt | Hge].
  - revert c Hlt. apply (by_range Accepted.upper_image 384).
    vm_compute. reflexivity.
  - destruct (high_code_point c Hge) as (H1 & H2 & H3 & H4).
    unfold Accepted.upper_image. now rewrite H1, H2, H3, H4.
Qed.

Lemma upper_source_all : forall c, Accepted.upper_source c = true.
Proof.
  apply CaseFacts.by_keys.
  - vm_compute. reflexivity.
  - intros c Hc. destruct (CaseFacts.off_keys c Hc) as (Hup & _ & _).
    unfold Accepted.upper_source. rewrite Hup. cbv zeta.
    rewrite N.eqb_refl. unfold Accepted.grade_letter.
    destruct (Shape.is_upper c); simpl;
      now rewrite ?Bool.orb_true_r, ?Bool.andb_true_r.
Qed.

Lemma image_fixed (c : cp) :
  Shape.is_digit c || (c =? Shape.newline) || Shape.is_upper c = true ->
  Unicode.to_upper_full c = [c].
Proof.
  intros H. pose proof (upper_image_all c) as Hi.
  unfold Accepted.upper_image in Hi. rewrite H in Hi. simpl in Hi.
  apply Bool.andb_true_iff in Hi as [Hi _]. now apply pystr_eqb_eq.
Qed.

Lemma image_letter (c : cp) :
  Accepted.grade_letter c = true ->
  exists x, Unicode.to_upper_full c = [x] /\ Shape.is_upper x = true.
Proof.
  intros H. pose proof (upper_image_all c) as Hi.
  unfold Accepted.upper_image in Hi. rewrite H in Hi.
  apply Bool.andb_true_iff in Hi as [_ Hi]. simpl in Hi.
  destruct (Unicode.to_upper_full c) as [|x [|y l]]; try discriminate.
  now exists x.
Qed.

Lemma block_single (c : cp) :
  forallb Unicode.is_ascii (Unicode.to_upper_full c) = true ->
  (CaseCheck.letters (Unicode.to_upper_full c) <= 1)%nat ->
  exists x, Unicode.to_upper_full c = [x].
Proof.
  intros Ha Hl. pose proof (upper_source_all c) as Hs.
  unfold Accepted.upper_source in Hs. cbv zeta in Hs.
  apply Nat.leb_le in Hl. rewrite Ha, Hl in Hs. simpl in Hs.
  destruct (Unicode.to_upper_full c) as [|x [|y l]]; try discriminate.
  now exists x.
Qed.

Lemma block_source (c x : cp) :
  Unicode.to_upper_full c = [x] -> Unicode.is_ascii x = true ->
  (Shape.is_digit x || (x =? Shape.newline) = true -> c = x) /\
  (Shape.is_upper x = true -> Accepted.grade_letter c = true).
Proof.
  intros Hup Ha. pose proof (upper_source_all c) as Hs.
  unfold Accepted.upper_source in Hs. cbv zeta in Hs. rewrite Hup in Hs.
  assert (forallb Unicode.is_ascii [x] &&
          Nat.leb (CaseCheck.letters [x]) 1 = true) as Hc.
  { simpl. rewrite Ha. unfold CaseCheck.letters. simpl.
    now destruct (Shape.is_upper x). }
  rewrite Hc in Hs. simpl in Hs.
  apply Bool.andb_true_iff in Hs as [H1 H2]. split; intros H.
  - rewrite H in H1. simpl in H1. now apply N.eqb_eq in H1.
  - rewrite H in H2. exact H2.
Qed.

Lemma blocks_single (g : pystr) :
  forallb Unicode.is_ascii (Str.upper g) = true ->
  (CaseCheck.letters (Str.upper g) <= 1)%nat ->
  Forall2 (fun c x => Unicode.to_upper_full c = [x]) g (Str.upper g).
Proof.
  induction g as [|c g IH]; intros Ha Hl; [constructor|].
  rewrite CaseFacts.upper_cons in *.
  rewrite forallb_app in Ha. apply Bool.andb_true_iff in Ha as [Hc Hg].
  rewrite CaseFacts.letters_app in Hl.
  destruct (block_single c Hc ltac:(lia)) as (x & Hx).
  rewrite Hx in *. simpl. constructor; [assumption|].
  apply IH; [assumption | lia].
Qed.

Lemma is_digit_of_nonzero (d : cp) :
  Shape.is_nonzero_digit d = true -> Shape.is_digit d = true.
Proof.
  unfold Shape.is_nonzero_digit, Shape.is_digit. intros H. bool_to_prop. lia.
Qed.

Lemma upper_line_end (tail : pystr) :
  Shape.line_end tail -> Str.upper tail = tail.
Proof. intros [-> | ->]; reflexivity. Qed.

Lemma grade_input_upper (g : pystr) :
  Accepted.grade_input g -> Shape.grade_line (Str.upper g).
Proof.
  intros (d & ds & l & tail & -> & Hd & Hds & Hl & Htail).
  destruct (image_letter l Hl) as (x & Hx & Hux).
  assert (Unicode.to_upper_full d = [d]) as Hud.
  { apply image_fixed. now rewrite (is_digit_of_nonzero d Hd). }
  assert (Str.upper ds = ds) as Huds.
  { destruct Hds as [-> | (e & -> & He)]; [reflexivity|].
    rewrite CaseFacts.upper_single. apply image_fixed. now rewrite He. }
  exists (d :: ds ++ [x]), tail. split; [|split; [|assumption]].
  - rewrite CaseFacts.upper_cons, !CaseFacts.upper_app, Hud, Huds,
      CaseFacts.upper_single, Hx, (upper_line_end tail Htail).
    simpl. now rewrite <- app_assoc.
  - now exists d, ds, x.
Qed.

Lemma source_fixed (c x : cp) :
  Unicode.to_upper_full c = [x] ->
  Shape.is_digit x || (x =? Shape.newline) = true -> c = x.
Proof.
  intros Hup H. apply (block_source c x Hup); [|exact H].
  unfold Unicode.is_ascii. apply Bool.orb_true_iff in H as [H | H].
  - unfold Shape.is_digit in H. bool_to_prop. lia.
  - unfold Shape.newline in H. bool_to_prop. lia.
Qed.

Lemma source_letter (c x : cp) :
  Unicode.to_upper_full c = [x] -> Shape.is_upper x = true ->
  Accepted.grade_letter c = true.
Proof.
  intros Hup H. apply (block_source c x Hup); [|exact H].
  now apply CaseFacts.upper_letter_ascii.
Qed.

Lemma source_tail (g u : pystr) :
  Forall2 (fun c x => Unicode.to_upper_full c = [x]) g u ->
  Shape.line_end u -> g = u.
Proof.
  intros HF [-> | ->].
  - now inversion HF.
  - inversion HF as [|c x g' u' Hc HF']; subst. inversion HF'; subst.
    f_equal. apply (source_fixed c Shape.newline Hc). reflexivity.
Qed.

Lemma upper_grade_input (g : pystr) :
  Shape.grade_line (Str.upper g) -> Accepted.grade_input g.
Proof.
  intros H. destruct (CaseFacts.grade_line_ascii _ H) as [Ha Hl].
  pose proof (blocks_single g Ha Hl) as HF.
  destruct H as (u & tail & Hu & (d & ds & l & -> & Hd & Hds & Hul) & Htail).
  rewrite Hu in HF. clear Hu Ha Hl.
  inversion HF as [|c1 x1 g1 u1 Hc1 HF1]; subst.
  pose proof (source_fixed c1 d Hc1) as E1.
  rewrite (is_digit_of_nonzero d Hd) in E1. specialize (E1 eq_refl). subst c1.
  destruct Hds as [-> | (e & -> & He)]; simpl in HF1.
  - inversion HF1 as [|c2 x2 g2 u2 Hc2 HF2]; subst.
    exists d, [], c2, g2.
    split; [reflexivity|]. split; [exact Hd|]. split; [now left|].
    split; [now apply (source_letter c2 l)|].
    now rewrite (source_tail g2 tail HF2 Htail).
  - inversion HF1 as [|c2 x2 g2 u2 Hc2 HF2]; subst.
    inversion HF2 as [|c3 x3 g3 u3 Hc3 HF3]; subst.
    pose proof (source_fixed c2 e Hc2) as E2. rewrite He in E2.
    specialize (E2 eq_refl). subst c2.
    exists d, [e], c3, g3.
    split; [reflexivity|]. split; [exact Hd|].
    split; [right; now exists e|].
    split; [now apply (source_letter c3 l)|].
    now rewrite (source_tail g3 tail HF3 Htail).
Qed.

End GradeMore.

(** ** Floats and the length of a grade *)

Module RangeFacts.

Lemma div_range (a b : Z) :
  (0 < b)%Z -> (5 <= a / b <= 100 <-> 5 * b <= a < 101 * b)%Z.
Proof.
  intros Hb.
  pose proof (Z.div_mod a b ltac:(lia)) as Hdm.
  pose proof (Z.mod_pos_bound a b Hb) as Hm.
  split; intros H; nia.
Qed.

Lemma grade_line_length (u : pystr) :
  Shape.grade_line u -> 2 <= List.length u <= 4.
Proof.
  intros (g & tail & -> & (d & ds & l & -> & _ & Hds & _) & Htail).
  destruct Hds as [-> | (e & -> & _)], Htail as [-> | ->]; simpl; lia.
Qed.

End RangeFacts.

Lemma option_key_is_label (students : list Student) (k : pystr) :
  In k (map fst (student_options students)) ->
  exists s, In s students /\ option_label s = k.
Proof.
  rewrite SelectFacts.student_options_eq. apply SelectFacts.options_keys.
Qed.

(** * The properties of the specification *)

(** C1: the search section calls [search_students] and then overwrites its
    result with [filter_students] over the whole collection, so the query
    has no effect on what is returned: a search for [alice] returns both
    records, where the filters applied to the output of the search return
    one. *)
Theorem C1_search_result_overwritten :
  (forall m query performance_filter grade_filter min_age max_age,
      show_search_filter_section m
        (mkSearchForm query performance_filter grade_filter min_age max_age) =
      show_search_filter_section m
        (mkSearchForm [] performance_filter grade_filter min_age max_age)) /\
  StudentManager.search_students [alice; bob] (search_query search_alice) = [alice] /\
  show_search_filter_section [alice; bob] search_alice = [alice; bob] /\
  search_then_filter [alice; bob] search_alice = [alice].
Proof.
  split; [reflexivity|]. repeat split; vm_compute; reflexivity.
Qed.

(** C2 (as amended): for every value [a], [validate_age a] is true exactly
    when [int(a)] succeeds with a result between 5 and 100; it is false
    exactly when [int(a)] succeeds with a result out of that range or fails
    with [ValueError]; any other exception of the coercion ([TypeError],
    [OverflowError]) is not caught and leaves [validate_age]. *)
Theorem C2_validate_age_range (a : value) :
  (validate_age a = Ok true <->
   exists n, int_ a = Ok n /\ (5 <= n <= 100)%Z) /\
  (validate_age a = Ok false <->
   (exists n, int_ a = Ok n /\ ~ (5 <= n <= 100)%Z) \/
   int_ a = Raise ValueError) /\
  (forall e, validate_age a = Raise e <-> int_ a = Raise e /\ e <> ValueError).
Proof.
  pose proof (validate_age_cases a) as Hcases.
  destruct (int_ a) as [n|e] eqn:Hint.
  - rewrite Hcases. pose proof (in_range_iff n) as Hr.
    destruct (Z.leb 5 n && Z.leb n 100) eqn:Hb.
    + assert (5 <= n <= 100)%Z as Hn by now apply Hr.
      split; [|split].
      * split; [intros _; now exists n | reflexivity].
      * split; [discriminate|].
        intros [(n' & Hn' & Hout) | H]; [|discriminate].
        injection Hn' as <-. contradiction.
      * intros e. split; [discriminate | intros [H _]; discriminate].
    + assert (~ (5 <= n <= 100)%Z) as Hn.
      { intros H. apply Hr in H. discriminate. }
      split; [|split].
      * split; [discriminate|].
        intros (n' & Hn' & Hin). injection Hn' as <-. contradiction.
      * split; [intros _; left; now exists n | reflexivity].
      * intros e. split; [discriminate | intros [H _]; discriminate].
  - destruct Hcases as [[-> ->] | [Hne ->]].
    + split; [|split].
      * split; [discriminate | intros (n & Hn & _); discriminate].
      * split; [intros _; now right | reflexivity].
      * intros e. split; [discriminate | intros [H He]; congruence].
    + split; [|split].
      * split; [discriminate | intros (n & Hn & _); discriminate].
      * split; [discriminate|].
        intros [(n & Hn & _) | H]; [discriminate | congruence].
      * intros e'. split.
        -- intros H. injection H as <-. now split.
        -- intros [H _]. now injection H as <-.
Qed.

(** C2 as the specification words it fails at [None]: the coercion fails
    and [validate_age] does not answer false, it raises [TypeError]. *)
Lemma C2_counterexample_none :
  (exists e, int_ VNone = Raise e) /\
  validate_age VNone <> Ok false /\
  validate_age VNone = Raise TypeError.
Proof.
  split; [now exists TypeError|]. split; [discriminate | reflexivity].
Qed.

(** C3: for every string [v], [validate_email v] is true exactly when [v]
    matches the pattern, and false otherwise: nothing else is checked.  A
    match is a local part, one [@], a domain, a dot and a final segment of
    at least two letters, up to the end of the line. *)
Theorem C3_validate_email_matches_pattern (v : pystr) :
  (validate_email (VStr v) = Ok true <-> Re.matches email_pattern v) /\
  (validate_email (VStr v) = Ok false <-> ~ Re.matches email_pattern v) /\
  (Re.matches email_pattern v <-> Shape.email_line v) /\
  validate_email (VStr (lit "student@example.com")) = Ok true /\
  validate_email (VStr (lit "bad-email")) = Ok false /\
  validate_email (VStr (lit "a@b")) = Ok false.
Proof.
  destruct (result_bool_cases _ _ (validate_email_result v)) as [Ht Hf].
  split; [exact Ht|]. split; [exact Hf|].
  split; [apply Patterns.matches_email_iff|].
  repeat split; vm_compute; reflexivity.
Qed.

(** C4: for every string [g], [validate_grade g] is true exactly when the
    upper-cased [g] matches the pattern (a digit from 1 to 9, an optional
    digit, one upper-case letter), and false otherwise; [10a] is accepted,
    [0A], [100A] and [A10] are rejected. *)
Theorem C4_validate_grade_matches_pattern (g : pystr) :
  (validate_grade (VStr g) = Ok true <->
   Re.matches grade_pattern (Str.upper g)) /\
  (validate_grade (VStr g) = Ok false <->
   ~ Re.matches grade_pattern (Str.upper g)) /\
  (Re.matches grade_pattern (Str.upper g) <-> Shape.grade_line (Str.upper g)) /\
  validate_grade (VStr (lit "10a")) = Ok true /\
  validate_grade (VStr (lit "0A")) = Ok false /\
  validate_grade (VStr (lit "100A")) = Ok false /\
  validate_grade (VStr (lit "A10")) = Ok false.
Proof.
  destruct (result_bool_cases _ _ (validate_grade_result g)) as [Ht Hf].
  split; [exact Ht|]. split; [exact Hf|].
  split; [apply Patterns.matches_grade_iff|].
  repeat split; vm_compute; reflexivity.
Qed.

(** C5: a submission runs the four checks whatever the outcome of the
    earlier ones, in the add form and in the update form alike: the error
    list holds the message of a field exactly when that field is invalid,
    each once and nothing else, so its length is the number of invalid
    fields; and it is this list that the form reports: a submitted add
    form with an invalid field reports it, and so does a submitted update
    form once the form of the selected student is drawn (the age of that
    student fits the number input and its performance is a choice of the
    select box); the update form reports no other list. *)
Theorem C5_all_field_errors_collected (f : Form) :
  exists (name_ok age_ok email_ok grade_ok : bool) (errors : list string),
    (name_ok = true <-> Str.strip (f_name f) <> []) /\
    (age_ok = true <-> (5 <= f_age f <= 100)%Z) /\
    (email_ok = true <-> Re.matches email_pattern (f_email f)) /\
    (grade_ok = true <-> Re.matches grade_pattern (Str.upper (f_grade f))) /\
    add_validation f = Ok errors /\
    update_validation f = Ok errors /\
    (In name_message errors <-> name_ok = false) /\
    (In age_message errors <-> age_ok = false) /\
    (In email_message errors <-> email_ok = false) /\
    (In grade_message errors <-> grade_ok = false) /\
    NoDup errors /\
    incl errors [name_message; age_message; email_message; grade_message] /\
    List.length errors
    = List.length (filter negb [name_ok; age_ok; email_ok; grade_ok]) /\
    (forall generate_student_id m,
        submitted f = true -> errors <> [] ->
        show_add_student_form generate_student_id m f = Ok (Add_errors errors)) /\
    (forall m choice k s,
        selectbox (map fst (student_options (StudentManager.get_all_students m)))
                  choice = Some k ->
        dict_get k (student_options (StudentManager.get_all_students m)) = Ok s ->
        (5 <= age s <= 100)%Z ->
        In (performance s) performance_options ->
        submitted f = true -> errors <> [] ->
        show_update_student_form m choice f = Ok (Update_errors errors)) /\
    (forall m choice reported,
        show_update_student_form m choice f = Ok (Update_errors reported) ->
        reported = errors /\ reported <> []).
Proof.
  destruct (FormFacts.validations f)
    as (be & bg & He & Hbe & Hg & Hbg & Hadd & Hupd).
  exists (Str.truthy (Str.strip (f_name f))),
    (Z.leb 5 (f_age f) && Z.leb (f_age f) 100), be, bg.
  eexists.
  split; [apply FormFacts.truthy_true_iff|].
  split; [apply in_range_iff|].
  split; [exact Hbe|]. split; [exact Hbg|].
  split; [exact Hadd|]. split; [exact Hupd|].
  split; [apply FormFacts.name_message_in|].
  split; [apply FormFacts.age_message_in|].
  split; [apply FormFacts.email_message_in|].
  split; [apply FormFacts.grade_message_in|].
  split; [apply FormFacts.messages_NoDup|].
  split; [apply FormFacts.messages_incl|].
  split; [apply FormFacts.messages_length|].
  split; [|split].
  - intros gen m Hs Hne. unfold show_add_student_form.
    rewrite Hs, Hadd. simpl.
    destruct (messages _ _ _ _); [congruence | reflexivity].
  - intros m choice k s Hsel Hget Hage Hperf Hs Hne.
    unfold show_update_student_form.
    destruct (StudentManager.get_all_students m) as [|s0 students].
    { destruct choice; discriminate. }
    rewrite Hsel.
    assert (Str.truthy k = true) as Hk.
    { apply nth_error_In in Hsel.
      rewrite SelectFacts.student_options_eq in Hsel.
      apply SelectFacts.options_keys in Hsel as (s' & _ & <-).
      apply OptionFacts.label_truthy. }
    rewrite Hk, Hget. cbn [bind].
    apply SelectFacts.number_input_ok in Hage. rewrite Hage. cbn [bind].
    apply SelectFacts.list_index_In in Hperf as (i & Hi). rewrite Hi.
    cbn [bind]. rewrite Hs, Hupd. cbn [bind].
    destruct (messages _ _ _ _); [congruence | reflexivity].
  - intros m choice reported. unfold show_update_student_form.
    destruct (StudentManager.get_all_students m) as [|s0 students];
      [discriminate|].
    destruct (selectbox _ choice) as [selected|]; [|discriminate].
    destruct (Str.truthy selected); [|discriminate].
    destruct (dict_get _ _) as [selected_student|]; [|discriminate].
    cbn [bind]. destruct (number_input _ _ _); [|discriminate].
    cbn [bind]. destruct (list_index _ _); [|discriminate].
    cbn [bind]. destruct (submitted f); [|discriminate].
    rewrite Hupd. cbn [bind int_].
    destruct (messages _ _ _ _) as [|e errors].
    + destruct (StudentManager.update_student _ _ _) as [[] m'']; discriminate.
    + intros H. injection H as <-. split; [reflexivity | discriminate].
Qed.

(** C6: the add path strips the name and the e-mail but stores the
    upper-cased grade as it is, so the final newline that [validate_grade]
    lets through is kept: the submission whose grade is [9z] followed by a
    newline passes the four checks, and the record it inserts has a grade
    that is not one or two digits followed by an upper-case letter.  In
    every record the add path constructs, the error list was empty, the
    name is the stripped input and is not empty, the age is the integer
    input and lies between 5 and 100, the e-mail is the stripped input and
    a well-formed address, the performance is the selection, and the grade
    is the upper-cased input: well-formed, or well-formed but for one final
    newline. *)
Theorem C6_grade_keeps_final_newline :
  (add_validation newline_form = Ok [] /\
   show_add_student_form next_id [alice; bob] newline_form
   = Ok (Add_success dan [alice; bob; dan]) /\
   grade dan = Str.upper (f_grade newline_form) /\
   grade dan = lit "9Z" ++ [Shape.newline] /\
   ~ Shape.grade (grade dan)) /\
  (forall (generate_student_id : StudentManager.t -> pystr)
          (m : StudentManager.t) (f : Form) (outcome : add_outcome)
          (s : Student),
      show_add_student_form generate_student_id m f = Ok outcome ->
      constructed outcome = Some s ->
      add_validation f = Ok [] /\
      (name s = Str.strip (f_name f) /\ name s <> []) /\
      (age s = f_age f /\ (5 <= age s <= 100)%Z) /\
      (email s = Str.strip (f_email f) /\ Shape.email (email s)) /\
      performance s = f_performance f /\
      student_id s = generate_student_id m /\
      grade s = Str.upper (f_grade f) /\
      (Shape.grade (grade s) \/
       exists g, Shape.grade g /\ grade s = g ++ [Shape.newline]) /\
      (forall m', outcome = Add_success s m' -> m' = m ++ [s])).
Proof.
  split.
  { split; [vm_compute; reflexivity|]. split; [vm_compute; reflexivity|].
    split; [vm_compute; reflexivity|]. split; [vm_compute; reflexivity|].
    intros (d & ds & l & Heq & _ & Hds & Hl).
    vm_compute in Heq. injection Heq as <- Heq.
    destruct Hds as [-> | (e & -> & He)].
    - discriminate.
    - injection Heq as <- _. discriminate. }
  intros generate_student_id m f outcome s Hform Hs.
  destruct (FormFacts.validations f)
    as (be & bg & He & Hbe & Hg & Hbg & Hadd & Hupd).
  unfold show_add_student_form in Hform. rewrite Hadd in Hform.
  destruct (submitted f).
  2:{ injection Hform as <-. discriminate. }
  simpl in Hform.
  destruct (messages _ _ _ _) as [|e errors] eqn:Hm.
  2:{ injection Hform as <-. discriminate. }
  apply FormFacts.messages_nil in Hm as (Hn & Ha & -> & ->).
  assert (s = mkStudent (generate_student_id m) (Str.strip (f_name f)) (f_age f)
                (Str.upper (f_grade f)) (Str.strip (f_email f))
                (f_performance f) /\
          (forall m', outcome = Add_success s m' -> m' = m ++ [s])) as [-> Hins].
  { unfold StudentManager.add_student in Hform.
    destruct (StudentManager.has_id _ _); injection Hform as <-;
      injection Hs as <-; split; auto.
    - intros m' H. discriminate.
    - intros m' H. now injection H as <-. }
  simpl.
  split; [rewrite Hadd; reflexivity|].
  split; [split; [reflexivity|]|].
  { intros H. apply truthy_false_iff in H. congruence. }
  split; [split; [reflexivity | now apply in_range_iff]|].
  split; [split; [reflexivity|]|].
  { apply StripFacts.strip_email_line, Patterns.matches_email_iff.
    now apply Hbe. }
  split; [reflexivity|]. split; [reflexivity|]. split; [reflexivity|].
  split; [|assumption].
  assert (Shape.grade_line (Str.upper (f_grade f))) as (g & tail & Heq & Hshape & Hend).
  { apply Patterns.matches_grade_iff. now apply Hbg. }
  destruct Hend as [-> | ->].
  - left. rewrite Heq, app_nil_r. exact Hshape.
  - right. exists g. split; [exact Hshape | exact Heq].
Qed.

(** C7: a submission of the update form that reaches [update_student]
    passes the five editable fields, [name], [age], [grade], [email] and
    [performance], and no [student_id]; the identifiers of the collection
    are the same after the update. *)
Theorem C7_update_passes_five_fields
    (m : StudentManager.t) (choice : nat) (f : Form) (outcome : update_outcome)
    (sid : pystr) (update_data : list (string * value)) :
  show_update_student_form m choice f = Ok outcome ->
  update_call outcome = Some (sid, update_data) ->
  update_data =
    [("name"%string, VStr (Str.strip (f_name f)));
     ("age"%string, VInt (f_age f));
     ("grade"%string, VStr (Str.upper (f_grade f)));
     ("email"%string, VStr (Str.strip (f_email f)));
     ("performance"%string, VStr (f_performance f))] /\
  map fst update_data = ["name"; "age"; "grade"; "email"; "performance"]%string /\
  ~ In "student_id"%string (map fst update_data) /\
  (forall m', outcome = Update_success sid update_data m' ->
              map student_id m' = map student_id m /\
              In sid (map student_id m')).
Proof.
  unfold show_update_student_form.
  destruct (StudentManager.get_all_students m) as [|s0 students] eqn:Hall.
  { intros H. injection H as <-. discriminate. }
  destruct (selectbox _ choice) as [selected|].
  2:{ intros H. injection H as <-. discriminate. }
  destruct (Str.truthy selected).
  2:{ intros H. injection H as <-. discriminate. }
  destruct (dict_get _ _) as [selected_student|e].
  2:{ discriminate. }
  cbn [bind]. destruct (number_input _ _ _); [|discriminate].
  cbn [bind]. destruct (list_index _ _); [|discriminate].
  cbn [bind]. destruct (submitted f).
  2:{ intros H. injection H as <-. discriminate. }
  destruct (update_validation f) as [errors|e]; [|discriminate].
  cbn [bind int_]. destruct errors as [|e errors].
  2:{ intros H. injection H as <-. discriminate. }
  unfold StudentManager.update_student.
  destruct (StudentManager.has_id m (student_id selected_student)) eqn:Hid;
    intros H; injection H as <-; intros H; injection H as <- <-.
  - split; [reflexivity|]. split; [reflexivity|]. split.
    + simpl. intuition discriminate.
    + intros m' H. injection H as <-.
      rewrite ManagerFacts.update_record_ids. split; [reflexivity|].
      now apply ManagerFacts.has_id_In.
  - split; [reflexivity|]. split; [reflexivity|]. split.
    + simpl. intuition discriminate.
    + intros m' H. discriminate.
Qed.

(** C7 at an update of the first of two records. *)
Lemma C7_witness_alice :
  show_update_student_form [alice; bob] 0 carol_form
  = Ok (Update_success (lit "S001") carol_update_data [alice_updated; bob]) /\
  update_call (Update_success (lit "S001") carol_update_data [alice_updated; bob])
  = Some (lit "S001", carol_update_data) /\
  (carol_update_data =
     [("name"%string, VStr (Str.strip (f_name carol_form)));
      ("age"%string, VInt (f_age carol_form));
      ("grade"%string, VStr (Str.upper (f_grade carol_form)));
      ("email"%string, VStr (Str.strip (f_email carol_form)));
      ("performance"%string, VStr (f_performance carol_form))] /\
   map fst carol_update_data
   = ["name"; "age"; "grade"; "email"; "performance"]%string /\
   ~ In "student_id"%string (map fst carol_update_data) /\
   (forall m',
       Update_success (lit "S001") carol_update_data [alice_updated; bob]
       = Update_success (lit "S001") carol_update_data m' ->
       map student_id m' = map student_id [alice; bob] /\
       In (lit "S001") (map student_id m'))).
Proof.
  assert (show_update_student_form [alice; bob] 0 carol_form
          = Ok (Update_success (lit "S001") carol_update_data [alice_updated; bob]))
    as H1 by (vm_compute; reflexivity).
  assert (update_call
            (Update_success (lit "S001") carol_update_data [alice_updated; bob])
          = Some (lit "S001", carol_update_data)) as H2 by reflexivity.
  exact (conj H1 (conj H2
           (C7_update_passes_five_fields [alice; bob] 0 carol_form
              (Update_success (lit "S001") carol_update_data [alice_updated; bob])
              (lit "S001") carol_update_data H1 H2))).
Defined.

(** C8: on every string each validator returns a boolean and raises
    nothing; the coercion of a string fails with [ValueError] only, and
    [validate_age] then answers false. *)
Theorem C8_validators_total_on_strings (s : pystr) :
  (exists b, validate_email (VStr s) = Ok b) /\
  (exists b, validate_age (VStr s) = Ok b) /\
  (exists b, validate_grade (VStr s) = Ok b) /\
  match int_ (VStr s) with
  | Ok n => validate_age (VStr s) = Ok (Z.leb 5 n && Z.leb n 100)
  | Raise e => e = ValueError /\ validate_age (VStr s) = Ok false
  end.
Proof.
  destruct (validate_email_result s) as (b1 & H1 & _).
  destruct (validate_grade_result s) as (b3 & H3 & _).
  split; [now exists b1|].
  rewrite validate_age_unfold.
  destruct (int_str_result s) as [(n & Hn) | Hn]; rewrite Hn.
  - split; [now eexists|]. split; [now exists b3 | reflexivity].
  - split; [now exists false|]. split; [now exists b3 | now split].
Qed.

(** C9 (as amended): [validate_grade] gives the same answer on [g] and on
    [g.upper()] for every string [g], and the same answer on [g.lower()]
    for every string [g] without Kelvin sign (in particular for every ASCII
    string). *)
Theorem C9_validate_grade_case_invariant (g : pystr) :
  validate_grade (VStr (Str.upper g)) = validate_grade (VStr g) /\
  (~ In Unicode.kelvin_sign g ->
   validate_grade (VStr (Str.lower g)) = validate_grade (VStr g)).
Proof.
  split.
  - unfold validate_grade. now rewrite CaseFacts.upper_upper.
  - intros Hk.
    apply (CaseFacts.result_bool_eq _ _ _ _
             (validate_grade_result (Str.lower g)) (validate_grade_result g)).
    rewrite !Patterns.matches_grade_iff.
    now apply CaseFacts.grade_line_lower.
Qed.

(** C9 as the specification words it fails at a digit followed by the
    Kelvin sign: the text is rejected, its lower-case form [1k] is accepted. *)
Lemma C9_counterexample_kelvin :
  Str.lower [ch "1"; Unicode.kelvin_sign] = lit "1k" /\
  Str.upper [ch "1"; Unicode.kelvin_sign] = [ch "1"; Unicode.kelvin_sign] /\
  validate_grade (VStr [ch "1"; Unicode.kelvin_sign]) = Ok false /\
  validate_grade (VStr (Str.lower [ch "1"; Unicode.kelvin_sign])) = Ok true /\
  validate_grade (VStr [ch "1"; Unicode.kelvin_sign]) <>
  validate_grade (VStr (Str.lower [ch "1"; Unicode.kelvin_sign])).
Proof.
  repeat split; try (vm_compute; reflexivity).
  vm_compute. discriminate.
Qed.

(** C9 at an ASCII grade. *)
Lemma C9_witness_lower_case :
  ~ In Unicode.kelvin_sign (lit "10a") /\
  validate_grade (VStr (Str.lower (lit "10a"))) = validate_grade (VStr (lit "10a")).
Proof.
  assert (~ In Unicode.kelvin_sign (lit "10a")) as H
    by (vm_compute; intuition discriminate).
  exact (conj H (proj2 (C9_validate_grade_case_invariant (lit "10a")) H)).
Defined.

(** C10: [$] also matches just before a final newline: a well-formed
    address followed by one newline is accepted by [validate_email], and a
    well-formed grade followed by one newline by [validate_grade]. *)
Theorem C10_trailing_newline_accepted :
  (exists e, Shape.email e /\
             validate_email (VStr (e ++ [Shape.newline])) = Ok true) /\
  (exists g, Shape.grade g /\
             validate_grade (VStr (g ++ [Shape.newline])) = Ok true) /\
  validate_email (VStr (lit "student@example.com" ++ [Shape.newline])) = Ok true /\
  validate_grade (VStr (lit "10A" ++ [Shape.newline])) = Ok true /\
  validate_email (VStr (lit "student@example.com" ++ [Shape.newline; Shape.newline]))
  = Ok false.
Proof.
  split; [|split].
  - exists (lit "student@example.com"). split; [apply example_email_shape|].
    apply validate_email_accepts, email_line_of_email.
    + apply example_email_shape.
    + now right.
  - exists (lit "10A"). split; [apply example_grade_shape|].
    vm_compute. reflexivity.
  - repeat split; vm_compute; reflexivity.
Qed.

(** * Further properties *)

(** X1: [validate_grade] accepts exactly the inputs made of a digit from 1
    to 9, an optional digit, one letter and an optional final newline,
    where the letter is an ASCII letter of either case, the dotless i
    (U+0131) or the long s (U+017F), whose upper-case forms are [I] and
    [S]. *)
Theorem validate_grade_accepts_exactly (g : pystr) :
  validate_grade (VStr g) = Ok true <-> Accepted.grade_input g.
Proof.
  destruct (result_bool_cases _ _ (validate_grade_result g)) as [Ht _].
  rewrite Ht, Patterns.matches_grade_iff. split.
  - apply GradeMore.upper_grade_input.
  - apply GradeMore.grade_input_upper.
Qed.

(** X2: an input that [validate_email] accepts holds exactly one [@] and
    ASCII code points only; stripped, it has six code points or more and
    no white space, and it differs from the input by a final newline at
    most. *)
Theorem accepted_email_is_plain (s : pystr) :
  validate_email (VStr s) = Ok true ->
  count_occ N.eq_dec s (ch "@") = 1 /\
  Forall (fun c => Unicode.is_ascii c = true) s /\
  6 <= List.length (Str.strip s) /\
  Forall plain (Str.strip s) /\
  (s = Str.strip s \/ s = Str.strip s ++ [Shape.newline]).
Proof.
  intros H.
  apply (result_bool_cases _ _ (validate_email_result s)) in H.
  apply Patterns.matches_email_iff in H as (e & tail & -> & He & Htail).
  rewrite (EmailMore.strip_email_line_eq e tail He Htail).
  destruct (EmailMore.email_facts e He) as (Hplain & Hcount & Hlen).
  assert (Forall (fun c => Unicode.is_ascii c = true) e) as Hascii.
  { eapply Forall_impl; [|exact Hplain]. now intros c [Hc _]. }
  unfold pystr, cp in *.
  split; [|split; [|split; [|split]]]; auto.
  - rewrite count_occ_app, Hcount. now destruct Htail as [-> | ->].
  - apply Forall_app. split; [assumption|].
    destruct Htail as [-> | ->]; repeat constructor.
  - destruct Htail as [-> | ->]; [left; now rewrite app_nil_r | now right].
Qed.

Lemma accepted_email_witness :
  validate_email (VStr (lit "student@example.com" ++ [Shape.newline])) = Ok true /\
  (count_occ N.eq_dec (lit "student@example.com" ++ [Shape.newline]) (ch "@") = 1 /\
   Forall (fun c => Unicode.is_ascii c = true)
          (lit "student@example.com" ++ [Shape.newline]) /\
   6 <= List.length (Str.strip (lit "student@example.com" ++ [Shape.newline])) /\
   Forall plain (Str.strip (lit "student@example.com" ++ [Shape.newline])) /\
   (lit "student@example.com" ++ [Shape.newline]
    = Str.strip (lit "student@example.com" ++ [Shape.newline]) \/
    lit "student@example.com" ++ [Shape.newline]
    = Str.strip (lit "student@example.com" ++ [Shape.newline]) ++ [Shape.newline])).
Proof.
  assert (validate_email (VStr (lit "student@example.com" ++ [Shape.newline]))
          = Ok true) as H by (vm_compute; reflexivity).
  exact (conj H (accepted_email_is_plain _ H)).
Defined.

(** X3: [validate_age] truncates a float toward zero before the range
    check: a positive finite float [m * 2^e] is accepted exactly when
    [5 <= m * 2^e < 101]; a zero, a negative float and a NaN are rejected;
    an infinity raises [OverflowError]. *)
Theorem validate_age_truncates_floats (f : spec_float) :
  match f with
  | S754_infinity _ => validate_age (VFloat f) = Raise OverflowError
  | S754_nan => validate_age (VFloat f) = Ok false
  | S754_zero _ => validate_age (VFloat f) = Ok false
  | S754_finite true _ _ => validate_age (VFloat f) = Ok false
  | S754_finite false m e =>
      (exists b, validate_age (VFloat f) = Ok b) /\
      (validate_age (VFloat f) = Ok true <->
       if (0 <=? e)%Z
       then (5 <= Z.pos m * 2 ^ e <= 100)%Z
       else (5 * 2 ^ (- e) <= Z.pos m < 101 * 2 ^ (- e))%Z)
  end.
Proof.
  destruct f as [s | s | | [] m e]; try reflexivity.
  - pose (mag := if (0 <=? e)%Z then (Z.pos m * 2 ^ e)%Z
                 else (Z.pos m / 2 ^ (- e))%Z).
    assert (0 <= mag)%Z as Hmag.
    { unfold mag. destruct (0 <=? e)%Z eqn:He.
      - apply Z.mul_nonneg_nonneg; [lia|]. apply Z.pow_nonneg. lia.
      - apply Z.leb_gt in He.
        apply Z.div_pos; [lia|]. apply Z.pow_pos_nonneg; lia. }
    assert (int_ (VFloat (S754_finite true m e)) = Ok (- mag)%Z) as Hint
      by reflexivity.
    rewrite validate_age_unfold, Hint. clear Hint. clearbody mag. f_equal.
    apply Bool.andb_false_iff. left. apply Z.leb_gt. lia.
  - pose (mag := if (0 <=? e)%Z then (Z.pos m * 2 ^ e)%Z
                 else (Z.pos m / 2 ^ (- e))%Z).
    assert (int_ (VFloat (S754_finite false m e)) = Ok mag) as Hint
      by reflexivity.
    rewrite validate_age_unfold, Hint. split; [now eexists|].
    assert (Ok (Z.leb 5 mag && Z.leb mag 100) = Ok true <->
            (5 <= mag <= 100)%Z) as ->.
    { rewrite <- in_range_iff.
      split; [intros H; now injection H | now intros ->]. }
    unfold mag. destruct (0 <=? e)%Z eqn:He; [reflexivity|].
    apply Z.leb_gt in He. apply RangeFacts.div_range.
    apply Z.pow_pos_nonneg; lia.
Qed.

(** X4: a submission of the add form never raises; it constructs a record
    exactly when the four fields are valid and reports a non-empty error
    list exactly when one of them is not; a form that is not submitted does
    nothing. *)
Theorem add_form_outcome (generate_student_id : StudentManager.t -> pystr)
    (m : StudentManager.t) (f : Form) :
  exists outcome,
    show_add_student_form generate_student_id m f = Ok outcome /\
    if submitted f then
      ((exists s, constructed outcome = Some s) <-> all_valid f) /\
      ((exists errors, outcome = Add_errors errors /\ errors <> [])
       <-> ~ all_valid f)
    else outcome = Add_idle.
Proof.
  destruct (submitted f) eqn:Hs.
  - destruct (SubmitFacts.add_form_cases generate_student_id m f Hs)
      as [(Hv & _ & outcome & Hout & Hc) | (Hv & errors & Hne & _ & Hout)].
    + exists outcome. split; [exact Hout|]. split; split.
      * intros _. exact Hv.
      * intros _. eexists. exact Hc.
      * intros (errors & -> & _). discriminate.
      * intros H. now elim H.
    + exists (Add_errors errors). split; [exact Hout|]. split; split.
      * intros (s & Hc). discriminate.
      * intros H. now elim Hv.
      * intros _. exact Hv.
      * intros _. exists errors. now split.
  - exists Add_idle. unfold show_add_student_form. rewrite Hs. now split.
Qed.

(** X5: the record the add path constructs holds clean fields: the name
    starts and ends with a code point that is not white space; the email
    is ASCII without white space, with exactly one [@] and six code points
    or more; the grade is ASCII, of two to four code points, and is its own
    upper-case form. *)
Theorem stored_fields_are_clean
    (generate_student_id : StudentManager.t -> pystr)
    (m : StudentManager.t) (f : Form) (outcome : add_outcome) (s : Student) :
  show_add_student_form generate_student_id m f = Ok outcome ->
  constructed outcome = Some s ->
  (exists c rest, name s = c :: rest /\ Unicode.isspace c = false) /\
  (exists front c, name s = front ++ [c] /\ Unicode.isspace c = false) /\
  Forall plain (email s) /\
  count_occ N.eq_dec (email s) (ch "@") = 1 /\
  6 <= List.length (email s) /\
  forallb Unicode.is_ascii (grade s) = true /\
  2 <= List.length (grade s) <= 4 /\
  Str.upper (grade s) = grade s.
Proof.
  intros Hform Hs.
  destruct (SubmitFacts.constructed_student _ _ _ _ _ Hform Hs)
    as ((Hn & Ha & He & Hg) & ->).
  simpl.
  destruct (StripMore.strip_clean (f_name f)) as [Hstart Hend].
  destruct (RoundTrip.stripped_email _ He) as [Hemail _].
  destruct (EmailMore.email_facts _ Hemail) as (Hplain & Hcount & Hlen).
  apply Patterns.matches_grade_iff in Hg.
  split; [now apply StripMore.starts_clean_cons|].
  split; [now apply StripMore.ends_clean_last|].
  split; [assumption|]. split; [assumption|]. split; [assumption|].
  split; [now apply CaseFacts.grade_line_ascii|].
  split; [now apply RangeFacts.grade_line_length|].
  apply CaseFacts.upper_upper.
Qed.

Lemma stored_fields_witness :
  show_add_student_form next_id [alice; bob] carol_form
  = Ok (Add_success carol [alice; bob; carol]) /\
  constructed (Add_success carol [alice; bob; carol]) = Some carol /\
  ((exists c rest, name carol = c :: rest /\ Unicode.isspace c = false) /\
   (exists front c, name carol = front ++ [c] /\ Unicode.isspace c = false) /\
   Forall plain (email carol) /\
   count_occ N.eq_dec (email carol) (ch "@") = 1 /\
   6 <= List.length (email carol) /\
   forallb Unicode.is_ascii (grade carol) = true /\
   2 <= List.length (grade carol) <= 4 /\
   Str.upper (grade carol) = grade carol).
Proof.
  assert (show_add_student_form next_id [alice; bob] carol_form
          = Ok (Add_success carol [alice; bob; carol])) as H1
    by (vm_compute; reflexivity).
  assert (constructed (Add_success carol [alice; bob; carol]) = Some carol) as H2
    by reflexivity.
  exact (conj H1 (conj H2
           (stored_fields_are_clean next_id [alice; bob] carol_form
              (Add_success carol [alice; bob; carol]) carol H1 H2))).
Defined.

(** X6: a record the add path has constructed, shown in the update form
    and submitted without an edit, passes the validation, and the keyword
    arguments of the update are its own field values: the conversions of
    the forms ([strip], [upper]) change nothing the second time. *)
Theorem stored_record_revalidates
    (generate_student_id : StudentManager.t -> pystr)
    (m : StudentManager.t) (f : Form) (outcome : add_outcome) (s : Student) :
  show_add_student_form generate_student_id m f = Ok outcome ->
  constructed outcome = Some s ->
  update_validation (prefill s) = Ok [] /\
  add_validation (prefill s) = Ok [] /\
  update_data_of_form (prefill s) =
    [("name"%string, VStr (name s));
     ("age"%string, VInt (age s));
     ("grade"%string, VStr (grade s));
     ("email"%string, VStr (email s));
     ("performance"%string, VStr (performance s))] /\
  (forall m2 choice outcome2 sid update_data,
      show_update_student_form m2 choice (prefill s) = Ok outcome2 ->
      update_call outcome2 = Some (sid, update_data) ->
      update_data = update_data_of_form (prefill s)).
Proof.
  intros Hform Hs.
  destruct (SubmitFacts.constructed_student _ _ _ _ _ Hform Hs) as (Hv & ->).
  destruct (RoundTrip.student_of_form_fixed (generate_student_id m) f Hv)
    as (Hname & Hgrade & Hemail & Hv').
  destruct (RoundTrip.valid_validations _ Hv') as [Hadd Hupd].
  split; [exact Hupd|]. split; [exact Hadd|]. split.
  - unfold update_data_of_form, prefill. cbn [f_name f_age f_grade f_email
      f_performance]. now rewrite Hname, Hgrade, Hemail.
  - intros m2 choice outcome2 sid update_data H1 H2.
    now destruct (SubmitFacts.update_call_data _ _ _ _ _ _ H1 H2).
Qed.

Lemma stored_record_witness :
  show_add_student_form next_id [alice; bob] carol_form
  = Ok (Add_success carol [alice; bob; carol]) /\
  constructed (Add_success carol [alice; bob; carol]) = Some carol /\
  (update_validation (prefill carol) = Ok [] /\
   add_validation (prefill carol) = Ok [] /\
   update_data_of_form (prefill carol) =
     [("name"%string, VStr (name carol));
      ("age"%string, VInt (age carol));
      ("grade"%string, VStr (grade carol));
      ("email"%string, VStr (email carol));
      ("performance"%string, VStr (performance carol))] /\
   (forall m2 choice outcome2 sid update_data,
       show_update_student_form m2 choice (prefill carol) = Ok outcome2 ->
       update_call outcome2 = Some (sid, update_data) ->
       update_data = update_data_of_form (prefill carol))).
Proof.
  assert (show_add_student_form next_id [alice; bob] carol_form
          = Ok (Add_success carol [alice; bob; carol])) as H1
    by (vm_compute; reflexivity).
  assert (constructed (Add_success carol [alice; bob; carol]) = Some carol) as H2
    by reflexivity.
  exact (conj H1 (conj H2
           (stored_record_revalidates next_id [alice; bob] carol_form
              (Add_success carol [alice; bob; carol]) carol H1 H2))).
Defined.

(** X7: the options of the update and delete select boxes are the labels
    of the students, each once: every student is offered under its label,
    every option is the label of a student, no option is empty, and the two
    forms offer the same options. *)
Theorem select_options_are_labels (students : list Student) :
  NoDup (map fst (student_options students)) /\
  (forall k, In k (map fst (student_options students)) <->
             exists s, In s students /\ option_label s = k) /\
  (forall k, In k (map fst (student_options students)) -> Str.truthy k = true) /\
  List.length (map fst (student_options students)) <= List.length students /\
  map fst (options_of student_id students) = map fst (student_options students).
Proof.
  rewrite SelectFacts.student_options_eq.
  assert (forall k, In k (map fst (options_of (fun s : Student => s) students)) <->
                    exists s, In s students /\ option_label s = k) as Hkeys
    by (intros k; apply SelectFacts.options_keys).
  split; [apply SelectFacts.options_NoDup|]. split; [exact Hkeys|]. split; [|split].
  - intros k Hk. apply Hkeys in Hk as (s & _ & <-).
    apply OptionFacts.label_truthy.
  - rewrite <- (length_map option_label students).
    apply NoDup_incl_length; [apply SelectFacts.options_NoDup|].
    intros k Hk. apply Hkeys in Hk as (s & Hs & <-). now apply in_map.
  - apply SelectFacts.options_keys_same.
Qed.

(** X8: an option selects the last student that carries it as label, in the
    update form and, by its id, in the delete form; a text that is the
    label of no student raises [KeyError]. *)
Theorem selected_student_is_last_labelled (students : list Student) (k : pystr) :
  (forall s,
      dict_get k (student_options students) = Ok s <->
      exists before after,
        students = before ++ s :: after /\ option_label s = k /\
        Forall (fun s' => option_label s' <> k) after) /\
  (dict_get k (student_options students) = Raise KeyError <->
   Forall (fun s => option_label s <> k) students) /\
  dict_get k (options_of student_id students) =
    (s <- dict_get k (student_options students) ;; Ok (student_id s)).
Proof.
  rewrite SelectFacts.student_options_eq, !SelectFacts.options_get.
  split; [|split].
  - intros s. rewrite <- OptionFacts.last_labelled_spec.
    destruct (last_labelled k students); split; intros H;
      try discriminate; congruence.
  - rewrite <- OptionFacts.last_labelled_none.
    destruct (last_labelled k students); split; intros H;
      try discriminate; reflexivity.
  - now destruct (last_labelled k students).
Qed.

(** X9: a student whose label is also the label of a later student cannot
    be reached: no option of the update form selects it and no option of
    the delete form deletes its id.  Ids that differ do not prevent this:
    id [a] with name [: b] and id [a: ] with name [b] share a label. *)
Theorem shadowed_student_not_selectable
    (before mid after : list Student) (s1 s2 : Student) (k : pystr) :
  NoDup (map student_id (before ++ s1 :: mid ++ s2 :: after)) ->
  option_label s1 = option_label s2 ->
  dict_get k (student_options (before ++ s1 :: mid ++ s2 :: after)) <> Ok s1 /\
  dict_get k (options_of student_id (before ++ s1 :: mid ++ s2 :: after))
  <> Ok (student_id s1).
Proof.
  intros Hnd Hlabel.
  set (students := before ++ s1 :: mid ++ s2 :: after) in *.
  assert (last_labelled k students <> Some s1) as Hlast.
  { intros H. apply OptionFacts.last_labelled_spec in H
      as (before' & after' & Hsplit & Hk & Hafter).
    unfold students in Hsplit, Hnd.
    destruct (SelectFacts.split_unique s1 before _ before' after' Hnd Hsplit)
      as [_ <-].
    rewrite Forall_forall in Hafter.
    apply (Hafter s2); [|congruence].
    apply in_or_app. right. now left. }
  rewrite SelectFacts.student_options_eq, !SelectFacts.options_get.
  destruct (last_labelled k students) as [s|] eqn:Hs; [|split; discriminate].
  split; [congruence|]. intros H. injection H as H. apply Hlast. f_equal.
  apply OptionFacts.last_labelled_spec in Hs as (b' & a' & Hsplit & _ & _).
  apply (LabelFacts.NoDup_map_inj students); auto.
  - rewrite Hsplit. apply in_or_app. right. now left.
  - unfold students. apply in_or_app. right. now left.
Qed.

Lemma shadowed_student_witness :
  NoDup (map student_id ([] ++ shadowed :: [] ++ shadowing :: [])) /\
  option_label shadowed = option_label shadowing /\
  (dict_get (option_label shadowed)
     (student_options ([] ++ shadowed :: [] ++ shadowing :: [])) <> Ok shadowed /\
   dict_get (option_label shadowed)
     (options_of student_id ([] ++ shadowed :: [] ++ shadowing :: []))
   <> Ok (student_id shadowed)).
Proof.
  assert (NoDup (map student_id ([] ++ shadowed :: [] ++ shadowing :: [])))
    as H1.
  { repeat constructor; simpl; intuition discriminate. }
  assert (option_label shadowed = option_label shadowing) as H2
    by (vm_compute; reflexivity).
  exact (conj H1 (conj H2
           (shadowed_student_not_selectable [] [] [] shadowed shadowing
              (option_label shadowed) H1 H2))).
Defined.

(** X10: when the ids are unique and none holds the separator [: ], the
    labels are distinct: the options are the labels of the students in
    collection order, and the option at a position selects the student at
    that position for the update and its id for the delete. *)
Theorem unique_ids_select_by_position (m : StudentManager.t) :
  NoDup (map student_id m) ->
  Forall (fun s => Str.contains separator (student_id s) = false) m ->
  map fst (student_options m) = map option_label m /\
  forall i s,
    nth_error m i = Some s ->
    selectbox (map fst (student_options m)) i = Some (option_label s) /\
    dict_get (option_label s) (student_options m) = Ok s /\
    dict_get (option_label s) (options_of student_id m) = Ok (student_id s).
Proof.
  intros Hnd Hsep.
  pose proof (LabelFacts.labels_distinct m Hnd Hsep) as Hlabels.
  rewrite SelectFacts.student_options_eq.
  rewrite (SelectFacts.options_keys_distinct _ _ m Hlabels).
  split; [reflexivity|]. intros i s Hnth.
  rewrite !SelectFacts.options_get.
  rewrite (LabelFacts.nth_error_split_label m Hlabels i s Hnth).
  split; [|now split].
  unfold selectbox. now apply map_nth_error.
Qed.

Lemma unique_ids_witness :
  NoDup (map student_id [alice; bob]) /\
  Forall (fun s => Str.contains separator (student_id s) = false) [alice; bob] /\
  (map fst (student_options [alice; bob]) = map option_label [alice; bob] /\
   forall i s,
     nth_error [alice; bob] i = Some s ->
     selectbox (map fst (student_options [alice; bob])) i = Some (option_label s) /\
     dict_get (option_label s) (student_options [alice; bob]) = Ok s /\
     dict_get (option_label s) (options_of student_id [alice; bob])
     = Ok (student_id s)).
Proof.
  assert (NoDup (map student_id [alice; bob])) as H1.
  { repeat constructor; simpl; intuition discriminate. }
  assert (Forall (fun s => Str.contains separator (student_id s) = false)
                 [alice; bob]) as H2.
  { repeat constructor; vm_compute; reflexivity. }
  exact (conj H1 (conj H2 (unique_ids_select_by_position [alice; bob] H1 H2))).
Defined.

(** X11: the update form raises exactly when the form of the selected
    student cannot be drawn: when the age of that student lies outside 5
    to 100, the number input refuses it as its initial value; otherwise,
    when the performance of that student is not one of the four choices of
    the select box, [index] fails with [ValueError].  Either happens while
    the form is drawn, whether it is submitted or not.  Nothing else
    raises, a missing label included. *)
Theorem update_form_raises_iff
    (m : StudentManager.t) (choice : nat) (f : Form) (e : exn) :
  show_update_student_form m choice f = Raise e <->
  exists k s,
    selectbox (map fst (student_options m)) choice = Some k /\
    dict_get k (student_options m) = Ok s /\
    ((~ (5 <= age s <= 100)%Z /\ e = StreamlitAPIException) \/
     ((5 <= age s <= 100)%Z /\
      ~ In (performance s) performance_options /\ e = ValueError)).
Proof.
  pose proof (SelectFacts.update_form_selected m choice f) as H.
  destruct (selectbox (map fst (student_options m)) choice) as [k|].
  2:{ destruct H as (outcome & Hout & _). rewrite Hout.
      split; [discriminate|]. intros (k & s & Hk & _). discriminate. }
  destruct H as (s & Hget & _ & H).
  assert (forall P : Student -> Prop,
             (exists k' s', Some k = Some k' /\
                            dict_get k' (student_options m) = Ok s' /\ P s')
             <-> P s) as Hsel.
  { intros P. split.
    - intros (k' & s' & Hk & Hget' & HP). injection Hk as <-.
      rewrite Hget in Hget'. now injection Hget' as <-.
    - intros HP. now exists k, s. }
  rewrite Hsel. clear Hsel.
  destruct (number_input 5 100 (age s)) as [[]|e1] eqn:Hn.
  - apply SelectFacts.number_input_ok in Hn.
    destruct (list_index performance_options (performance s)) as [i|e0] eqn:Hi.
    + destruct H as (outcome & Hout & _). rewrite Hout.
      split; [discriminate|].
      intros [[Hage _] | (_ & Hnot & _)]; [now elim Hage|].
      elim Hnot. apply SelectFacts.list_index_In. now exists i.
    + destruct (SelectFacts.list_index_error _ _ _ Hi) as [-> Hnot].
      rewrite H. split.
      * intros He. injection He as <-. right. now split.
      * intros [[Hage _] | (_ & _ & ->)]; [now elim Hage | reflexivity].
  - destruct (SelectFacts.number_input_error _ _ _ _ Hn) as [-> Hage].
    rewrite H. split.
    + intros He. injection He as <-. left. now split.
    + intros [[_ ->] | (Hin & _)]; [reflexivity | now elim Hage].
Qed.

(** X12: when the performance of the selected student is one of the
    choices, the index the update form preselects is the first position of
    that performance in the list of choices. *)
Theorem performance_is_preselected (s : Student) :
  match list_index performance_options (performance s) with
  | Ok i =>
      selectbox performance_options i = Some (performance s) /\
      (forall j, j < i -> selectbox performance_options j <> Some (performance s)) /\
      In (performance s) performance_options
  | Raise e => e = ValueError /\ ~ In (performance s) performance_options
  end.
Proof.
  destruct (list_index performance_options (performance s)) as [i|e] eqn:Hi.
  - destruct (SelectFacts.list_index_first _ _ _ Hi) as [Hnth Hfirst].
    split; [exact Hnth|]. split; [exact Hfirst|].
    apply SelectFacts.list_index_In. now exists i.
  - now apply SelectFacts.list_index_error.
Qed.

(** X13: the id the update form passes to [update_student] is the id of
    the last student of the collection that carries the selected label,
    and the performance of that student is one of the four choices. *)
Theorem update_form_targets_selected
    (m : StudentManager.t) (choice : nat) (f : Form) (outcome : update_outcome)
    (sid : pystr) (update_data : list (string * value)) :
  show_update_student_form m choice f = Ok outcome ->
  update_call outcome = Some (sid, update_data) ->
  exists k s before after,
    selectbox (map fst (student_options m)) choice = Some k /\
    m = before ++ s :: after /\
    option_label s = k /\
    Forall (fun s' => option_label s' <> k) after /\
    sid = student_id s /\
    In (performance s) performance_options.
Proof.
  intros Hform Hcall.
  pose proof (SelectFacts.update_form_selected m choice f) as H.
  destruct (selectbox (map fst (student_options m)) choice) as [k|].
  - destruct H as (s & _ & Hlast & H).
    destruct (number_input 5 100 (age s)) as [[]|e1]; [|congruence].
    destruct (list_index performance_options (performance s)) as [i|e0] eqn:Hi.
    + destruct H as (outcome' & Hout & Hsid).
      rewrite Hout in Hform. injection Hform as ->.
      apply OptionFacts.last_labelled_spec in Hlast
        as (before & after & Hm & Hk & Hafter).
      exists k, s, before, after. repeat split; auto.
      * now apply (Hsid sid update_data).
      * apply SelectFacts.list_index_In. now exists i.
    + congruence.
  - destruct H as (outcome' & Hout & Hnone).
    rewrite Hout in Hform. injection Hform as ->. congruence.
Qed.

Lemma update_form_targets_witness :
  show_update_student_form [alice; bob] 0 carol_form
  = Ok (Update_success (lit "S001") carol_update_data [alice_updated; bob]) /\
  update_call (Update_success (lit "S001") carol_update_data [alice_updated; bob])
  = Some (lit "S001", carol_update_data) /\
  (exists k s before after,
      selectbox (map fst (student_options [alice; bob])) 0 = Some k /\
      [alice; bob] = before ++ s :: after /\
      option_label s = k /\
      Forall (fun s' => option_label s' <> k) after /\
      lit "S001" = student_id s /\
      In (performance s) performance_options).
Proof.
  assert (show_update_student_form [alice; bob] 0 carol_form
          = Ok (Update_success (lit "S001") carol_update_data [alice_updated; bob]))
    as H1 by (vm_compute; reflexivity).
  assert (update_call
            (Update_success (lit "S001") carol_update_data [alice_updated; bob])
          = Some (lit "S001", carol_update_data)) as H2 by reflexivity.
  exact (conj H1 (conj H2
           (update_form_targets_selected [alice; bob] 0 carol_form
              (Update_success (lit "S001") carol_update_data [alice_updated; bob])
              (lit "S001") carol_update_data H1 H2))).
Defined.

(** X14: the delete form never raises; it calls [delete_student] only when
    the button is pressed, and then with the id of the student the update
    form would edit under the same option, a student of the collection. *)
Theorem delete_form_targets_selected
    (m : StudentManager.t) (choice : nat) (confirm : bool) :
  exists outcome,
    show_delete_student_form m choice confirm = Ok outcome /\
    (m = [] -> outcome = Delete_no_students) /\
    (confirm = false -> delete_call outcome = None) /\
    (forall sid,
        delete_call outcome = Some sid ->
        confirm = true /\
        exists k s,
          selectbox (map fst (student_options m)) choice = Some k /\
          dict_get k (student_options m) = Ok s /\
          sid = student_id s /\ In s m).
Proof.
  unfold show_delete_student_form, StudentManager.get_all_students.
  destruct m as [|s0 m0].
  { exists Delete_no_students. repeat split; auto; discriminate. }
  set (m := s0 :: m0).
  rewrite (SelectFacts.options_keys_same _ _ student_id (fun s : Student => s) m).
  rewrite <- SelectFacts.student_options_eq.
  destruct (selectbox (map fst (student_options m)) choice) as [k|] eqn:Hsel.
  2:{ exists Delete_no_selection. repeat split; auto; discriminate. }
  assert (In k (map fst (student_options m))) as Hin
    by (eapply nth_error_In; exact Hsel).
  apply option_key_is_label in Hin as (s' & Hs' & Hk).
  assert (Str.truthy k = true) as Ht
    by (rewrite <- Hk; apply OptionFacts.label_truthy).
  rewrite Ht. destruct confirm.
  2:{ exists (Delete_warned k). repeat split; auto; discriminate. }
  rewrite SelectFacts.options_get.
  destruct (last_labelled k m) as [s|] eqn:Hlast.
  2:{ apply OptionFacts.last_labelled_none in Hlast.
      rewrite Forall_forall in Hlast. now elim (Hlast s' Hs'). }
  cbn [bind].
  assert (dict_get k (student_options m) = Ok s) as Hget.
  { rewrite SelectFacts.student_options_eq, SelectFacts.options_get.
    now rewrite Hlast. }
  assert (In s m) as Hs.
  { apply OptionFacts.last_labelled_spec in Hlast as (b & a & -> & _).
    apply in_or_app. right. now left. }
  destruct (StudentManager.delete_student m (student_id s)) as [[] m'];
    eexists; (split; [reflexivity|]); (split; [discriminate|]);
    (split; [discriminate|]); intros sid H; injection H as <-;
    (split; [reflexivity|]); now exists k, s.
Qed.

(** X15: the table shows nothing for an empty list.  For any other list
    the function ends in one of three ways: [st.dataframe] raises on the
    rows and its exception leaves the function; or the division of the sum
    of ages by the total overflows the floats and [OverflowError] leaves
    it; or the table is shown, with one row per student, a count of
    excellent students that is at most the total, and a number of different
    grades between one and the total, reaching the total when no two
    students share a grade.  When every age fits 64 bits and [st.dataframe]
    takes the rows, the table is shown. *)
Theorem table_metrics_bounds
    (dataframe : list (list (string * value)) -> option exn)
    (students : list Student) :
  match display_students_table dataframe students with
  | Ok None => students = []
  | Ok (Some t) =>
      students <> [] /\
      dataframe (map table_row students) = None /\
      rows t = map table_row students /\
      total_students t = List.length students /\
      List.length (rows t) = total_students t /\
      excellent_count t <= total_students t /\
      1 <= different_grades t <= total_students t /\
      (NoDup (map grade students) -> different_grades t = total_students t)
  | Raise e =>
      students <> [] /\
      (dataframe (map table_row students) = Some e \/
       (dataframe (map table_row students) = None /\
        e = OverflowError /\
        ((2 ^ 1024 - 2 ^ 970) * Z.of_nat (List.length students)
         <= Z.abs (age_sum students))%Z))
  end /\
  (students <> [] ->
   dataframe (map table_row students) = None ->
   Forall (fun s => (- 2 ^ 63 <= age s < 2 ^ 63)%Z) students ->
   exists t, display_students_table dataframe students = Ok (Some t)).
Proof.
  split.
  - destruct students as [|s students]; [reflexivity|].
    unfold display_students_table.
    destruct (dataframe (map table_row (s :: students))) as [e|].
    { split; [discriminate | now left]. }
    destruct (true_divide_overflows _ _) eqn:Hdiv.
    { split; [discriminate|]. right. split; [reflexivity|].
      split; [reflexivity|]. now apply TableFacts.true_divide_overflows_iff. }
    cbn [rows total_students excellent_count different_grades].
    split; [discriminate|]. split; [reflexivity|]. split; [reflexivity|].
    split; [reflexivity|]. split; [apply length_map|].
    split; [apply filter_length_le|].
    rewrite <- (length_map grade (s :: students)). split; [split|].
    + apply TableFacts.distinct_count_pos. discriminate.
    + apply TableFacts.distinct_count_le.
    + apply TableFacts.distinct_count_NoDup.
  - intros Hne Hshown Hages.
    destruct students as [|s students]; [congruence|].
    unfold display_students_table. rewrite Hshown.
    rewrite (TableFacts.true_divide_fits _ Hne Hages). eexists. reflexivity.
Qed.

(** X16: the outcome of the table does not depend on the order of the
    students, as long as [st.dataframe] treats the two lists of rows alike:
    two lists with the same records both show nothing, or both raise the
    same exception, or show the same total, the same count of excellent
    students, the same sum of ages and the same number of different grades,
    and the same rows up to their order. *)
Theorem table_metrics_permutation
    (dataframe : list (list (string * value)) -> option exn)
    (students students' : list Student) :
  Permutation students students' ->
  dataframe (map table_row students) = dataframe (map table_row students') ->
  match display_students_table dataframe students,
        display_students_table dataframe students' with
  | Ok None, Ok None => True
  | Ok (Some t), Ok (Some t') =>
      Permutation (rows t) (rows t') /\
      total_students t = total_students t' /\
      excellent_count t = excellent_count t' /\
      ages_total t = ages_total t' /\
      different_grades t = different_grades t'
  | Raise e, Raise e' => e = e'
  | _, _ => False
  end.
Proof.
  intros H Hdf.
  destruct students as [|s students], students' as [|s' students'].
  - exact I.
  - now apply Permutation_nil in H.
  - apply Permutation_sym in H. now apply Permutation_nil in H.
  - unfold display_students_table. rewrite <- Hdf.
    destruct (dataframe (map table_row (s :: students))) as [e|];
      [reflexivity|].
    rewrite <- (TableFacts.true_divide_perm _ _ H).
    destruct (true_divide_overflows _ _); [reflexivity|].
    cbn [rows total_students excellent_count ages_total different_grades].
    split; [now apply Permutation_map|].
    split; [now apply Permutation_length|].
    split; [now apply TableFacts.filter_length_perm|].
    split; [now apply TableFacts.age_sum_perm|].
    apply TableFacts.distinct_count_perm. now apply Permutation_map.
Qed.

Lemma table_metrics_permutation_witness :
  Permutation [alice; bob] bob_first /\
  dataframe_64_bits (map table_row [alice; bob])
  = dataframe_64_bits (map table_row bob_first) /\
  match display_students_table dataframe_64_bits [alice; bob],
        display_students_table dataframe_64_bits bob_first with
  | Ok None, Ok None => True
  | Ok (Some t), Ok (Some t') =>
      Permutation (rows t) (rows t') /\
      total_students t = total_students t' /\
      excellent_count t = excellent_count t' /\
      ages_total t = ages_total t' /\
      different_grades t = different_grades t'
  | Raise e, Raise e' => e = e'
  | _, _ => False
  end.
Proof.
  assert (Permutation [alice; bob] bob_first) as H by apply perm_swap.
  assert (dataframe_64_bits (map table_row [alice; bob])
          = dataframe_64_bits (map table_row bob_first)) as Hdf
    by (vm_compute; reflexivity).
  exact (conj H (conj Hdf
           (table_metrics_permutation dataframe_64_bits [alice; bob] bob_first
              H Hdf))).
Defined.

(** X17: when every age lies between 5 and 100, as the add and update
    paths ensure, the sum of ages the average is computed from lies between
    5 times and 100 times the total. *)
Theorem table_age_total_bounds
    (dataframe : list (list (string * value)) -> option exn)
    (students : list Student) (t : table) :
  Forall (fun s => (5 <= age s <= 100)%Z) students ->
  display_students_table dataframe students = Ok (Some t) ->
  (5 * Z.of_nat (total_students t) <= ages_total t
   <= 100 * Z.of_nat (total_students t))%Z.
Proof.
  intros Hages Ht. destruct students as [|s students]; [discriminate|].
  unfold display_students_table in Ht.
  destruct (dataframe _); [discriminate|].
  destruct (true_divide_overflows _ _); [discriminate|].
  injection Ht as <-.
  exact (TableFacts.age_sum_bounds (s :: students) Hages).
Qed.

Lemma table_age_total_witness :
  Forall (fun s => (5 <= age s <= 100)%Z) [alice; bob] /\
  display_students_table dataframe_64_bits [alice; bob]
  = Ok (Some (mkTable (map table_row [alice; bob]) 2 0 41 2)) /\
  (5 * Z.of_nat (total_students (mkTable (map table_row [alice; bob]) 2 0 41 2))
   <= ages_total (mkTable (map table_row [alice; bob]) 2 0 41 2)
   <= 100 * Z.of_nat (total_students (mkTable (map table_row [alice; bob]) 2 0 41 2)))%Z.
Proof.
  assert (Forall (fun s => (5 <= age s <= 100)%Z) [alice; bob]) as H1.
  { repeat constructor; simpl; lia. }
  assert (display_students_table dataframe_64_bits [alice; bob]
          = Ok (Some (mkTable (map table_row [alice; bob]) 2 0 41 2))) as H2
    by (vm_compute; reflexivity).
  exact (conj H1 (conj H2
           (table_age_total_bounds dataframe_64_bits [alice; bob] _ H1 H2))).
Defined.
